(** * A request multiplexer for Terraform provider servers

    Shallow embedding of the [tfmux] package (the schema server factory and
    the schema server it produces) and of [dynamicValueEquals] from the
    [tf6muxserver] package, with the properties of the routing and of the
    fan-out operations. *)

From Stdlib Require Import ZArith Lia.
From stdpp Require Import base option list strings gmap fin_maps.

Open Scope Z_scope.

(** ** Go run-time notions the packages rely on *)

(** A Go call either returns or panics (nil dereference, index out of
    range). *)
Inductive Outcome (A : Type) : Type :=
| Returned (a : A)
| Panicked.
Arguments Returned {A} a.
Arguments Panicked {A}.

(** [l[i]] for a Go [int] index: [None] stands for the run-time panic. *)
Definition index {A : Type} (l : list A) (i : Z) : option A :=
  if i <? 0 then None else l !! Z.to_nat i.

(** The order in which [range] walks a map is unspecified in Go: it is some
    enumeration of the entries, each exactly once. *)
Class MapRange := {
  map_range : forall {V : Type}, gmap string V -> list (string * V);
  map_range_perm : forall (V : Type) (m : gmap string V),
    map_range m ≡ₚ map_to_list m;
}.

(** ** The part of [tfprotov5] the mux reads *)
Module tfprotov5.

Inductive Rpc : Type :=
| GetProviderSchemaRpc
| PrepareProviderConfigRpc
| ValidateResourceTypeConfigRpc
| ValidateDataSourceConfigRpc
| UpgradeResourceStateRpc
| ConfigureProviderRpc
| ReadResourceRpc
| PlanResourceChangeRpc
| ApplyResourceChangeRpc
| ImportResourceStateRpc
| ReadDataSourceRpc
| StopProviderRpc.

(** Modelled from the spec: the protocol messages are declared in the
    [tfprotov5] library, not in this repository. The mux reads the type name
    of a request and never looks into a schema, an attribute path, the other
    fields of a request, or a response it only forwards; these stay
    abstract. [BackendError] is the type of the [error] values backends
    return. *)
Class Protocol := {
  Schema : Type;
  AttributePath : Type;
  Request : Rpc -> Type;
  Response : Rpc -> Type;
  TypeName : forall rpc, Request rpc -> string;
  GetProviderSchemaRequest_empty : Request GetProviderSchemaRpc;
  BackendError : Type;
}.

(** Modelled from the spec: severity is error, or warning or lower. *)
Inductive DiagnosticSeverity : Type :=
| DiagnosticSeverityInvalid
| DiagnosticSeverityError
| DiagnosticSeverityWarning.

#[global] Instance DiagnosticSeverity_eq_dec : EqDecision DiagnosticSeverity.
Proof. solve_decision. Defined.

Section Messages.
Context {P : Protocol}.

(** Modelled from the spec: a diagnostic has a severity, an attribute path
    that may be absent, a summary and a detail. *)
Record Diagnostic : Type := {
  Severity : DiagnosticSeverity;
  Summary : string;
  Detail : string;
  Attribute : option AttributePath;
}.

(** Pointers are options: [None] is [nil]. *)
Record GetProviderSchemaResponse : Type := {
  Provider : option Schema;
  ProviderMeta : option Schema;
  ResourceSchemas : gmap string (option Schema);
  DataSourceSchemas : gmap string (option Schema);
  GetProviderSchemaResponse_Diagnostics : list (option Diagnostic);
}.

Record ConfigureProviderResponse : Type := {
  ConfigureProviderResponse_Diagnostics : list (option Diagnostic);
}.

Record StopProviderResponse : Type := {
  Error : string;
}.

(** The server interface: one method per RPC, each returning a response
    pointer and an error. A method is a function of its request. *)
Record ProviderServer : Type := {
  GetProviderSchema :
    Request GetProviderSchemaRpc ->
    option GetProviderSchemaResponse * option BackendError;
  PrepareProviderConfig :
    Request PrepareProviderConfigRpc ->
    option (Response PrepareProviderConfigRpc) * option BackendError;
  ValidateResourceTypeConfig :
    Request ValidateResourceTypeConfigRpc ->
    option (Response ValidateResourceTypeConfigRpc) * option BackendError;
  ValidateDataSourceConfig :
    Request ValidateDataSourceConfigRpc ->
    option (Response ValidateDataSourceConfigRpc) * option BackendError;
  UpgradeResourceState :
    Request UpgradeResourceStateRpc ->
    option (Response UpgradeResourceStateRpc) * option BackendError;
  ConfigureProvider :
    Request ConfigureProviderRpc ->
    option ConfigureProviderResponse * option BackendError;
  ReadResource :
    Request ReadResourceRpc ->
    option (Response ReadResourceRpc) * option BackendError;
  PlanResourceChange :
    Request PlanResourceChangeRpc ->
    option (Response PlanResourceChangeRpc) * option BackendError;
  ApplyResourceChange :
    Request ApplyResourceChangeRpc ->
    option (Response ApplyResourceChangeRpc) * option BackendError;
  ImportResourceState :
    Request ImportResourceStateRpc ->
    option (Response ImportResourceStateRpc) * option BackendError;
  ReadDataSource :
    Request ReadDataSourceRpc ->
    option (Response ReadDataSourceRpc) * option BackendError;
  StopProvider :
    Request StopProviderRpc ->
    option StopProviderResponse * option BackendError;
}.
End Messages.

End tfprotov5.

(** ** Package tf6muxserver: equality of dynamic values *)
Module tf6muxserver.

Section DynamicValueEquality.
(** The values of [tfprotov6] and [tftypes] the function handles:
    dynamic values, types, unmarshalled values and the errors of
    unmarshalling. [Unmarshal] takes the type as the Go method does, nil
    included, and may panic; [Equal] compares two values. *)
Context {DynamicValue Ty Value UnmarshalError : Type}.
Variable Unmarshal :
  DynamicValue -> option Ty -> Outcome (Value * option UnmarshalError).
Variable Equal : Value -> Value -> bool.

Inductive error : Type :=
| ErrMissingType
| ErrUnmarshal (err : UnmarshalError).

(** The result carries the calls made to [Unmarshal], in order, and how
    the function ended. *)
Definition dynamicValueEquals (schemaType : option Ty)
    (i j : option DynamicValue)
    : list (DynamicValue * option Ty) * Outcome (bool * option error) :=
  match i with
  | None => ([], Returned (match j with None => true | Some _ => false end, None))
  | Some iv =>
      match j with
      | None => ([], Returned (false, None))
      | Some jv =>
          match schemaType with
          | None => ([], Returned (false, Some ErrMissingType))
          | Some _ =>
              match Unmarshal iv schemaType with
              | Panicked => ([(iv, schemaType)], Panicked)
              | Returned (_, Some err) =>
                  ([(iv, schemaType)], Returned (false, Some (ErrUnmarshal err)))
              | Returned (iValue, None) =>
                  match Unmarshal jv schemaType with
                  | Panicked => ([(iv, schemaType); (jv, schemaType)], Panicked)
                  | Returned (_, Some err) =>
                      ([(iv, schemaType); (jv, schemaType)],
                       Returned (false, Some (ErrUnmarshal err)))
                  | Returned (jValue, None) =>
                      ([(iv, schemaType); (jv, schemaType)],
                       Returned (Equal iValue jValue, None))
                  end
              end
          end
      end
  end.
End DynamicValueEquality.

End tf6muxserver.

(** *** Concrete dynamic values, to run [dynamicValueEquals] on *)
Module tf6Examples.

(** Dynamic values are numbers and types are unit: unmarshalling panics
    on a nil type, fails on 0, and gives the number halved otherwise. *)
Definition halve (value : nat) (schemaType : option unit)
    : Outcome (nat * option string) :=
  match schemaType with
  | None => Panicked
  | Some _ =>
      match value with
      | O => Returned (O, Some "zero"%string)
      | S _ => Returned (Nat.div2 value, None)
      end
  end.

End tf6Examples.

(** ** Package tfmux *)
Module tfmux.

Section Model.
Context {P : tfprotov5.Protocol}.

#[local] Abbreviation ProviderServer := tfprotov5.ProviderServer.
#[local] Abbreviation Diagnostic := tfprotov5.Diagnostic.
#[local] Abbreviation Schema := tfprotov5.Schema.
#[local] Abbreviation Request := tfprotov5.Request.
#[local] Abbreviation Response := tfprotov5.Response.

(** [func() tfprotov5.ProviderServer] *)
Definition ServerFactory : Type := unit -> ProviderServer.

(** The errors the package makes with [fmt.Errorf], one constructor per
    format string, carrying the operands of the call; [FromBackend] is an
    error of a backend handed on as it is. *)
Inductive error : Type :=
| FromBackend (err : tfprotov5.BackendError)
| ErrRetrievingSchema (s : ProviderServer) (err : tfprotov5.BackendError)
| ErrSchemaDiagnostic (s : ProviderServer)
    (attribute : option tfprotov5.AttributePath) (summary detail : string)
| ErrProviderSchemaMultiple (first : option ServerFactory) (s : ProviderServer)
| ErrProviderMetaSchemaMultiple (first : option ServerFactory) (s : ProviderServer)
| ErrResourceMultiple (resource : string)
    (first : option ServerFactory) (s : ProviderServer)
| ErrDataSourceMultiple (data : string)
    (first : option ServerFactory) (s : ProviderServer)
| ErrNoProviderSchemaServer
| ErrNotSupported (typeName : string)
| ErrConfiguring (server : ProviderServer) (err : tfprotov5.BackendError)
| ErrStopping (server : ProviderServer) (err : tfprotov5.BackendError).

(** *** Calls to backends, recorded *)

Inductive Event : Type :=
| Called (server : ProviderServer) (rpc : tfprotov5.Rpc) (req : Request rpc).

(** A computation of the package: the backend calls it made, in order, and
    how it ended. *)
Definition M (A : Type) : Type := list Event * Outcome A.

Definition ret {A} (a : A) : M A := ([], Returned a).

Definition bind {A B} (m : M A) (k : A -> M B) : M B :=
  match m with
  | (t, Returned a) => let '(t', r) := k a in (t ++ t', r)
  | (t, Panicked) => (t, Panicked)
  end.

Definition panic {A} : M A := ([], Panicked).

(** Calling method [rpc] of [server] with [req], where [result] is what
    the method returns. *)
Definition call {A} (server : ProviderServer) (rpc : tfprotov5.Rpc)
    (req : Request rpc) (result : A) : M A :=
  ([Called server rpc req], Returned result).

(** [*p] *)
Definition deref {A} (p : option A) : M A :=
  match p with
  | Some a => ret a
  | None => panic
  end.

Definition calls {A} (m : M A) : list Event := fst m.
Definition outcome {A} (m : M A) : Outcome A := snd m.
End Model.

Notation "'let*' x ':=' m 'in' k" := (bind m (fun x => k))
  (at level 10, x pattern, m at level 100, k at level 200).

(** *** The schema server *)
Module SchemaServer.
Section Server.
Context {P : tfprotov5.Protocol}.

#[local] Abbreviation ProviderServer := (@tfprotov5.ProviderServer P).
#[local] Abbreviation Diagnostic := (@tfprotov5.Diagnostic P).
#[local] Abbreviation Schema := (@tfprotov5.Schema P).
#[local] Abbreviation Request := (@tfprotov5.Request P).
#[local] Abbreviation Response := (@tfprotov5.Response P).

Record t : Type := {
  resources : gmap string ProviderServer;
  dataSources : gmap string ProviderServer;
  servers : list ProviderServer;
  getSchemaHandler :
    Request tfprotov5.GetProviderSchemaRpc ->
    option tfprotov5.GetProviderSchemaResponse * option error;
  prepareProviderConfigServer : Z;
}.

(** A backend's error handed to the caller unchanged. *)
Definition forward {A} (r : option A * option tfprotov5.BackendError)
    : option A * option error :=
  (r.1, FromBackend <$> r.2).

Definition GetProviderSchema (s : t)
    (req : Request tfprotov5.GetProviderSchemaRpc)
    : M (option tfprotov5.GetProviderSchemaResponse * option error) :=
  ret (getSchemaHandler s req).

Definition PrepareProviderConfig (s : t)
    (req : Request tfprotov5.PrepareProviderConfigRpc)
    : M (option (Response tfprotov5.PrepareProviderConfigRpc) * option error) :=
  if (prepareProviderConfigServer s <? 0)
     || (Z.of_nat (length (servers s)) <=? prepareProviderConfigServer s)
  then ret (None, Some ErrNoProviderSchemaServer)
  else
    let* server := deref (index (servers s) (prepareProviderConfigServer s)) in
    let* r := call server _ req (tfprotov5.PrepareProviderConfig server req) in
    ret (forward r).

Definition ValidateResourceTypeConfig (s : t)
    (req : Request tfprotov5.ValidateResourceTypeConfigRpc)
    : M (option (Response tfprotov5.ValidateResourceTypeConfigRpc) * option error) :=
  match resources s !! tfprotov5.TypeName _ req with
  | None => ret (None, Some (ErrNotSupported (tfprotov5.TypeName _ req)))
  | Some h =>
      let* r := call h _ req (tfprotov5.ValidateResourceTypeConfig h req) in
      ret (forward r)
  end.

Definition ValidateDataSourceConfig (s : t)
    (req : Request tfprotov5.ValidateDataSourceConfigRpc)
    : M (option (Response tfprotov5.ValidateDataSourceConfigRpc) * option error) :=
  match dataSources s !! tfprotov5.TypeName _ req with
  | None => ret (None, Some (ErrNotSupported (tfprotov5.TypeName _ req)))
  | Some h =>
      let* r := call h _ req (tfprotov5.ValidateDataSourceConfig h req) in
      ret (forward r)
  end.

Definition UpgradeResourceState (s : t)
    (req : Request tfprotov5.UpgradeResourceStateRpc)
    : M (option (Response tfprotov5.UpgradeResourceStateRpc) * option error) :=
  match resources s !! tfprotov5.TypeName _ req with
  | None => ret (None, Some (ErrNotSupported (tfprotov5.TypeName _ req)))
  | Some h =>
      let* r := call h _ req (tfprotov5.UpgradeResourceState h req) in
      ret (forward r)
  end.

(** The walk over one response's diagnostics in [ConfigureProvider]:
    [diags] is the accumulator, the boolean tells whether a diagnostic of
    error severity ended the walk. *)
Fixpoint ConfigureProvider_diags (respDiags diags : list (option Diagnostic))
    : list (option Diagnostic) * bool :=
  match respDiags with
  | [] => (diags, false)
  | None :: rest => ConfigureProvider_diags rest diags
  | Some diag :: rest =>
      let diags := diags ++ [Some diag] in
      if decide (tfprotov5.Severity diag ≠ tfprotov5.DiagnosticSeverityError)
      then ConfigureProvider_diags rest diags
      else (diags, true)
  end.

Fixpoint ConfigureProvider_servers (l : list ProviderServer)
    (req : Request tfprotov5.ConfigureProviderRpc)
    (diags : list (option Diagnostic))
    : M (option tfprotov5.ConfigureProviderResponse * option error) :=
  match l with
  | [] =>
      ret (Some {| tfprotov5.ConfigureProviderResponse_Diagnostics := diags |},
           None)
  | server :: rest =>
      let* (resp, err) :=
        call server _ req (tfprotov5.ConfigureProvider server req) in
      match err with
      | Some e => ret (resp, Some (ErrConfiguring server e))
      | None =>
          let* r := deref resp in
          let '(diags, stop) :=
            ConfigureProvider_diags
              (tfprotov5.ConfigureProviderResponse_Diagnostics r) diags in
          if stop
          then
            ret (Some {| tfprotov5.ConfigureProviderResponse_Diagnostics := diags |},
                 None)
          else ConfigureProvider_servers rest req diags
      end
  end.

Definition ConfigureProvider (s : t)
    (req : Request tfprotov5.ConfigureProviderRpc)
    : M (option tfprotov5.ConfigureProviderResponse * option error) :=
  ConfigureProvider_servers (servers s) req [].

Definition ReadResource (s : t)
    (req : Request tfprotov5.ReadResourceRpc)
    : M (option (Response tfprotov5.ReadResourceRpc) * option error) :=
  match resources s !! tfprotov5.TypeName _ req with
  | None => ret (None, Some (ErrNotSupported (tfprotov5.TypeName _ req)))
  | Some h =>
      let* r := call h _ req (tfprotov5.ReadResource h req) in
      ret (forward r)
  end.

Definition PlanResourceChange (s : t)
    (req : Request tfprotov5.PlanResourceChangeRpc)
    : M (option (Response tfprotov5.PlanResourceChangeRpc) * option error) :=
  match resources s !! tfprotov5.TypeName _ req with
  | None => ret (None, Some (ErrNotSupported (tfprotov5.TypeName _ req)))
  | Some h =>
      let* r := call h _ req (tfprotov5.PlanResourceChange h req) in
      ret (forward r)
  end.

Definition ApplyResourceChange (s : t)
    (req : Request tfprotov5.ApplyResourceChangeRpc)
    : M (option (Response tfprotov5.ApplyResourceChangeRpc) * option error) :=
  match resources s !! tfprotov5.TypeName _ req with
  | None => ret (None, Some (ErrNotSupported (tfprotov5.TypeName _ req)))
  | Some h =>
      let* r := call h _ req (tfprotov5.ApplyResourceChange h req) in
      ret (forward r)
  end.

Definition ImportResourceState (s : t)
    (req : Request tfprotov5.ImportResourceStateRpc)
    : M (option (Response tfprotov5.ImportResourceStateRpc) * option error) :=
  match resources s !! tfprotov5.TypeName _ req with
  | None => ret (None, Some (ErrNotSupported (tfprotov5.TypeName _ req)))
  | Some h =>
      let* r := call h _ req (tfprotov5.ImportResourceState h req) in
      ret (forward r)
  end.

Definition ReadDataSource (s : t)
    (req : Request tfprotov5.ReadDataSourceRpc)
    : M (option (Response tfprotov5.ReadDataSourceRpc) * option error) :=
  match dataSources s !! tfprotov5.TypeName _ req with
  | None => ret (None, Some (ErrNotSupported (tfprotov5.TypeName _ req)))
  | Some h =>
      let* r := call h _ req (tfprotov5.ReadDataSource h req) in
      ret (forward r)
  end.

Fixpoint StopProvider_servers (l : list ProviderServer)
    (req : Request tfprotov5.StopProviderRpc)
    : M (option tfprotov5.StopProviderResponse * option error) :=
  match l with
  | [] => ret (Some {| tfprotov5.Error := ""%string |}, None)
  | server :: rest =>
      let* (resp, err) :=
        call server _ req (tfprotov5.StopProvider server req) in
      match err with
      | Some e => ret (resp, Some (ErrStopping server e))
      | None =>
          let* r := deref resp in
          if decide (tfprotov5.Error r ≠ ""%string)
          then ret (resp, None)
          else StopProvider_servers rest req
      end
  end.

Definition StopProvider (s : t)
    (req : Request tfprotov5.StopProviderRpc)
    : M (option tfprotov5.StopProviderResponse * option error) :=
  StopProvider_servers (servers s) req.
End Server.
End SchemaServer.

(** *** The schema server factory *)
Module SchemaServerFactory.
Section Factory.
Context {P : tfprotov5.Protocol} {R : MapRange}.

#[local] Abbreviation ProviderServer := (@tfprotov5.ProviderServer P).
#[local] Abbreviation Diagnostic := (@tfprotov5.Diagnostic P).
#[local] Abbreviation Schema := (@tfprotov5.Schema P).
#[local] Abbreviation Request := (@tfprotov5.Request P).

(** A slot of [servers] is [None] until the loop of
    [NewSchemaServerFactory] fills it. *)
Record t : Type := {
  resources : gmap string Z;
  dataSources : gmap string Z;
  servers : list (option ServerFactory);
  resourceSchemas : gmap string (option Schema);
  dataSourceSchemas : gmap string (option Schema);
  providerSchema : option Schema;
  providerMetaSchema : option Schema;
  diagnostics : list (option Diagnostic);
  providerSchemaFrom : Z;
  providerMetaSchemaFrom : Z;
}.

(** Assignments to the fields of a factory: [set_x v s] is [s] after
    [s.x = v]. *)
Definition set_resources (v : gmap string Z) (s : t) : t :=
  {|     resources := v;
     dataSources := dataSources s;
     servers := servers s;
     resourceSchemas := resourceSchemas s;
     dataSourceSchemas := dataSourceSchemas s;
     providerSchema := providerSchema s;
     providerMetaSchema := providerMetaSchema s;
     diagnostics := diagnostics s;
     providerSchemaFrom := providerSchemaFrom s;
     providerMetaSchemaFrom := providerMetaSchemaFrom s |}.

Definition set_dataSources (v : gmap string Z) (s : t) : t :=
  {|     resources := resources s;
     dataSources := v;
     servers := servers s;
     resourceSchemas := resourceSchemas s;
     dataSourceSchemas := dataSourceSchemas s;
     providerSchema := providerSchema s;
     providerMetaSchema := providerMetaSchema s;
     diagnostics := diagnostics s;
     providerSchemaFrom := providerSchemaFrom s;
     providerMetaSchemaFrom := providerMetaSchemaFrom s |}.

Definition set_servers (v : list (option ServerFactory)) (s : t) : t :=
  {|     resources := resources s;
     dataSources := dataSources s;
     servers := v;
     resourceSchemas := resourceSchemas s;
     dataSourceSchemas := dataSourceSchemas s;
     providerSchema := providerSchema s;
     providerMetaSchema := providerMetaSchema s;
     diagnostics := diagnostics s;
     providerSchemaFrom := providerSchemaFrom s;
     providerMetaSchemaFrom := providerMetaSchemaFrom s |}.

Definition set_resourceSchemas (v : gmap string (option Schema)) (s : t) : t :=
  {|     resources := resources s;
     dataSources := dataSources s;
     servers := servers s;
     resourceSchemas := v;
     dataSourceSchemas := dataSourceSchemas s;
     providerSchema := providerSchema s;
     providerMetaSchema := providerMetaSchema s;
     diagnostics := diagnostics s;
     providerSchemaFrom := providerSchemaFrom s;
     providerMetaSchemaFrom := providerMetaSchemaFrom s |}.

Definition set_dataSourceSchemas (v : gmap string (option Schema)) (s : t) : t :=
  {|     resources := resources s;
     dataSources := dataSources s;
     servers := servers s;
     resourceSchemas := resourceSchemas s;
     dataSourceSchemas := v;
     providerSchema := providerSchema s;
     providerMetaSchema := providerMetaSchema s;
     diagnostics := diagnostics s;
     providerSchemaFrom := providerSchemaFrom s;
     providerMetaSchemaFrom := providerMetaSchemaFrom s |}.

Definition set_providerSchema (v : option Schema) (s : t) : t :=
  {|     resources := resources s;
     dataSources := dataSources s;
     servers := servers s;
     resourceSchemas := resourceSchemas s;
     dataSourceSchemas := dataSourceSchemas s;
     providerSchema := v;
     providerMetaSchema := providerMetaSchema s;
     diagnostics := diagnostics s;
     providerSchemaFrom := providerSchemaFrom s;
     providerMetaSchemaFrom := providerMetaSchemaFrom s |}.

Definition set_providerMetaSchema (v : option Schema) (s : t) : t :=
  {|     resources := resources s;
     dataSources := dataSources s;
     servers := servers s;
     resourceSchemas := resourceSchemas s;
     dataSourceSchemas := dataSourceSchemas s;
     providerSchema := providerSchema s;
     providerMetaSchema := v;
     diagnostics := diagnostics s;
     providerSchemaFrom := providerSchemaFrom s;
     providerMetaSchemaFrom := providerMetaSchemaFrom s |}.

Definition set_diagnostics (v : list (option Diagnostic)) (s : t) : t :=
  {|     resources := resources s;
     dataSources := dataSources s;
     servers := servers s;
     resourceSchemas := resourceSchemas s;
     dataSourceSchemas := dataSourceSchemas s;
     providerSchema := providerSchema s;
     providerMetaSchema := providerMetaSchema s;
     diagnostics := v;
     providerSchemaFrom := providerSchemaFrom s;
     providerMetaSchemaFrom := providerMetaSchemaFrom s |}.

Definition set_providerSchemaFrom (v : Z) (s : t) : t :=
  {|     resources := resources s;
     dataSources := dataSources s;
     servers := servers s;
     resourceSchemas := resourceSchemas s;
     dataSourceSchemas := dataSourceSchemas s;
     providerSchema := providerSchema s;
     providerMetaSchema := providerMetaSchema s;
     diagnostics := diagnostics s;
     providerSchemaFrom := v;
     providerMetaSchemaFrom := providerMetaSchemaFrom s |}.

Definition set_providerMetaSchemaFrom (v : Z) (s : t) : t :=
  {|     resources := resources s;
     dataSources := dataSources s;
     servers := servers s;
     resourceSchemas := resourceSchemas s;
     dataSourceSchemas := dataSourceSchemas s;
     providerSchema := providerSchema s;
     providerMetaSchema := providerMetaSchema s;
     diagnostics := diagnostics s;
     providerSchemaFrom := providerSchemaFrom s;
     providerMetaSchemaFrom := v |}.

Definition getSchemaHandler (s : t)
    (_ : Request tfprotov5.GetProviderSchemaRpc)
    : option tfprotov5.GetProviderSchemaResponse * option error :=
  (Some {| tfprotov5.Provider := providerSchema s;
           tfprotov5.ResourceSchemas := resourceSchemas s;
           tfprotov5.DataSourceSchemas := dataSourceSchemas s;
           tfprotov5.ProviderMeta := providerMetaSchema s;
           tfprotov5.GetProviderSchemaResponse_Diagnostics := [] |},
   None).

(** The first loop of [Server]: slot [pos] of the new slice receives
    [server()], for [pos] from 0 upwards, so the slice is built front to
    back; calling a nil function panics. *)
Fixpoint Server_servers (l : list (option ServerFactory))
    : M (list ProviderServer) :=
  match l with
  | [] => ret []
  | server :: rest =>
      let* f := deref server in
      let* tl := Server_servers rest in
      ret (f tt :: tl)
  end.

(** The two other loops of [Server], over the entries of a routing map of
    the factory in the order [range] gives them. *)
Fixpoint Server_routes (entries : list (string * Z))
    (resServers : list ProviderServer) (acc : gmap string ProviderServer)
    : M (gmap string ProviderServer) :=
  match entries with
  | [] => ret acc
  | (r, pos) :: rest =>
      let* h := deref (index resServers pos) in
      Server_routes rest resServers (<[r := h]> acc)
  end.

Definition Server (s : t) : M SchemaServer.t :=
  let* resServers := Server_servers (servers s) in
  let* resResources := Server_routes (map_range (resources s)) resServers ∅ in
  let* resDataSources := Server_routes (map_range (dataSources s)) resServers ∅ in
  ret {| SchemaServer.resources := resResources;
         SchemaServer.dataSources := resDataSources;
         SchemaServer.servers := resServers;
         SchemaServer.getSchemaHandler := getSchemaHandler s;
         SchemaServer.prepareProviderConfigServer := providerSchemaFrom s |}.
End Factory.
End SchemaServerFactory.

(** *** Building the factory *)
Section Build.
Context {P : tfprotov5.Protocol} {R : MapRange}.

#[local] Abbreviation ProviderServer := (@tfprotov5.ProviderServer P).
#[local] Abbreviation Diagnostic := (@tfprotov5.Diagnostic P).
#[local] Abbreviation Schema := (@tfprotov5.Schema P).
#[local] Abbreviation Factory := (@SchemaServerFactory.t P).

Import SchemaServerFactory.

(** Where a function of the build returns [(factory, Some err)] the Go
    function returns [factory, err] at once; [(factory, None)] goes on. *)
Definition andThen (m : M (Factory * option error))
    (k : Factory -> M (Factory * option error))
    : M (Factory * option error) :=
  let* (factory, err) := m in
  match err with
  | Some e => ret (factory, Some e)
  | None => k factory
  end.

(** The loop over [resp.Diagnostics]: the accumulator, and the diagnostic
    of error severity that ended the walk, if any. *)
Fixpoint NewSchemaServerFactory_diags
    (respDiags diags : list (option Diagnostic))
    : list (option Diagnostic) * option Diagnostic :=
  match respDiags with
  | [] => (diags, None)
  | None :: rest => NewSchemaServerFactory_diags rest diags
  | Some diag :: rest =>
      if decide (tfprotov5.Severity diag ≠ tfprotov5.DiagnosticSeverityError)
      then NewSchemaServerFactory_diags rest (diags ++ [Some diag])
      else (diags, Some diag)
  end.

Definition NewSchemaServerFactory_diagnostics (s : ProviderServer)
    (resp : tfprotov5.GetProviderSchemaResponse) (factory : Factory)
    : M (Factory * option error) :=
  let '(diags, failed) :=
    NewSchemaServerFactory_diags
      (tfprotov5.GetProviderSchemaResponse_Diagnostics resp)
      (diagnostics factory) in
  let factory :=
    set_diagnostics diags factory in
  match failed with
  | Some diag =>
      ret (factory,
           Some (ErrSchemaDiagnostic s (tfprotov5.Attribute diag)
                   (tfprotov5.Summary diag) (tfprotov5.Detail diag)))
  | None => ret (factory, None)
  end.

Definition NewSchemaServerFactory_provider (pos : nat) (s : ProviderServer)
    (resp : tfprotov5.GetProviderSchemaResponse) (factory : Factory)
    : M (Factory * option error) :=
  match tfprotov5.Provider resp, providerSchema factory with
  | Some _, Some _ =>
      let* first := deref (index (servers factory) (providerSchemaFrom factory)) in
      ret (factory, Some (ErrProviderSchemaMultiple first s))
  | Some schema, None =>
      ret (set_providerSchema (Some schema)
             (set_providerSchemaFrom (Z.of_nat pos) factory),
           None)
  | None, _ => ret (factory, None)
  end.

Definition NewSchemaServerFactory_providerMeta (pos : nat) (s : ProviderServer)
    (resp : tfprotov5.GetProviderSchemaResponse) (factory : Factory)
    : M (Factory * option error) :=
  match tfprotov5.ProviderMeta resp, providerMetaSchema factory with
  | Some _, Some _ =>
      let* first :=
        deref (index (servers factory) (providerMetaSchemaFrom factory)) in
      ret (factory, Some (ErrProviderMetaSchemaMultiple first s))
  | Some schema, None =>
      ret (set_providerMetaSchema (Some schema)
             (set_providerMetaSchemaFrom (Z.of_nat pos) factory),
           None)
  | None, _ => ret (factory, None)
  end.

(** The loop over [resp.ResourceSchemas], and with the data-source maps in
    place of the resource maps the loop over [resp.DataSourceSchemas]:
    the two routing maps as the loop leaves them, and the name found
    registered already with the position it is registered to, if any. *)
Fixpoint NewSchemaServerFactory_register
    (entries : list (string * option Schema)) (pos : nat)
    (owners : gmap string Z) (schemas : gmap string (option Schema))
    : gmap string Z * gmap string (option Schema) * option (string * Z) :=
  match entries with
  | [] => (owners, schemas, None)
  | (name, schema) :: rest =>
      match owners !! name with
      | Some v => (owners, schemas, Some (name, v))
      | None =>
          NewSchemaServerFactory_register rest pos
            (<[name := Z.of_nat pos]> owners) (<[name := schema]> schemas)
      end
  end.

Definition NewSchemaServerFactory_resources (pos : nat) (s : ProviderServer)
    (resp : tfprotov5.GetProviderSchemaResponse) (factory : Factory)
    : M (Factory * option error) :=
  let '(owners, schemas, dup) :=
    NewSchemaServerFactory_register
      (map_range (tfprotov5.ResourceSchemas resp)) pos
      (resources factory) (resourceSchemas factory) in
  let factory :=
    set_resourceSchemas schemas (set_resources owners factory) in
  match dup with
  | Some (resource, v) =>
      let* first := deref (index (servers factory) v) in
      ret (factory, Some (ErrResourceMultiple resource first s))
  | None => ret (factory, None)
  end.

Definition NewSchemaServerFactory_dataSources (pos : nat) (s : ProviderServer)
    (resp : tfprotov5.GetProviderSchemaResponse) (factory : Factory)
    : M (Factory * option error) :=
  let '(owners, schemas, dup) :=
    NewSchemaServerFactory_register
      (map_range (tfprotov5.DataSourceSchemas resp)) pos
      (dataSources factory) (dataSourceSchemas factory) in
  let factory :=
    set_dataSourceSchemas schemas (set_dataSources owners factory) in
  match dup with
  | Some (data, v) =>
      let* first := deref (index (servers factory) v) in
      ret (factory, Some (ErrDataSourceMultiple data first s))
  | None => ret (factory, None)
  end.

(** One turn of the loop over [servers]. *)
Definition NewSchemaServerFactory_server (pos : nat) (server : ServerFactory)
    (factory : Factory) : M (Factory * option error) :=
  let s := server tt in
  let* (resp, err) :=
    call s _ tfprotov5.GetProviderSchemaRequest_empty
      (tfprotov5.GetProviderSchema s tfprotov5.GetProviderSchemaRequest_empty) in
  match err with
  | Some e => ret (factory, Some (ErrRetrievingSchema s e))
  | None =>
      if decide (length (servers factory) <= pos)%nat then panic else
      let factory :=
        set_servers (<[pos := Some server]> (servers factory)) factory in
      let* resp := deref resp in
      andThen (NewSchemaServerFactory_diagnostics s resp factory) (fun factory =>
      andThen (NewSchemaServerFactory_provider pos s resp factory) (fun factory =>
      andThen (NewSchemaServerFactory_providerMeta pos s resp factory) (fun factory =>
      andThen (NewSchemaServerFactory_resources pos s resp factory) (fun factory =>
      NewSchemaServerFactory_dataSources pos s resp factory))))
  end.

Fixpoint NewSchemaServerFactory_servers (pos : nat) (l : list ServerFactory)
    (factory : Factory) : M (Factory * option error) :=
  match l with
  | [] => ret (factory, None)
  | server :: rest =>
      andThen (NewSchemaServerFactory_server pos server factory)
        (NewSchemaServerFactory_servers (S pos) rest)
  end.

Definition NewSchemaServerFactory (servers : list ServerFactory)
    : M (Factory * option error) :=
  NewSchemaServerFactory_servers 0 servers
    {| resources := ∅;
       dataSources := ∅;
       SchemaServerFactory.servers := replicate (length servers) None;
       resourceSchemas := ∅;
       dataSourceSchemas := ∅;
       providerSchema := None;
       providerMetaSchema := None;
       diagnostics := [];
       providerSchemaFrom := -1;
       providerMetaSchemaFrom := -1 |}.
End Build.

(** *** Concrete backends, to run the definitions on *)
Module Examples.

#[export] Instance string_protocol : tfprotov5.Protocol := {|
  tfprotov5.Schema := string;
  tfprotov5.AttributePath := string;
  tfprotov5.Request := fun _ => string;
  tfprotov5.Response := fun _ => string;
  tfprotov5.TypeName := fun _ req => req;
  tfprotov5.GetProviderSchemaRequest_empty := ""%string;
  tfprotov5.BackendError := string;
|}.

(** One possible order of [range]: the order of [map_to_list]. *)
#[export] Instance range_to_list : MapRange := {|
  map_range := fun V m => map_to_list m;
  map_range_perm := fun V m => reflexivity (map_to_list m);
|}.

Definition warning (summary : string) : tfprotov5.Diagnostic :=
  {| tfprotov5.Severity := tfprotov5.DiagnosticSeverityWarning;
     tfprotov5.Summary := summary;
     tfprotov5.Detail := "detail"%string;
     tfprotov5.Attribute := None |}.

Definition failure (summary : string) : tfprotov5.Diagnostic :=
  {| tfprotov5.Severity := tfprotov5.DiagnosticSeverityError;
     tfprotov5.Summary := summary;
     tfprotov5.Detail := "detail"%string;
     tfprotov5.Attribute := Some "attr"%string |}.

Definition schemaResponse (provider providerMeta : option string)
    (resourceNames dataSourceNames : list string)
    (diags : list (option tfprotov5.Diagnostic))
    : tfprotov5.GetProviderSchemaResponse :=
  {| tfprotov5.Provider := provider;
     tfprotov5.ProviderMeta := providerMeta;
     tfprotov5.ResourceSchemas :=
       list_to_map ((fun n => (n, Some n)) <$> resourceNames);
     tfprotov5.DataSourceSchemas :=
       list_to_map ((fun n => (n, Some n)) <$> dataSourceNames);
     tfprotov5.GetProviderSchemaResponse_Diagnostics := diags |}.

(** A backend that answers every forwarded request with its own name
    followed by the request, and the three other RPCs as given. *)
Definition testServer (name : string)
    (schema : option tfprotov5.GetProviderSchemaResponse * option string)
    (configure : option tfprotov5.ConfigureProviderResponse * option string)
    (stop : option tfprotov5.StopProviderResponse * option string)
    : tfprotov5.ProviderServer :=
  let answer (req : string) : option string * option string :=
    (Some (name ++ ":" ++ req)%string, None) in
  {| tfprotov5.GetProviderSchema := fun _ => schema;
     tfprotov5.PrepareProviderConfig := answer;
     tfprotov5.ValidateResourceTypeConfig := answer;
     tfprotov5.ValidateDataSourceConfig := answer;
     tfprotov5.UpgradeResourceState := answer;
     tfprotov5.ConfigureProvider := fun _ => configure;
     tfprotov5.ReadResource := answer;
     tfprotov5.PlanResourceChange := answer;
     tfprotov5.ApplyResourceChange := answer;
     tfprotov5.ImportResourceState := answer;
     tfprotov5.ReadDataSource := answer;
     tfprotov5.StopProvider := fun _ => stop |}.

Definition configured (diags : list (option tfprotov5.Diagnostic))
    : option tfprotov5.ConfigureProviderResponse * option string :=
  (Some {| tfprotov5.ConfigureProviderResponse_Diagnostics := diags |}, None).

Definition stopped (err : string)
    : option tfprotov5.StopProviderResponse * option string :=
  (Some {| tfprotov5.Error := err |}, None).

Definition serverA : tfprotov5.ProviderServer :=
  testServer "A"
    (Some (schemaResponse (Some "provider"%string) None
             ["a_thing"%string] ["a_data"%string]
             [Some (warning "a1"); None; Some (warning "a2")]), None)
    (configured [Some (warning "a1"); None])
    (stopped "a failed").

Definition serverB : tfprotov5.ProviderServer :=
  testServer "B"
    (Some (schemaResponse None (Some "meta"%string)
             ["b_thing"%string] ["b_data"%string]
             [Some (warning "b1")]), None)
    (configured [Some (warning "b1"); None; Some (failure "b2");
                 Some (warning "b3")])
    (stopped "").

Definition serverC : tfprotov5.ProviderServer :=
  testServer "C"
    (Some (schemaResponse None None ["c_thing"%string] [] []), None)
    (configured [Some (warning "c1")])
    (stopped "c failed").

(** A backend whose schema response carries a diagnostic of error
    severity after a warning and a nil entry. *)
Definition serverD : tfprotov5.ProviderServer :=
  testServer "D"
    (Some (schemaResponse None None ["d_thing"%string] []
             [Some (warning "d1"); None; Some (failure "d2");
              Some (warning "d3")]), None)
    (configured [])
    (stopped "").



Definition serverG : tfprotov5.ProviderServer :=
  testServer "G"
    (Some (schemaResponse None None ["a_thing"%string] [] []), None)
    (configured [])
    (stopped "").

Definition serverH : tfprotov5.ProviderServer :=
  testServer "H"
    (Some (schemaResponse None None [] ["a_data"%string] []), None)
    (configured [])
    (stopped "").

Definition factoryOf (s : tfprotov5.ProviderServer) : ServerFactory :=
  fun _ => s.

(** The factory that the build over [serverA], [serverB] and [serverC]
    is expected to give, and the server expected of that factory. *)
Definition abcFactory : SchemaServerFactory.t :=
  {| SchemaServerFactory.resources :=
       list_to_map [("a_thing"%string, 0); ("b_thing"%string, 1);
                    ("c_thing"%string, 2)];
     SchemaServerFactory.dataSources :=
       list_to_map [("a_data"%string, 0); ("b_data"%string, 1)];
     SchemaServerFactory.servers :=
       [Some (factoryOf serverA); Some (factoryOf serverB);
        Some (factoryOf serverC)];
     SchemaServerFactory.resourceSchemas :=
       list_to_map [("a_thing"%string, Some "a_thing"%string);
                    ("b_thing"%string, Some "b_thing"%string);
                    ("c_thing"%string, Some "c_thing"%string)];
     SchemaServerFactory.dataSourceSchemas :=
       list_to_map [("a_data"%string, Some "a_data"%string);
                    ("b_data"%string, Some "b_data"%string)];
     SchemaServerFactory.providerSchema := Some "provider"%string;
     SchemaServerFactory.providerMetaSchema := Some "meta"%string;
     SchemaServerFactory.diagnostics :=
       [Some (warning "a1"); Some (warning "a2"); Some (warning "b1")];
     SchemaServerFactory.providerSchemaFrom := 0;
     SchemaServerFactory.providerMetaSchemaFrom := 1 |}.

Definition abc : SchemaServer.t :=
  {| SchemaServer.resources :=
       list_to_map [("a_thing"%string, serverA); ("b_thing"%string, serverB);
                    ("c_thing"%string, serverC)];
     SchemaServer.dataSources :=
       list_to_map [("a_data"%string, serverA); ("b_data"%string, serverB)];
     SchemaServer.servers := [serverA; serverB; serverC];
     SchemaServer.getSchemaHandler := SchemaServerFactory.getSchemaHandler abcFactory;
     SchemaServer.prepareProviderConfigServer := 0 |}.
(** The same for the build over [serverA] and [serverC]. *)
Definition acFactory : SchemaServerFactory.t :=
  {| SchemaServerFactory.resources :=
       list_to_map [("a_thing"%string, 0); ("c_thing"%string, 1)];
     SchemaServerFactory.dataSources := list_to_map [("a_data"%string, 0)];
     SchemaServerFactory.servers :=
       [Some (factoryOf serverA); Some (factoryOf serverC)];
     SchemaServerFactory.resourceSchemas :=
       list_to_map [("a_thing"%string, Some "a_thing"%string);
                    ("c_thing"%string, Some "c_thing"%string)];
     SchemaServerFactory.dataSourceSchemas :=
       list_to_map [("a_data"%string, Some "a_data"%string)];
     SchemaServerFactory.providerSchema := Some "provider"%string;
     SchemaServerFactory.providerMetaSchema := None;
     SchemaServerFactory.diagnostics := [Some (warning "a1"); Some (warning "a2")];
     SchemaServerFactory.providerSchemaFrom := 0;
     SchemaServerFactory.providerMetaSchemaFrom := -1 |}.

Definition ac : SchemaServer.t :=
  {| SchemaServer.resources :=
       list_to_map [("a_thing"%string, serverA); ("c_thing"%string, serverC)];
     SchemaServer.dataSources := list_to_map [("a_data"%string, serverA)];
     SchemaServer.servers := [serverA; serverC];
     SchemaServer.getSchemaHandler := SchemaServerFactory.getSchemaHandler acFactory;
     SchemaServer.prepareProviderConfigServer := 0 |}.
(** The same for the build over [serverB] and [serverC], none of
    which declares a provider schema. *)
Definition bcFactory : SchemaServerFactory.t :=
  {| SchemaServerFactory.resources :=
       list_to_map [("b_thing"%string, 0); ("c_thing"%string, 1)];
     SchemaServerFactory.dataSources := list_to_map [("b_data"%string, 0)];
     SchemaServerFactory.servers :=
       [Some (factoryOf serverB); Some (factoryOf serverC)];
     SchemaServerFactory.resourceSchemas :=
       list_to_map [("b_thing"%string, Some "b_thing"%string);
                    ("c_thing"%string, Some "c_thing"%string)];
     SchemaServerFactory.dataSourceSchemas :=
       list_to_map [("b_data"%string, Some "b_data"%string)];
     SchemaServerFactory.providerSchema := None;
     SchemaServerFactory.providerMetaSchema := Some "meta"%string;
     SchemaServerFactory.diagnostics := [Some (warning "b1")];
     SchemaServerFactory.providerSchemaFrom := -1;
     SchemaServerFactory.providerMetaSchemaFrom := 0 |}.

Definition bc : SchemaServer.t :=
  {| SchemaServer.resources :=
       list_to_map [("b_thing"%string, serverB); ("c_thing"%string, serverC)];
     SchemaServer.dataSources := list_to_map [("b_data"%string, serverB)];
     SchemaServer.servers := [serverB; serverC];
     SchemaServer.getSchemaHandler := SchemaServerFactory.getSchemaHandler bcFactory;
     SchemaServer.prepareProviderConfigServer := -1 |}.
End Examples.

(** *** What the properties are stated with *)
Section Specification.
Context {P : tfprotov5.Protocol}.

#[local] Abbreviation ProviderServer := (@tfprotov5.ProviderServer P).
#[local] Abbreviation Diagnostic := (@tfprotov5.Diagnostic P).

(** A diagnostics entry that is nil or of a severity other than error. *)
Definition harmless (entry : option Diagnostic) : Prop :=
  forall diag, entry = Some diag ->
    tfprotov5.Severity diag ≠ tfprotov5.DiagnosticSeverityError.

#[global] Instance harmless_dec entry : Decision (harmless entry).
Proof.
  destruct entry as [diag|].
  - destruct (decide (tfprotov5.Severity diag ≠ tfprotov5.DiagnosticSeverityError))
      as [Hok|Hbad].
    + left. by intros ? [= <-].
    + right. intros Hall. by destruct (Hbad (Hall diag eq_refl)).
  - left. by intros ? [=].
Defined.

(** The diagnostics of the response [server] gives to a configure
    request. *)
Definition configureDiagnostics
    (req : tfprotov5.Request tfprotov5.ConfigureProviderRpc)
    (server : ProviderServer) : list (option Diagnostic) :=
  match (tfprotov5.ConfigureProvider server req).1 with
  | Some resp => tfprotov5.ConfigureProviderResponse_Diagnostics resp
  | None => []
  end.

(** [server] answers the configure request with a response, no error, and
    no diagnostic of error severity. *)
Definition configuresCleanly
    (req : tfprotov5.Request tfprotov5.ConfigureProviderRpc)
    (server : ProviderServer) : Prop :=
  exists resp,
    tfprotov5.ConfigureProvider server req = (Some resp, None) /\
    Forall harmless (tfprotov5.ConfigureProviderResponse_Diagnostics resp).

(** A type-keyed operation [op] of the mux routes by [table] to [method]
    of the backend registered for the type name of the request. *)
Definition routesByType {rpc : tfprotov5.Rpc}
    (table : SchemaServer.t -> gmap string ProviderServer)
    (method : ProviderServer -> tfprotov5.Request rpc ->
              option (tfprotov5.Response rpc) * option tfprotov5.BackendError)
    (op : SchemaServer.t -> tfprotov5.Request rpc ->
          M (option (tfprotov5.Response rpc) * option error)) : Prop :=
  forall (s : SchemaServer.t) (req : tfprotov5.Request rpc),
    match table s !! tfprotov5.TypeName rpc req with
    | None =>
        op s req =
          ([], Returned (None, Some (ErrNotSupported (tfprotov5.TypeName rpc req))))
    | Some backend =>
        op s req =
          ([Called backend rpc req],
           Returned ((method backend req).1,
                     FromBackend <$> (method backend req).2))
    end.
(** What the backend made by [server] answers when the build asks for its
    schema. *)
Definition schemaOf (server : ServerFactory)
    : option tfprotov5.GetProviderSchemaResponse * option tfprotov5.BackendError :=
  tfprotov5.GetProviderSchema (server tt) tfprotov5.GetProviderSchemaRequest_empty.

(** The schema response of the backend, where the call gives one and no
    error. *)
Definition declared (server : ServerFactory)
    : option tfprotov5.GetProviderSchemaResponse :=
  match schemaOf server with
  | (Some resp, None) => Some resp
  | _ => None
  end.

Definition providerOf (server : ServerFactory) : option tfprotov5.Schema :=
  declared server ≫= tfprotov5.Provider.

Definition providerMetaOf (server : ServerFactory) : option tfprotov5.Schema :=
  declared server ≫= tfprotov5.ProviderMeta.

Definition resourcesOf (server : ServerFactory)
    : gmap string (option tfprotov5.Schema) :=
  from_option tfprotov5.ResourceSchemas ∅ (declared server).

Definition dataSourcesOf (server : ServerFactory)
    : gmap string (option tfprotov5.Schema) :=
  from_option tfprotov5.DataSourceSchemas ∅ (declared server).

Definition schemaDiagnosticsOf (server : ServerFactory)
    : list (option Diagnostic) :=
  from_option tfprotov5.GetProviderSchemaResponse_Diagnostics [] (declared server).

(** The backend answers the schema request with a response, no error, and
    no diagnostic of error severity. *)
Definition answersCleanly (server : ServerFactory) : Prop :=
  is_Some (declared server) /\ Forall harmless (schemaDiagnosticsOf server).

(** No two backends of the list declare what [what] reads off a backend:
    a provider schema, a provider-meta schema, a resource type name or a
    data-source type name. *)
Definition singleOwner {A} (what : ServerFactory -> A -> Prop)
    (l : list ServerFactory) : Prop :=
  forall i j si sj a,
    l !! i = Some si -> l !! j = Some sj -> what si a -> what sj a -> i = j.

Definition declaresProvider (server : ServerFactory) (_ : unit) : Prop :=
  is_Some (providerOf server).
Definition declaresProviderMeta (server : ServerFactory) (_ : unit) : Prop :=
  is_Some (providerMetaOf server).
Definition declaresResource (server : ServerFactory) (name : string) : Prop :=
  is_Some (resourcesOf server !! name).
Definition declaresDataSource (server : ServerFactory) (name : string) : Prop :=
  is_Some (dataSourcesOf server !! name).

(** The backends of the list answer cleanly and declare nothing twice. *)
Definition compatible (l : list ServerFactory) : Prop :=
  Forall answersCleanly l /\
  singleOwner declaresProvider l /\
  singleOwner declaresProviderMeta l /\
  singleOwner declaresResource l /\
  singleOwner declaresDataSource l.

(** The schema calls of a build that gets as far as the backends of [l]. *)
Definition schemaCalls (l : list ServerFactory) : list Event :=
  (fun server : ServerFactory =>
     Called (server tt) tfprotov5.GetProviderSchemaRpc
       tfprotov5.GetProviderSchemaRequest_empty) <$> l.
End Specification.

(** *** The state of the build between two turns of its loop *)
Section Invariant.
Context {P : tfprotov5.Protocol}.

#[local] Abbreviation ProviderServer := (@tfprotov5.ProviderServer P).
#[local] Abbreviation Diagnostic := (@tfprotov5.Diagnostic P).
#[local] Abbreviation Schema := (@tfprotov5.Schema P).
#[local] Abbreviation Factory := (@SchemaServerFactory.t P).

(** The factory after one turn of the loop that ends in no error, phase
    by phase. *)
Definition acceptProvider (pos : nat)
    (resp : tfprotov5.GetProviderSchemaResponse) (factory : Factory) : Factory :=
  match tfprotov5.Provider resp with
  | Some schema =>
      SchemaServerFactory.set_providerSchema (Some schema)
        (SchemaServerFactory.set_providerSchemaFrom (Z.of_nat pos) factory)
  | None => factory
  end.

Definition acceptProviderMeta (pos : nat)
    (resp : tfprotov5.GetProviderSchemaResponse) (factory : Factory) : Factory :=
  match tfprotov5.ProviderMeta resp with
  | Some schema =>
      SchemaServerFactory.set_providerMetaSchema (Some schema)
        (SchemaServerFactory.set_providerMetaSchemaFrom (Z.of_nat pos) factory)
  | None => factory
  end.

Definition acceptResources (pos : nat)
    (resp : tfprotov5.GetProviderSchemaResponse) (factory : Factory) : Factory :=
  SchemaServerFactory.set_resourceSchemas
    (tfprotov5.ResourceSchemas resp ∪ SchemaServerFactory.resourceSchemas factory)
    (SchemaServerFactory.set_resources
       (((fun _ => Z.of_nat pos) <$> tfprotov5.ResourceSchemas resp)
        ∪ SchemaServerFactory.resources factory) factory).

Definition acceptDataSources (pos : nat)
    (resp : tfprotov5.GetProviderSchemaResponse) (factory : Factory) : Factory :=
  SchemaServerFactory.set_dataSourceSchemas
    (tfprotov5.DataSourceSchemas resp ∪ SchemaServerFactory.dataSourceSchemas factory)
    (SchemaServerFactory.set_dataSources
       (((fun _ => Z.of_nat pos) <$> tfprotov5.DataSourceSchemas resp)
        ∪ SchemaServerFactory.dataSources factory) factory).

Definition acceptDiagnostics
    (resp : tfprotov5.GetProviderSchemaResponse) (factory : Factory) : Factory :=
  SchemaServerFactory.set_diagnostics
    (SchemaServerFactory.diagnostics factory
     ++ filter is_Some (tfprotov5.GetProviderSchemaResponse_Diagnostics resp))
    factory.

Definition acceptServer (pos : nat) (server : ServerFactory)
    (factory : Factory) : Factory :=
  SchemaServerFactory.set_servers
    (<[pos := Some server]> (SchemaServerFactory.servers factory)) factory.

Definition accept (pos : nat) (server : ServerFactory)
    (resp : tfprotov5.GetProviderSchemaResponse) (factory : Factory) : Factory :=
  acceptDataSources pos resp
    (acceptResources pos resp
       (acceptProviderMeta pos resp
          (acceptProvider pos resp
             (acceptDiagnostics resp (acceptServer pos server factory))))).

(** ** What the factory records about the backends taken in so far *)
Definition ownerRecorded (what : ServerFactory -> option Schema)
    (done : list ServerFactory) (schema : option Schema) (from : Z) : Prop :=
  (schema = None /\ from = -1 /\
   forall i server, done !! i = Some server -> what server = None) \/
  (exists (i : nat) server sch,
      done !! i = Some server /\ what server = Some sch /\
      schema = Some sch /\ from = Z.of_nat i).

Definition routesRecorded (what : ServerFactory -> gmap string (option Schema))
    (done : list ServerFactory) (owners : gmap string Z)
    (schemas : gmap string (option Schema)) : Prop :=
  (forall name v,
      owners !! name = Some v <->
      exists (i : nat) server,
        v = Z.of_nat i /\ done !! i = Some server /\ is_Some (what server !! name)) /\
  (forall (i : nat) server name schema,
      done !! i = Some server -> what server !! name = Some schema ->
      schemas !! name = Some schema).

Record Registered (done : list ServerFactory) (n : nat) (factory : Factory) : Prop := {
  reg_compatible : compatible done;
  reg_bound : (length done <= n)%nat;
  reg_servers :
    SchemaServerFactory.servers factory =
      (Some <$> done) ++ replicate (n - length done) None;
  reg_diagnostics :
    SchemaServerFactory.diagnostics factory =
      filter is_Some (mjoin (schemaDiagnosticsOf <$> done));
  reg_resources :
    routesRecorded resourcesOf done (SchemaServerFactory.resources factory)
      (SchemaServerFactory.resourceSchemas factory);
  reg_dataSources :
    routesRecorded dataSourcesOf done (SchemaServerFactory.dataSources factory)
      (SchemaServerFactory.dataSourceSchemas factory);
  reg_provider :
    ownerRecorded providerOf done (SchemaServerFactory.providerSchema factory)
      (SchemaServerFactory.providerSchemaFrom factory);
  reg_providerMeta :
    ownerRecorded providerMetaOf done (SchemaServerFactory.providerMetaSchema factory)
      (SchemaServerFactory.providerMetaSchemaFrom factory);
}.
End Invariant.

(** *** What the further properties are stated with *)
Section FurtherSpecification.
Context {P : tfprotov5.Protocol}.

#[local] Abbreviation ProviderServer := (@tfprotov5.ProviderServer P).
#[local] Abbreviation Diagnostic := (@tfprotov5.Diagnostic P).

(** [server] answers the stop request with a response, no error, and an
    empty error string. *)
Definition stopsQuietly
    (req : tfprotov5.Request tfprotov5.StopProviderRpc)
    (server : ProviderServer) : Prop :=
  exists resp,
    tfprotov5.StopProvider server req = (Some resp, None) /\
    tfprotov5.Error resp = ""%string.

(** An entry an accumulator of diagnostics may hold: not nil, and not of
    error severity. *)
Definition kept (entry : option Diagnostic) : Prop :=
  is_Some entry /\ harmless entry.

(** On the server [s] made for the backends of [servers], the type-keyed
    operation [op] reaches [method] of the backend that declares the type
    name of the request, as [declares] tells, and answers with the
    not-supported error where no backend declares it. *)
Definition routesDeclared {rpc : tfprotov5.Rpc}
    (declares : ServerFactory -> string -> Prop)
    (method : ProviderServer -> tfprotov5.Request rpc ->
              option (tfprotov5.Response rpc) * option tfprotov5.BackendError)
    (op : SchemaServer.t -> tfprotov5.Request rpc ->
          M (option (tfprotov5.Response rpc) * option error))
    (servers : list ServerFactory) (s : SchemaServer.t) : Prop :=
  forall req : tfprotov5.Request rpc,
    (forall (i : nat) si,
        servers !! i = Some si -> declares si (tfprotov5.TypeName rpc req) ->
        op s req =
          ([Called (si tt) rpc req],
           Returned ((method (si tt) req).1,
                     FromBackend <$> (method (si tt) req).2))) /\
    (Forall (fun si => ~ declares si (tfprotov5.TypeName rpc req)) servers ->
     op s req =
       ([], Returned (None, Some (ErrNotSupported (tfprotov5.TypeName rpc req))))).
End FurtherSpecification.

(** *** More concrete backends *)
Module MoreExamples.
Import Examples.

(** A backend whose every fan-out call fails, with a response next to the
    error where the call has one to give. *)
Definition serverT : tfprotov5.ProviderServer :=
  testServer "T"
    (Some (schemaResponse None None ["t_thing"%string] []
             [Some (warning "t0")]), Some "schema down"%string)
    (Some {| tfprotov5.ConfigureProviderResponse_Diagnostics :=
               [Some (failure "t1"); None; Some (warning "t2")] |},
     Some "configure down"%string)
    (None, Some "stop down"%string).

(** A backend that answers the schema request and fails the other
    fan-out calls as [serverT] does. *)
Definition serverU : tfprotov5.ProviderServer :=
  testServer "U"
    (Some (schemaResponse None None ["u_thing"%string] [] []), None)
    (Some {| tfprotov5.ConfigureProviderResponse_Diagnostics :=
               [Some (failure "u1"); None; Some (warning "u2")] |},
     Some "configure down"%string)
    (None, Some "stop down"%string).

(** A backend that returns a nil response and a nil error. *)
Definition serverN : tfprotov5.ProviderServer :=
  testServer "N" (None, None) (None, None) (None, None).

(** The same, except that it answers the schema request. *)
Definition serverV : tfprotov5.ProviderServer :=
  testServer "V"
    (Some (schemaResponse None None ["v_thing"%string] [] []), None)
    (None, None) (None, None).

(** Two backends that use one name, the first for a resource and the
    second for a data source. *)
Definition serverI : tfprotov5.ProviderServer :=
  testServer "I"
    (Some (schemaResponse None None ["shared"%string] [] []), None)
    (configured []) (stopped "").

Definition serverJ : tfprotov5.ProviderServer :=
  testServer "J"
    (Some (schemaResponse None None [] ["shared"%string] []), None)
    (configured []) (stopped "").

(** A backend that declares a resource type name of [serverA] and whose
    schema response carries a diagnostic of error severity. *)
Definition serverK : tfprotov5.ProviderServer :=
  testServer "K"
    (Some (schemaResponse None None ["a_thing"%string] []
             [Some (failure "k1")]), None)
    (configured []) (stopped "").

(** A backend that declares a resource type name of [serverA] and one of
    [serverB]. *)
Definition serverL : tfprotov5.ProviderServer :=
  testServer "L"
    (Some (schemaResponse None None ["a_thing"%string; "b_thing"%string] [] []),
     None)
    (configured []) (stopped "").

(** The factory expected of the build over [serverI] and [serverJ]. *)
Definition ijFactory : SchemaServerFactory.t :=
  {| SchemaServerFactory.resources := list_to_map [("shared"%string, 0)];
     SchemaServerFactory.dataSources := list_to_map [("shared"%string, 1)];
     SchemaServerFactory.servers :=
       [Some (factoryOf serverI); Some (factoryOf serverJ)];
     SchemaServerFactory.resourceSchemas :=
       list_to_map [("shared"%string, Some "shared"%string)];
     SchemaServerFactory.dataSourceSchemas :=
       list_to_map [("shared"%string, Some "shared"%string)];
     SchemaServerFactory.providerSchema := None;
     SchemaServerFactory.providerMetaSchema := None;
     SchemaServerFactory.diagnostics := [];
     SchemaServerFactory.providerSchemaFrom := -1;
     SchemaServerFactory.providerMetaSchemaFrom := -1 |}.

(** The server of an example build, or [abc] should the build or the
    making of the server not return. *)
Definition served (l : list tfprotov5.ProviderServer) : SchemaServer.t :=
  match
    outcome
      (let* (factory, _) := NewSchemaServerFactory (factoryOf <$> l) in
       SchemaServerFactory.Server factory)
  with
  | Returned s => s
  | Panicked => abc
  end.

(** A second order of [range]: the reverse of the order of
    [map_to_list]. *)
Definition range_reversed : MapRange := {|
  map_range := fun V m => reverse (map_to_list m);
  map_range_perm := fun V m => reverse_Permutation (map_to_list m);
|}.
End MoreExamples.

(** ** Properties *)
Section Properties.
Context {P : tfprotov5.Protocol}.

#[local] Abbreviation ProviderServer := (@tfprotov5.ProviderServer P).
#[local] Abbreviation Diagnostic := (@tfprotov5.Diagnostic P).

(** *** StopProvider *)

Lemma StopProvider_servers_first_error (server : ProviderServer) rest req resp :
  tfprotov5.StopProvider server req = (Some resp, None) ->
  tfprotov5.Error resp ≠ ""%string ->
  SchemaServer.StopProvider_servers (server :: rest) req =
    ([Called server _ req], Returned (Some resp, None)).
Proof.
  intros Hcall Herr. simpl. rewrite Hcall. simpl.
  destruct (decide _) as [_|Hn]; [reflexivity | contradiction].
Qed.

(** *** Type-keyed operations *)

Ltac route :=
  let s := fresh "s" in
  let req := fresh "req" in
  intros s req; cbv beta delta
    [SchemaServer.ValidateResourceTypeConfig
     SchemaServer.ValidateDataSourceConfig
     SchemaServer.UpgradeResourceState SchemaServer.ReadResource
     SchemaServer.PlanResourceChange SchemaServer.ApplyResourceChange
     SchemaServer.ImportResourceState SchemaServer.ReadDataSource];
  match goal with
  | |- context [?m !! ?k] => destruct (m !! k) as [backend|]
  end; reflexivity.

(** C4. Each of the eight type-keyed operations (validate, upgrade-state,
    read, plan, apply and import of a resource; validate and read of a
    data source) looks the type name of the request up in its routing
    map. When the name is absent the operation returns no response and the
    not-supported error for that name, and calls no backend. When the name
    is registered to a backend, the operation calls that backend's method
    once with the request, calls nothing else, and returns the backend's
    response and error as they are. *)
Theorem type_keyed_operations_route_by_type_name :
  routesByType SchemaServer.resources
    tfprotov5.ValidateResourceTypeConfig SchemaServer.ValidateResourceTypeConfig /\
  routesByType SchemaServer.resources
    tfprotov5.UpgradeResourceState SchemaServer.UpgradeResourceState /\
  routesByType SchemaServer.resources
    tfprotov5.ReadResource SchemaServer.ReadResource /\
  routesByType SchemaServer.resources
    tfprotov5.PlanResourceChange SchemaServer.PlanResourceChange /\
  routesByType SchemaServer.resources
    tfprotov5.ApplyResourceChange SchemaServer.ApplyResourceChange /\
  routesByType SchemaServer.resources
    tfprotov5.ImportResourceState SchemaServer.ImportResourceState /\
  routesByType SchemaServer.dataSources
    tfprotov5.ValidateDataSourceConfig SchemaServer.ValidateDataSourceConfig /\
  routesByType SchemaServer.dataSources
    tfprotov5.ReadDataSource SchemaServer.ReadDataSource.
Proof. repeat split; route. Qed.
(** *** ConfigureProvider *)

Lemma harmless_nil : harmless (@None Diagnostic).
Proof. intros diag Heq. discriminate. Qed.

Lemma ConfigureProvider_diags_harmless (l acc : list (option Diagnostic)) :
  Forall harmless l ->
  SchemaServer.ConfigureProvider_diags l acc = (acc ++ filter is_Some l, false).
Proof.
  intros Hl. revert acc. induction Hl as [|entry l Hentry _ IH]; intros acc.
  - simpl. by rewrite app_nil_r.
  - destruct entry as [diag|]; cbn [SchemaServer.ConfigureProvider_diags].
    + destruct (decide _) as [_|Hn]; [|by destruct Hn; apply Hentry].
      rewrite IH, filter_cons_True by (by eexists).
      by rewrite <- app_assoc.
    + rewrite IH, filter_cons_False; [done|]. by intros [? ?].
Qed.

Lemma ConfigureProvider_diags_error (pre post acc : list (option Diagnostic)) diag :
  Forall harmless pre ->
  tfprotov5.Severity diag = tfprotov5.DiagnosticSeverityError ->
  SchemaServer.ConfigureProvider_diags (pre ++ Some diag :: post) acc =
    (acc ++ filter is_Some pre ++ [Some diag], true).
Proof.
  intros Hpre Hsev. revert acc. induction Hpre as [|entry l Hentry _ IH]; intros acc.
  - simpl. destruct (decide _) as [Hn|_]; [by destruct Hn|done].
  - destruct entry as [d|]; cbn [SchemaServer.ConfigureProvider_diags app].
    + destruct (decide _) as [_|Hn]; [|by destruct Hn; apply Hentry].
      rewrite IH, filter_cons_True by (by eexists).
      by rewrite <- app_assoc.
    + rewrite IH, filter_cons_False; [done|]. by intros [? ?].
Qed.

Lemma ConfigureProvider_diags_skips_nil (l acc : list (option Diagnostic)) :
  SchemaServer.ConfigureProvider_diags (filter is_Some l) acc =
  SchemaServer.ConfigureProvider_diags l acc.
Proof.
  revert acc. induction l as [|[diag|] l IH]; intros acc; [done| |].
  - rewrite filter_cons_True by (by eexists). simpl.
    destruct (decide _); [apply IH|done].
  - rewrite filter_cons_False by (by intros [? ?]). apply IH.
Qed.

Lemma ConfigureProvider_diags_not_nil (l acc : list (option Diagnostic)) :
  Forall is_Some acc ->
  Forall is_Some (SchemaServer.ConfigureProvider_diags l acc).1.
Proof.
  revert acc. induction l as [|[diag|] l IH]; intros acc Hacc; simpl; [done| |by apply IH].
  assert (Forall is_Some (acc ++ [Some diag])) as Hacc'.
  { apply Forall_app. split; [done|]. by repeat constructor. }
  destruct (decide _); [by apply IH|done].
Qed.

Lemma ConfigureProvider_servers_clean req (l : list ProviderServer) acc :
  Forall (configuresCleanly req) l ->
  SchemaServer.ConfigureProvider_servers l req acc =
    ((fun server => Called server _ req) <$> l,
     Returned
       (Some {| tfprotov5.ConfigureProviderResponse_Diagnostics :=
                  acc ++ filter is_Some (mjoin (configureDiagnostics req <$> l)) |},
        None)).
Proof.
  intros Hl. revert acc.
  induction Hl as [|server l (resp & Hcall & Hdiags) _ IH]; intros acc.
  - simpl. by rewrite app_nil_r.
  - simpl. rewrite Hcall. simpl.
    rewrite (ConfigureProvider_diags_harmless _ _ Hdiags), IH.
    unfold configureDiagnostics at 2. rewrite Hcall. simpl.
    by rewrite filter_app, app_assoc.
Qed.

Lemma ConfigureProvider_servers_app req (before rest : list ProviderServer) acc :
  Forall (configuresCleanly req) before ->
  SchemaServer.ConfigureProvider_servers (before ++ rest) req acc =
    let '(t, r) :=
      SchemaServer.ConfigureProvider_servers rest req
        (acc ++ filter is_Some (mjoin (configureDiagnostics req <$> before))) in
    (((fun server => Called server _ req) <$> before) ++ t, r).
Proof.
  intros Hl. revert acc.
  induction Hl as [|server l (resp & Hcall & Hdiags) _ IH]; intros acc.
  - simpl. rewrite app_nil_r. by destruct (SchemaServer.ConfigureProvider_servers _ _ _).
  - simpl. rewrite Hcall. simpl.
    rewrite (ConfigureProvider_diags_harmless _ _ Hdiags), IH.
    unfold configureDiagnostics at 2. rewrite Hcall. simpl.
    rewrite filter_app, app_assoc.
    by destruct (SchemaServer.ConfigureProvider_servers _ _ _).
Qed.

Lemma ConfigureProvider_servers_calls req (l : list ProviderServer) acc :
  exists n,
    calls (SchemaServer.ConfigureProvider_servers l req acc) =
      (fun server => Called server _ req) <$> take n l.
Proof.
  revert acc. induction l as [|server l IH]; intros acc.
  - by exists 0%nat.
  - cbn [SchemaServer.ConfigureProvider_servers]. unfold bind, call.
    destruct (tfprotov5.ConfigureProvider server req) as [resp [e|]];
      [by exists 1%nat|].
    destruct resp as [r|]; [|by exists 1%nat]. cbn [deref ret].
    destruct (SchemaServer.ConfigureProvider_diags _ acc) as [diags stop].
    destruct stop; [by exists 1%nat|].
    destruct (IH diags) as [n Hn].
    destruct (SchemaServer.ConfigureProvider_servers l req diags) as [t r'].
    exists (S n). simpl in *. by rewrite Hn.
Qed.

(** C3. ConfigureProvider calls the backends one after the other, in the
    order of the server list, each at most once and each with the request
    it was given: whatever the backends answer, the calls are those to the
    backends of some initial part of the list. Where the backends before
    some backend answer without error and without a diagnostic of error
    severity, and that backend answers without error and with a diagnostic
    of error severity, the calls are those to the backends up to and
    including that one, none of the later backends is called, and the
    diagnostics returned are those of the earlier backends followed by
    that backend's up to and including the first one of error severity.
    Where every backend answers without error and without a diagnostic of
    error severity, every backend is called once, and the diagnostics
    returned are those of all backends in order. Nil entries are no
    diagnostics and are left out. *)
Theorem ConfigureProvider_fan_out (s : SchemaServer.t)
    (req : tfprotov5.Request tfprotov5.ConfigureProviderRpc) :
  (exists n,
      calls (SchemaServer.ConfigureProvider s req) =
        (fun server => Called server _ req) <$> take n (SchemaServer.servers s)) /\
  (forall before server after resp pre diag post,
      SchemaServer.servers s = before ++ server :: after ->
      Forall (configuresCleanly req) before ->
      tfprotov5.ConfigureProvider server req = (Some resp, None) ->
      tfprotov5.ConfigureProviderResponse_Diagnostics resp =
        pre ++ Some diag :: post ->
      Forall harmless pre ->
      tfprotov5.Severity diag = tfprotov5.DiagnosticSeverityError ->
      SchemaServer.ConfigureProvider s req =
        ((fun server => Called server _ req) <$> (before ++ [server]),
         Returned
           (Some {| tfprotov5.ConfigureProviderResponse_Diagnostics :=
                      filter is_Some (mjoin (configureDiagnostics req <$> before))
                      ++ filter is_Some pre ++ [Some diag] |},
            None))) /\
  (Forall (configuresCleanly req) (SchemaServer.servers s) ->
   SchemaServer.ConfigureProvider s req =
     ((fun server => Called server _ req) <$> SchemaServer.servers s,
      Returned
        (Some {| tfprotov5.ConfigureProviderResponse_Diagnostics :=
                   filter is_Some
                     (mjoin (configureDiagnostics req <$> SchemaServer.servers s)) |},
         None))).
Proof.
  split; [apply ConfigureProvider_servers_calls|]. split.
  - intros before server after resp pre diag post Hs Hbefore Hcall Hdiags Hpre Hsev.
    unfold SchemaServer.ConfigureProvider. rewrite Hs.
    rewrite ConfigureProvider_servers_app by done.
    simpl. rewrite Hcall. simpl. rewrite Hdiags.
    rewrite (ConfigureProvider_diags_error _ _ _ _ Hpre Hsev).
    by rewrite fmap_app.
  - intros Hall. unfold SchemaServer.ConfigureProvider.
    by rewrite ConfigureProvider_servers_clean.
Qed.

Lemma ConfigureProvider_servers_not_nil req (l : list ProviderServer) acc resp :
  Forall is_Some acc ->
  outcome (SchemaServer.ConfigureProvider_servers l req acc) =
    Returned (Some resp, None) ->
  Forall is_Some (tfprotov5.ConfigureProviderResponse_Diagnostics resp).
Proof.
  revert acc. induction l as [|server l IH]; intros acc Hacc; simpl.
  - intros [= <-]. done.
  - destruct (tfprotov5.ConfigureProvider server req) as [r [e|]]; simpl; [done|].
    destruct r as [r|]; simpl; [|done].
    pose proof (ConfigureProvider_diags_not_nil
      (tfprotov5.ConfigureProviderResponse_Diagnostics r) acc Hacc) as Hwalk.
    destruct (SchemaServer.ConfigureProvider_diags _ acc) as [diags stop].
    destruct stop; simpl.
    + intros [= <-]. done.
    + destruct (SchemaServer.ConfigureProvider_servers l req diags) as [t o] eqn:Hrest.
      simpl. intros ->. apply (IH diags); [done|]. by rewrite Hrest.
Qed.

(** C10. ConfigureProvider skips the nil entries of a backend's
    diagnostics. The walk over a response's diagnostics does the same with
    the nil entries as without them: a nil entry is not appended and does
    not end the walk. And in a response ConfigureProvider returns without
    error, no entry of the diagnostics is nil. *)
Theorem ConfigureProvider_skips_nil_diagnostics :
  (forall l acc : list (option Diagnostic),
      SchemaServer.ConfigureProvider_diags l acc =
      SchemaServer.ConfigureProvider_diags (filter is_Some l) acc) /\
  (forall (l acc : list (option Diagnostic)),
      SchemaServer.ConfigureProvider_diags (None :: l) acc =
      SchemaServer.ConfigureProvider_diags l acc) /\
  (forall (s : SchemaServer.t) req resp,
      outcome (SchemaServer.ConfigureProvider s req) = Returned (Some resp, None) ->
      Forall is_Some (tfprotov5.ConfigureProviderResponse_Diagnostics resp)).
Proof.
  split; [|split].
  - intros l acc. symmetry. apply ConfigureProvider_diags_skips_nil.
  - reflexivity.
  - intros s req resp. by apply ConfigureProvider_servers_not_nil.
Qed.
End Properties.

(** ** Properties of the build *)
Section BuildProperties.
Context {P : tfprotov5.Protocol} {R : MapRange}.

#[local] Abbreviation ProviderServer := (@tfprotov5.ProviderServer P).
#[local] Abbreviation Diagnostic := (@tfprotov5.Diagnostic P).
#[local] Abbreviation Schema := (@tfprotov5.Schema P).
#[local] Abbreviation Factory := (@SchemaServerFactory.t P).

Lemma bind_ret_l {A B} (a : A) (k : A -> M B) : bind (ret a) k = k a.
Proof. unfold bind, ret. by destruct (k a). Qed.

Lemma bind_call {A B} server rpc req (a : A) (k : A -> M B) :
  bind (call server rpc req a) k =
    (Called server rpc req :: calls (k a), outcome (k a)).
Proof. unfold bind, call. by destruct (k a). Qed.

Lemma andThen_continue (factory : Factory) k :
  andThen (ret (factory, None)) k = k factory.
Proof. unfold andThen. by rewrite bind_ret_l. Qed.

Lemma andThen_return (factory : Factory) e k :
  andThen (ret (factory, Some e)) k = ret (factory, Some e).
Proof. reflexivity. Qed.

Lemma NewSchemaServerFactory_diags_harmless (l acc : list (option Diagnostic)) :
  Forall harmless l ->
  NewSchemaServerFactory_diags l acc = (acc ++ filter is_Some l, None).
Proof.
  intros Hl. revert acc. induction Hl as [|entry l Hentry _ IH]; intros acc.
  - simpl. by rewrite app_nil_r.
  - destruct entry as [diag|]; cbn [NewSchemaServerFactory_diags].
    + destruct (decide _) as [_|Hn]; [|by destruct Hn; apply Hentry].
      rewrite IH, filter_cons_True by (by eexists).
      by rewrite <- app_assoc.
    + rewrite IH, filter_cons_False; [done|]. by intros [? ?].
Qed.

Lemma NewSchemaServerFactory_diags_error (pre post acc : list (option Diagnostic)) diag :
  Forall harmless pre ->
  tfprotov5.Severity diag = tfprotov5.DiagnosticSeverityError ->
  NewSchemaServerFactory_diags (pre ++ Some diag :: post) acc =
    (acc ++ filter is_Some pre, Some diag).
Proof.
  intros Hpre Hsev. revert acc. induction Hpre as [|entry l Hentry _ IH]; intros acc.
  - simpl. destruct (decide _) as [Hn|_]; [by destruct Hn|]. by rewrite app_nil_r.
  - destruct entry as [d|]; cbn [NewSchemaServerFactory_diags app].
    + destruct (decide _) as [_|Hn]; [|by destruct Hn; apply Hentry].
      rewrite IH, filter_cons_True by (by eexists).
      by rewrite <- app_assoc.
    + rewrite IH, filter_cons_False; [done|]. by intros [? ?].
Qed.

Lemma NewSchemaServerFactory_diags_None (l acc acc' : list (option Diagnostic)) :
  NewSchemaServerFactory_diags l acc = (acc', None) -> Forall harmless l.
Proof.
  revert acc. induction l as [|[diag|] l IH]; intros acc; simpl; [done| |].
  - destruct (decide _) as [Hsev|]; [|done]. intros Hrest. constructor; [|by eapply IH].
    by intros ? [= <-].
  - intros Hrest. constructor; [apply harmless_nil|by eapply IH].
Qed.

(** registering *)
Lemma NewSchemaServerFactory_register_fresh entries pos owners
    (schemas : gmap string (option Schema)) :
  NoDup entries.*1 ->
  (forall name, name ∈ entries.*1 -> owners !! name = None) ->
  NewSchemaServerFactory_register entries pos owners schemas =
    (((fun _ => Z.of_nat pos) <$> (list_to_map entries : gmap string (option Schema))) ∪ owners,
     (list_to_map entries : gmap string (option Schema)) ∪ schemas, None).
Proof.
  revert owners schemas.
  induction entries as [|[name schema] entries IH]; intros owners schemas Hnodup Hfresh.
  - simpl. by rewrite fmap_empty, !(left_id_L ∅ (∪)).
  - apply NoDup_cons in Hnodup as [Hname Hnodup]. simpl.
    rewrite (Hfresh name) by (simpl; left).
    rewrite IH; [|done|].
    + assert ((list_to_map entries : gmap string (option Schema)) !! name = None) as Hnone
        by by apply not_elem_of_list_to_map_1.
      rewrite fmap_insert, <- !insert_union_l.
      rewrite <- !insert_union_r; [done|done|].
      by rewrite lookup_fmap, Hnone.
    + intros n Hn. rewrite lookup_insert_ne; [apply Hfresh; by right|].
      intros ->. done.
Qed.

Lemma NewSchemaServerFactory_register_taken before name schema after v pos owners
    (schemas : gmap string (option Schema)) :
  NoDup (before ++ (name, schema) :: after).*1 ->
  (forall n, n ∈ before.*1 -> owners !! n = None) ->
  owners !! name = Some v ->
  exists owners' schemas',
    NewSchemaServerFactory_register (before ++ (name, schema) :: after) pos owners schemas =
      (owners', schemas', Some (name, v)).
Proof.
  revert owners schemas.
  induction before as [|[n0 s0] before IH]; intros owners schemas Hnodup Hfresh Hname.
  - simpl. rewrite Hname. eauto.
  - simpl in Hnodup. apply NoDup_cons in Hnodup as [Hn0 Hnodup]. simpl.
    rewrite (Hfresh n0) by (simpl; left).
    apply IH; [done| |].
    + intros n Hn. rewrite lookup_insert_ne; [apply Hfresh; by right|].
      intros ->. apply Hn0. rewrite fmap_app. apply elem_of_app. by left.
    + rewrite lookup_insert_ne; [done|]. intros ->. apply Hn0.
      rewrite fmap_app. apply elem_of_app. right. simpl. left.
Qed.

Lemma first_taken {A} (entries : list (string * A)) (owners : gmap string Z) :
  (forall n, n ∈ entries.*1 -> owners !! n = None) \/
  exists before name schema after v,
    entries = before ++ (name, schema) :: after /\
    (forall n, n ∈ before.*1 -> owners !! n = None) /\
    owners !! name = Some v.
Proof.
  induction entries as [|[name schema] entries IH].
  - left. intros n Hn. by apply elem_of_nil in Hn.
  - destruct (owners !! name) as [v|] eqn:Hname.
    { right. exists [], name, schema, entries, v. split; [done|]. split; [|done].
      intros n Hn. by apply elem_of_nil in Hn. }
    destruct IH as [Hfresh|(before & n1 & s1 & after & v & -> & Hfresh & Hn1)].
    + left. intros n [->|Hn]%elem_of_cons; [done|by apply Hfresh].
    + right. exists ((name, schema) :: before), n1, s1, after, v.
      split; [done|]. split; [|done].
      intros n [->|Hn]%elem_of_cons; [done|by apply Hfresh].
Qed.

Lemma map_range_NoDup {V} (m : gmap string V) : NoDup (map_range m).*1.
Proof. rewrite map_range_perm. apply NoDup_fst_map_to_list. Qed.

Lemma list_to_map_range {V} (m : gmap string V) : list_to_map (map_range m) = m.
Proof.
  rewrite (list_to_map_proper _ (map_to_list m)).
  - apply list_to_map_to_list.
  - apply map_range_NoDup.
  - apply map_range_perm.
Qed.

Lemma elem_of_map_range_keys {V} (m : gmap string V) name :
  name ∈ (map_range m).*1 <-> is_Some (m !! name).
Proof.
  rewrite map_range_perm, list_elem_of_fmap. split.
  - intros ([n v] & -> & Hin). apply elem_of_map_to_list in Hin. by eexists.
  - intros [v Hv]. exists (name, v). split; [done|]. by apply elem_of_map_to_list.
Qed.

Lemma accept_fields pos server resp (factory : Factory) :
  let factory' := accept pos server resp factory in
  SchemaServerFactory.resources factory' =
    ((fun _ => Z.of_nat pos) <$> tfprotov5.ResourceSchemas resp)
    ∪ SchemaServerFactory.resources factory /\
  SchemaServerFactory.dataSources factory' =
    ((fun _ => Z.of_nat pos) <$> tfprotov5.DataSourceSchemas resp)
    ∪ SchemaServerFactory.dataSources factory /\
  SchemaServerFactory.servers factory' =
    <[pos := Some server]> (SchemaServerFactory.servers factory) /\
  SchemaServerFactory.resourceSchemas factory' =
    tfprotov5.ResourceSchemas resp ∪ SchemaServerFactory.resourceSchemas factory /\
  SchemaServerFactory.dataSourceSchemas factory' =
    tfprotov5.DataSourceSchemas resp ∪ SchemaServerFactory.dataSourceSchemas factory /\
  SchemaServerFactory.providerSchema factory' =
    match tfprotov5.Provider resp with
    | Some schema => Some schema
    | None => SchemaServerFactory.providerSchema factory
    end /\
  SchemaServerFactory.providerMetaSchema factory' =
    match tfprotov5.ProviderMeta resp with
    | Some schema => Some schema
    | None => SchemaServerFactory.providerMetaSchema factory
    end /\
  SchemaServerFactory.diagnostics factory' =
    SchemaServerFactory.diagnostics factory
    ++ filter is_Some (tfprotov5.GetProviderSchemaResponse_Diagnostics resp) /\
  SchemaServerFactory.providerSchemaFrom factory' =
    match tfprotov5.Provider resp with
    | Some _ => Z.of_nat pos
    | None => SchemaServerFactory.providerSchemaFrom factory
    end /\
  SchemaServerFactory.providerMetaSchemaFrom factory' =
    match tfprotov5.ProviderMeta resp with
    | Some _ => Z.of_nat pos
    | None => SchemaServerFactory.providerMetaSchemaFrom factory
    end.
Proof.
  unfold accept, acceptProvider, acceptProviderMeta.
  destruct (tfprotov5.Provider resp), (tfprotov5.ProviderMeta resp);
    repeat split; reflexivity.
Qed.

Lemma NewSchemaServerFactory_diagnostics_ok s resp (factory : Factory) :
  Forall harmless (tfprotov5.GetProviderSchemaResponse_Diagnostics resp) ->
  NewSchemaServerFactory_diagnostics s resp factory =
    ret (acceptDiagnostics resp factory, None).
Proof.
  intros Hdiags. unfold NewSchemaServerFactory_diagnostics.
  by rewrite (NewSchemaServerFactory_diags_harmless _ _ Hdiags).
Qed.

Lemma NewSchemaServerFactory_resources_ok pos s resp (factory : Factory) :
  (forall name, is_Some (tfprotov5.ResourceSchemas resp !! name) ->
                SchemaServerFactory.resources factory !! name = None) ->
  NewSchemaServerFactory_resources pos s resp factory =
    ret (acceptResources pos resp factory, None).
Proof.
  intros Hfresh. unfold NewSchemaServerFactory_resources.
  rewrite NewSchemaServerFactory_register_fresh.
  - by rewrite list_to_map_range.
  - apply map_range_NoDup.
  - intros name Hname. by apply Hfresh, elem_of_map_range_keys.
Qed.

Lemma NewSchemaServerFactory_dataSources_ok pos s resp (factory : Factory) :
  (forall name, is_Some (tfprotov5.DataSourceSchemas resp !! name) ->
                SchemaServerFactory.dataSources factory !! name = None) ->
  NewSchemaServerFactory_dataSources pos s resp factory =
    ret (acceptDataSources pos resp factory, None).
Proof.
  intros Hfresh. unfold NewSchemaServerFactory_dataSources.
  rewrite NewSchemaServerFactory_register_fresh.
  - by rewrite list_to_map_range.
  - apply map_range_NoDup.
  - intros name Hname. by apply Hfresh, elem_of_map_range_keys.
Qed.

Lemma NewSchemaServerFactory_provider_ok pos s resp (factory : Factory) :
  tfprotov5.Provider resp = None \/
    SchemaServerFactory.providerSchema factory = None ->
  NewSchemaServerFactory_provider pos s resp factory =
    ret (acceptProvider pos resp factory, None).
Proof.
  unfold NewSchemaServerFactory_provider, acceptProvider.
  destruct (tfprotov5.Provider resp), (SchemaServerFactory.providerSchema factory);
    intros [?|?]; done.
Qed.

Lemma NewSchemaServerFactory_providerMeta_ok pos s resp (factory : Factory) :
  tfprotov5.ProviderMeta resp = None \/
    SchemaServerFactory.providerMetaSchema factory = None ->
  NewSchemaServerFactory_providerMeta pos s resp factory =
    ret (acceptProviderMeta pos resp factory, None).
Proof.
  unfold NewSchemaServerFactory_providerMeta, acceptProviderMeta.
  destruct (tfprotov5.ProviderMeta resp),
    (SchemaServerFactory.providerMetaSchema factory); intros [?|?]; done.
Qed.

Lemma acceptProvider_other pos resp (factory : Factory) :
  SchemaServerFactory.providerMetaSchema (acceptProvider pos resp factory) =
    SchemaServerFactory.providerMetaSchema factory /\
  SchemaServerFactory.resources (acceptProvider pos resp factory) =
    SchemaServerFactory.resources factory /\
  SchemaServerFactory.dataSources (acceptProvider pos resp factory) =
    SchemaServerFactory.dataSources factory /\
  SchemaServerFactory.servers (acceptProvider pos resp factory) =
    SchemaServerFactory.servers factory /\
  SchemaServerFactory.providerMetaSchemaFrom (acceptProvider pos resp factory) =
    SchemaServerFactory.providerMetaSchemaFrom factory.
Proof. unfold acceptProvider. by destruct (tfprotov5.Provider resp). Qed.

Lemma acceptProviderMeta_other pos resp (factory : Factory) :
  SchemaServerFactory.resources (acceptProviderMeta pos resp factory) =
    SchemaServerFactory.resources factory /\
  SchemaServerFactory.dataSources (acceptProviderMeta pos resp factory) =
    SchemaServerFactory.dataSources factory /\
  SchemaServerFactory.servers (acceptProviderMeta pos resp factory) =
    SchemaServerFactory.servers factory.
Proof. unfold acceptProviderMeta. by destruct (tfprotov5.ProviderMeta resp). Qed.

Lemma NewSchemaServerFactory_server_ok pos server resp (factory : Factory) :
  (pos < length (SchemaServerFactory.servers factory))%nat ->
  schemaOf server = (Some resp, None) ->
  Forall harmless (tfprotov5.GetProviderSchemaResponse_Diagnostics resp) ->
  (tfprotov5.Provider resp = None \/ SchemaServerFactory.providerSchema factory = None) ->
  (tfprotov5.ProviderMeta resp = None \/
   SchemaServerFactory.providerMetaSchema factory = None) ->
  (forall name, is_Some (tfprotov5.ResourceSchemas resp !! name) ->
                SchemaServerFactory.resources factory !! name = None) ->
  (forall name, is_Some (tfprotov5.DataSourceSchemas resp !! name) ->
                SchemaServerFactory.dataSources factory !! name = None) ->
  NewSchemaServerFactory_server pos server factory =
    (schemaCalls [server], Returned (accept pos server resp factory, None)).
Proof.
  intros Hpos Hschema Hdiags Hprov Hmeta Hres Hdata.
  unfold NewSchemaServerFactory_server. rewrite bind_call.
  unfold schemaOf in Hschema. rewrite Hschema.
  destruct (decide _) as [Hle|_]; [lia|].
  cbn [deref]. rewrite bind_ret_l.
  rewrite NewSchemaServerFactory_diagnostics_ok, andThen_continue by done.
  rewrite NewSchemaServerFactory_provider_ok, andThen_continue by done.
  rewrite NewSchemaServerFactory_providerMeta_ok, andThen_continue
    by by rewrite (proj1 (acceptProvider_other _ _ _)).
  rewrite NewSchemaServerFactory_resources_ok, andThen_continue.
  2:{ rewrite (proj1 (acceptProviderMeta_other _ _ _)).
      by rewrite (proj1 (proj2 (acceptProvider_other _ _ _))). }
  rewrite NewSchemaServerFactory_dataSources_ok; [done|].
  cbn [acceptResources SchemaServerFactory.dataSources
       SchemaServerFactory.set_resourceSchemas SchemaServerFactory.set_resources].
  rewrite (proj1 (proj2 (acceptProviderMeta_other _ _ _))).
  by rewrite (proj1 (proj2 (proj2 (acceptProvider_other _ _ _)))).
Qed.

Lemma andThen_None_inv (m : M (Factory * option error)) k t factory' :
  andThen m k = (t, Returned (factory', None)) ->
  exists t1 factory1 t2,
    m = (t1, Returned (factory1, None)) /\
    k factory1 = (t2, Returned (factory', None)) /\
    t = t1 ++ t2.
Proof.
  unfold andThen, bind. destruct m as [t1 [[factory1 [e|]]|]]; [done| |done].
  destruct (k factory1) as [t2 r] eqn:Hk. intros [= <- ->].
  by exists t1, factory1, t2.
Qed.

Lemma NewSchemaServerFactory_diagnostics_inv s resp (factory : Factory) t factory' :
  NewSchemaServerFactory_diagnostics s resp factory = (t, Returned (factory', None)) ->
  Forall harmless (tfprotov5.GetProviderSchemaResponse_Diagnostics resp).
Proof.
  unfold NewSchemaServerFactory_diagnostics.
  destruct (NewSchemaServerFactory_diags _ _) as [diags [diag|]] eqn:Hwalk; [done|].
  intros _. by eapply NewSchemaServerFactory_diags_None.
Qed.

Lemma NewSchemaServerFactory_provider_inv pos s resp (factory : Factory) t factory' :
  NewSchemaServerFactory_provider pos s resp factory = (t, Returned (factory', None)) ->
  tfprotov5.Provider resp = None \/
    SchemaServerFactory.providerSchema factory = None.
Proof.
  unfold NewSchemaServerFactory_provider.
  destruct (tfprotov5.Provider resp), (SchemaServerFactory.providerSchema factory);
    [|by right|by left|by left].
  unfold bind. by destruct (deref _) as [? [?|]].
Qed.

Lemma NewSchemaServerFactory_providerMeta_inv pos s resp (factory : Factory) t factory' :
  NewSchemaServerFactory_providerMeta pos s resp factory =
    (t, Returned (factory', None)) ->
  tfprotov5.ProviderMeta resp = None \/
    SchemaServerFactory.providerMetaSchema factory = None.
Proof.
  unfold NewSchemaServerFactory_providerMeta.
  destruct (tfprotov5.ProviderMeta resp),
    (SchemaServerFactory.providerMetaSchema factory); [|by right|by left|by left].
  unfold bind. by destruct (deref _) as [? [?|]].
Qed.

Lemma NewSchemaServerFactory_register_None entries pos owners
    (schemas : gmap string (option Schema)) owners' schemas' :
  NoDup entries.*1 ->
  NewSchemaServerFactory_register entries pos owners schemas = (owners', schemas', None) ->
  forall name, name ∈ entries.*1 -> owners !! name = None.
Proof.
  intros Hnodup Hreg.
  destruct (first_taken entries owners)
    as [Hfresh|(before & name & schema & after & v & -> & Hfresh & Hname)]; [done|].
  destruct (NewSchemaServerFactory_register_taken before name schema after v pos
              owners schemas Hnodup Hfresh Hname) as (o & sc & Heq).
  congruence.
Qed.

Lemma NewSchemaServerFactory_resources_inv pos s resp (factory : Factory) t factory' :
  NewSchemaServerFactory_resources pos s resp factory = (t, Returned (factory', None)) ->
  forall name, is_Some (tfprotov5.ResourceSchemas resp !! name) ->
               SchemaServerFactory.resources factory !! name = None.
Proof.
  unfold NewSchemaServerFactory_resources.
  destruct (NewSchemaServerFactory_register _ _ _ _) as [[owners schemas] [[n v]|]] eqn:Hreg.
  { unfold bind. by destruct (deref _) as [? [?|]]. }
  intros _ name Hname.
  eapply NewSchemaServerFactory_register_None; [apply map_range_NoDup|done|].
  by apply elem_of_map_range_keys.
Qed.

Lemma NewSchemaServerFactory_dataSources_inv pos s resp (factory : Factory) t factory' :
  NewSchemaServerFactory_dataSources pos s resp factory = (t, Returned (factory', None)) ->
  forall name, is_Some (tfprotov5.DataSourceSchemas resp !! name) ->
               SchemaServerFactory.dataSources factory !! name = None.
Proof.
  unfold NewSchemaServerFactory_dataSources.
  destruct (NewSchemaServerFactory_register _ _ _ _) as [[owners schemas] [[n v]|]] eqn:Hreg.
  { unfold bind. by destruct (deref _) as [? [?|]]. }
  intros _ name Hname.
  eapply NewSchemaServerFactory_register_None; [apply map_range_NoDup|done|].
  by apply elem_of_map_range_keys.
Qed.

Lemma NewSchemaServerFactory_server_inv pos server (factory : Factory) t factory' :
  NewSchemaServerFactory_server pos server factory = (t, Returned (factory', None)) ->
  exists resp,
    (pos < length (SchemaServerFactory.servers factory))%nat /\
    schemaOf server = (Some resp, None) /\
    Forall harmless (tfprotov5.GetProviderSchemaResponse_Diagnostics resp) /\
    (tfprotov5.Provider resp = None \/
     SchemaServerFactory.providerSchema factory = None) /\
    (tfprotov5.ProviderMeta resp = None \/
     SchemaServerFactory.providerMetaSchema factory = None) /\
    (forall name, is_Some (tfprotov5.ResourceSchemas resp !! name) ->
                  SchemaServerFactory.resources factory !! name = None) /\
    (forall name, is_Some (tfprotov5.DataSourceSchemas resp !! name) ->
                  SchemaServerFactory.dataSources factory !! name = None) /\
    t = schemaCalls [server] /\
    factory' = accept pos server resp factory.
Proof.
  intros Hstep.
  assert (exists resp,
    (pos < length (SchemaServerFactory.servers factory))%nat /\
    schemaOf server = (Some resp, None) /\
    Forall harmless (tfprotov5.GetProviderSchemaResponse_Diagnostics resp) /\
    (tfprotov5.Provider resp = None \/
     SchemaServerFactory.providerSchema factory = None) /\
    (tfprotov5.ProviderMeta resp = None \/
     SchemaServerFactory.providerMetaSchema factory = None) /\
    (forall name, is_Some (tfprotov5.ResourceSchemas resp !! name) ->
                  SchemaServerFactory.resources factory !! name = None) /\
    (forall name, is_Some (tfprotov5.DataSourceSchemas resp !! name) ->
                  SchemaServerFactory.dataSources factory !! name = None))
    as (resp & Hpos & Hschema & Hdiags & Hprov & Hmeta & Hres & Hdata).
  { revert Hstep. unfold NewSchemaServerFactory_server. rewrite bind_call.
    unfold schemaOf.
    destruct (tfprotov5.GetProviderSchema _ _) as [resp [e|]]; [done|].
    destruct (decide _) as [|Hpos]; [done|].
    destruct resp as [resp|]; [|done].
    cbn [deref]. rewrite bind_ret_l.
    intros [= Ht Hout]. clear Ht.
    destruct (andThen _ _) as [t0 r0] eqn:Hchain. simpl in Hout. subst r0.
    exists resp. split; [lia|]. split; [done|].
    apply andThen_None_inv in Hchain as (t1 & f1 & t2 & Hd & Hchain & _).
    pose proof (NewSchemaServerFactory_diagnostics_inv _ _ _ _ _ Hd) as Hdiags.
    rewrite NewSchemaServerFactory_diagnostics_ok in Hd by done.
    injection Hd as <- <-.
    apply andThen_None_inv in Hchain as (t3 & f3 & t4 & Hp & Hchain & _).
    pose proof (NewSchemaServerFactory_provider_inv _ _ _ _ _ _ Hp) as Hprov.
    rewrite NewSchemaServerFactory_provider_ok in Hp by done.
    injection Hp as <- <-.
    apply andThen_None_inv in Hchain as (t5 & f5 & t6 & Hm & Hchain & _).
    pose proof (NewSchemaServerFactory_providerMeta_inv _ _ _ _ _ _ Hm) as Hmeta.
    rewrite NewSchemaServerFactory_providerMeta_ok in Hm by done.
    injection Hm as <- <-.
    apply andThen_None_inv in Hchain as (t7 & f7 & t8 & Hr & Hchain & _).
    pose proof (NewSchemaServerFactory_resources_inv _ _ _ _ _ _ Hr) as Hres.
    rewrite NewSchemaServerFactory_resources_ok in Hr by done.
    injection Hr as <- <-.
    pose proof (NewSchemaServerFactory_dataSources_inv _ _ _ _ _ _ Hchain) as Hdata.
    rewrite (proj1 (acceptProvider_other _ _ _)) in Hmeta.
    rewrite (proj1 (acceptProviderMeta_other _ _ _)),
      (proj1 (proj2 (acceptProvider_other _ _ _))) in Hres.
    cbn [acceptResources SchemaServerFactory.dataSources
         SchemaServerFactory.set_resourceSchemas SchemaServerFactory.set_resources]
      in Hdata.
    rewrite (proj1 (proj2 (acceptProviderMeta_other _ _ _))),
      (proj1 (proj2 (proj2 (acceptProvider_other _ _ _)))) in Hdata.
    done. }
  exists resp. repeat (split; [done|]).
  rewrite (NewSchemaServerFactory_server_ok pos server resp) in Hstep by done.
  by injection Hstep as <- <-.
Qed.

Lemma ownerRecorded_nil what : ownerRecorded what [] None (-1).
Proof. left. repeat split. intros i server Hi. by rewrite lookup_nil in Hi. Qed.

Lemma routesRecorded_nil what : routesRecorded what [] ∅ ∅.
Proof.
  split.
  - intros name v. rewrite lookup_empty. split; [done|].
    intros (i & server & _ & Hi & _). by rewrite lookup_nil in Hi.
  - intros i server name schema Hi. by rewrite lookup_nil in Hi.
Qed.

Lemma ownerRecorded_snoc what done schema from server :
  ownerRecorded what done schema from ->
  what server = None \/ schema = None ->
  ownerRecorded what (done ++ [server])
    (match what server with Some sch => Some sch | None => schema end)
    (match what server with
     | Some _ => Z.of_nat (length done)
     | None => from
     end).
Proof.
  intros [(-> & -> & Hnone)|(i & si & sch & Hi & Hsi & -> & ->)] Hcond.
  - destruct (what server) as [sch|] eqn:Hserver.
    + right. exists (length done), server, sch.
      rewrite lookup_snoc_Some. split; [by right|done].
    + left. repeat split. intros i si [[_ Hi]|[_ <-]]%lookup_snoc_Some; eauto.
  - destruct Hcond as [Hserver|?]; [|done]. rewrite Hserver.
    right. exists i, si, sch. rewrite lookup_snoc_Some.
    apply lookup_lt_Some in Hi as Hlt. split; [by left|done].
Qed.

Lemma routesRecorded_snoc what done owners schemas server :
  routesRecorded what done owners schemas ->
  (forall name, is_Some (what server !! name) -> owners !! name = None) ->
  routesRecorded what (done ++ [server])
    (((fun _ => Z.of_nat (length done)) <$> what server) ∪ owners)
    (what server ∪ schemas).
Proof.
  intros [Howners Hschemas] Hfresh. split.
  - intros name v. rewrite lookup_union_Some_raw, lookup_fmap. split.
    + intros [Hnew|[Hnew Hold]].
      * destruct (what server !! name) as [schema|] eqn:Hname; [|done].
        injection Hnew as <-. exists (length done), server.
        rewrite lookup_snoc_Some, Hname.
        split; [done|]. split; [by right|by eexists].
      * apply Howners in Hold as (i & si & -> & Hi & Hsi).
        exists i, si. rewrite lookup_snoc_Some.
        apply lookup_lt_Some in Hi as Hlt. split; [done|]. split; [by left|done].
    + intros (i & si & -> & [[Hlt Hi]|[-> <-]]%lookup_snoc_Some & Hsi).
      * right. split.
        -- destruct (what server !! name) as [schema|] eqn:Hname; [|done].
           assert (owners !! name = None) as Hnone by (apply Hfresh; by eexists).
           assert (owners !! name = Some (Z.of_nat i)) as Hsome
             by (apply Howners; eauto).
           congruence.
        -- apply Howners. eauto.
      * left. by destruct Hsi as [schema ->].
  - intros i si name schema [[Hlt Hi]|[-> <-]]%lookup_snoc_Some Hname.
    + rewrite lookup_union_r; [by eapply Hschemas|].
      destruct (what server !! name) as [other|] eqn:Hother; [|done].
      assert (owners !! name = None) as Hnone by (apply Hfresh; by eexists).
      assert (owners !! name = Some (Z.of_nat i)) as Hsome.
      { apply Howners. exists i, si. rewrite Hname. eauto. }
      congruence.
    + by rewrite lookup_union_l'; [|by eexists].
Qed.

Lemma singleOwner_nil {A} (what : ServerFactory -> A -> Prop) : singleOwner what [].
Proof. intros i j si sj a Hi. by rewrite lookup_nil in Hi. Qed.

Lemma singleOwner_snoc {A} (what : ServerFactory -> A -> Prop) done server :
  singleOwner what done ->
  (forall i si a, done !! i = Some si -> what si a -> ~ what server a) ->
  singleOwner what (done ++ [server]).
Proof.
  intros Hdone Hnew i j si sj a
    [[Hi Hsi]|[-> <-]]%lookup_snoc_Some [[Hj Hsj]|[-> <-]]%lookup_snoc_Some Ha Hb;
    [by eapply Hdone| | |done].
  - by destruct (Hnew i si a).
  - by destruct (Hnew j sj a).
Qed.

Lemma singleOwner_snoc_inv {A} (what : ServerFactory -> A -> Prop) done server :
  singleOwner what (done ++ [server]) ->
  singleOwner what done /\
  (forall i si a, done !! i = Some si -> what si a -> ~ what server a).
Proof.
  intros Hall. split.
  - intros i j si sj a Hi Hj. apply Hall; apply lookup_snoc_Some; left;
      eauto using lookup_lt_Some.
  - intros i si a Hi Ha Hb. apply lookup_lt_Some in Hi as Hlt.
    assert (i = length done); [|lia].
    apply (Hall i (length done) si server a); [| |done|done];
      apply lookup_snoc_Some; eauto.
Qed.

Lemma compatible_nil : compatible [].
Proof. repeat split; (constructor || apply singleOwner_nil). Qed.

Lemma declared_schemaOf server resp :
  schemaOf server = (Some resp, None) -> declared server = Some resp.
Proof. unfold declared. by intros ->. Qed.

Lemma declared_inv server resp :
  declared server = Some resp -> schemaOf server = (Some resp, None).
Proof.
  unfold declared. destruct (schemaOf server) as [[r|] [e|]]; try done.
  by intros [= ->].
Qed.

Lemma ownerRecorded_Some what done schema from i server :
  ownerRecorded what done schema from ->
  done !! i = Some server -> is_Some (what server) -> is_Some schema.
Proof.
  intros [(_ & _ & Hnone)|(j & sj & sch & _ & _ & -> & _)] Hi [sch' Hsch]; [|by eexists].
  rewrite (Hnone i server Hi) in Hsch. done.
Qed.

Lemma Registered_accept done n (factory : Factory) server resp :
  Registered done n factory ->
  (length done < n)%nat ->
  schemaOf server = (Some resp, None) ->
  Forall harmless (tfprotov5.GetProviderSchemaResponse_Diagnostics resp) ->
  (tfprotov5.Provider resp = None \/
   SchemaServerFactory.providerSchema factory = None) ->
  (tfprotov5.ProviderMeta resp = None \/
   SchemaServerFactory.providerMetaSchema factory = None) ->
  (forall name, is_Some (tfprotov5.ResourceSchemas resp !! name) ->
                SchemaServerFactory.resources factory !! name = None) ->
  (forall name, is_Some (tfprotov5.DataSourceSchemas resp !! name) ->
                SchemaServerFactory.dataSources factory !! name = None) ->
  Registered (done ++ [server]) n (accept (length done) server resp factory).
Proof.
  intros [Hcompat Hbound Hservers Hdiagnostics Hres Hdata Hprov Hmeta]
    Hlt Hschema Hharmless Hcprov Hcmeta Hcres Hcdata.
  apply declared_schemaOf in Hschema as Hdeclared.
  assert (providerOf server = tfprotov5.Provider resp) as Eprov
    by (unfold providerOf; by rewrite Hdeclared).
  assert (providerMetaOf server = tfprotov5.ProviderMeta resp) as Emeta
    by (unfold providerMetaOf; by rewrite Hdeclared).
  assert (resourcesOf server = tfprotov5.ResourceSchemas resp) as Eres
    by (unfold resourcesOf; by rewrite Hdeclared).
  assert (dataSourcesOf server = tfprotov5.DataSourceSchemas resp) as Edata
    by (unfold dataSourcesOf; by rewrite Hdeclared).
  assert (schemaDiagnosticsOf server =
          tfprotov5.GetProviderSchemaResponse_Diagnostics resp) as Ediags
    by (unfold schemaDiagnosticsOf; by rewrite Hdeclared).
  pose proof (accept_fields (length done) server resp factory) as Hfields.
  cbv zeta in Hfields.
  destruct Hfields as (F1 & F2 & F3 & F4 & F5 & F6 & F7 & F8 & F9 & F10).
  destruct Hcompat as (Hclean & Hsp & Hsm & Hsr & Hsd).
  split; rewrite ?F1, ?F2, ?F3, ?F4, ?F5, ?F6, ?F7, ?F8, ?F9, ?F10.
  - split; [|split; [|split; [|split]]].
    + apply Forall_app. split; [done|]. apply Forall_singleton.
      split; [by rewrite Hdeclared|by rewrite Ediags].
    + apply singleOwner_snoc; [done|]. intros i si [] Hi Hsi Hserver.
      unfold declaresProvider in *. rewrite Eprov in Hserver.
      pose proof (ownerRecorded_Some _ _ _ _ _ _ Hprov Hi Hsi) as [? Hsome].
      destruct Hserver as [? Hserver]. destruct Hcprov; congruence.
    + apply singleOwner_snoc; [done|]. intros i si [] Hi Hsi Hserver.
      unfold declaresProviderMeta in *. rewrite Emeta in Hserver.
      pose proof (ownerRecorded_Some _ _ _ _ _ _ Hmeta Hi Hsi) as [? Hsome].
      destruct Hserver as [? Hserver]. destruct Hcmeta; congruence.
    + apply singleOwner_snoc; [done|]. intros i si name Hi Hsi Hserver.
      unfold declaresResource in *. rewrite Eres in Hserver.
      apply Hcres in Hserver.
      assert (SchemaServerFactory.resources factory !! name = Some (Z.of_nat i));
        [|congruence].
      apply Hres. eauto.
    + apply singleOwner_snoc; [done|]. intros i si name Hi Hsi Hserver.
      unfold declaresDataSource in *. rewrite Edata in Hserver.
      apply Hcdata in Hserver.
      assert (SchemaServerFactory.dataSources factory !! name = Some (Z.of_nat i));
        [|congruence].
      apply Hdata. eauto.
  - rewrite length_app. simpl. lia.
  - rewrite Hservers, insert_app_r_alt by (rewrite length_fmap; lia).
    rewrite length_fmap, Nat.sub_diag, length_app. simpl.
    replace (n - length done)%nat with (S (n - (length done + 1))) by lia.
    rewrite fmap_app, <- app_assoc. done.
  - rewrite Hdiagnostics, fmap_app, join_app, filter_app. simpl.
    by rewrite Ediags, app_nil_r.
  - rewrite <- Eres. apply routesRecorded_snoc; [done|]. by rewrite Eres.
  - rewrite <- Edata. apply routesRecorded_snoc; [done|]. by rewrite Edata.
  - rewrite <- Eprov. apply ownerRecorded_snoc; [done|]. by rewrite Eprov.
  - rewrite <- Emeta. apply ownerRecorded_snoc; [done|]. by rewrite Emeta.
Qed.

Lemma ownerRecorded_None what done schema from server :
  ownerRecorded what done schema from ->
  (forall i si (a : unit), done !! i = Some si -> is_Some (what si) ->
                  ~ is_Some (what server)) ->
  what server = None \/ schema = None.
Proof.
  intros [(-> & _)|(i & si & sch & Hi & Hsi & _)] Hnew; [by right|left].
  destruct (what server) as [other|] eqn:Hserver; [|done].
  destruct (Hnew i si () Hi); by eexists.
Qed.

Lemma routesRecorded_fresh what done owners schemas server :
  routesRecorded what done owners schemas ->
  (forall i si name, done !! i = Some si -> is_Some (what si !! name) ->
                     ~ is_Some (what server !! name)) ->
  forall name, is_Some (what server !! name) -> owners !! name = None.
Proof.
  intros [Howners _] Hnew name Hname.
  destruct (owners !! name) as [v|] eqn:Hv; [|done].
  apply Howners in Hv as (i & si & _ & Hi & Hsi). by destruct (Hnew i si name).
Qed.

Lemma Registered_conditions done n (factory : Factory) server resp :
  Registered done n factory ->
  compatible (done ++ [server]) ->
  schemaOf server = (Some resp, None) ->
  Forall harmless (tfprotov5.GetProviderSchemaResponse_Diagnostics resp) /\
  (tfprotov5.Provider resp = None \/
   SchemaServerFactory.providerSchema factory = None) /\
  (tfprotov5.ProviderMeta resp = None \/
   SchemaServerFactory.providerMetaSchema factory = None) /\
  (forall name, is_Some (tfprotov5.ResourceSchemas resp !! name) ->
                SchemaServerFactory.resources factory !! name = None) /\
  (forall name, is_Some (tfprotov5.DataSourceSchemas resp !! name) ->
                SchemaServerFactory.dataSources factory !! name = None).
Proof.
  intros [_ _ _ _ Hres Hdata Hprov Hmeta] (Hclean & Hsp & Hsm & Hsr & Hsd) Hschema.
  apply declared_schemaOf in Hschema as Hdeclared.
  apply Forall_app in Hclean as [_ [_ Hharmless]%Forall_singleton].
  apply singleOwner_snoc_inv in Hsp as [_ Hsp].
  apply singleOwner_snoc_inv in Hsm as [_ Hsm].
  apply singleOwner_snoc_inv in Hsr as [_ Hsr].
  apply singleOwner_snoc_inv in Hsd as [_ Hsd].
  assert (providerOf server = tfprotov5.Provider resp) as Eprov
    by (unfold providerOf; by rewrite Hdeclared).
  assert (providerMetaOf server = tfprotov5.ProviderMeta resp) as Emeta
    by (unfold providerMetaOf; by rewrite Hdeclared).
  assert (resourcesOf server = tfprotov5.ResourceSchemas resp) as Eres
    by (unfold resourcesOf; by rewrite Hdeclared).
  assert (dataSourcesOf server = tfprotov5.DataSourceSchemas resp) as Edata
    by (unfold dataSourcesOf; by rewrite Hdeclared).
  assert (schemaDiagnosticsOf server =
          tfprotov5.GetProviderSchemaResponse_Diagnostics resp) as Ediags
    by (unfold schemaDiagnosticsOf; by rewrite Hdeclared).
  rewrite <- Ediags, <- Eprov, <- Emeta, <- Eres, <- Edata.
  split; [done|]. split; [|split; [|split]].
  - by apply (ownerRecorded_None _ _ _ _ server Hprov).
  - by apply (ownerRecorded_None _ _ _ _ server Hmeta).
  - by apply (routesRecorded_fresh _ _ _ _ server Hres).
  - by apply (routesRecorded_fresh _ _ _ _ server Hdata).
Qed.

Lemma compatible_app_l done l : compatible (done ++ l) -> compatible done.
Proof.
  intros (Hclean & Hsp & Hsm & Hsr & Hsd).
  apply Forall_app in Hclean as [Hclean _].
  repeat split; [done|..];
    intros i j si sj a Hi Hj;
    [apply Hsp|apply Hsm|apply Hsr|apply Hsd];
    by apply lookup_app_l_Some.
Qed.

Lemma NewSchemaServerFactory_servers_ok l done n (factory : Factory) :
  Registered done n factory ->
  (length done + length l <= n)%nat ->
  compatible (done ++ l) ->
  exists factory',
    NewSchemaServerFactory_servers (length done) l factory =
      (schemaCalls l, Returned (factory', None)) /\
    Registered (done ++ l) n factory'.
Proof.
  revert done factory.
  induction l as [|server l IH]; intros done factory Hreg Hlen Hcompat.
  - exists factory. rewrite app_nil_r. done.
  - simpl in Hlen.
    assert (compatible (done ++ [server])) as Hone.
    { apply (compatible_app_l _ l). by rewrite <- app_assoc. }
    pose proof (proj1 Hone) as Hclean.
    apply Forall_app in Hclean as [_ [[resp Hdeclared] _]%Forall_singleton].
    apply declared_inv in Hdeclared as Hschema.
    destruct (Registered_conditions _ _ _ _ _ Hreg Hone Hschema)
      as (Hharmless & Hcprov & Hcmeta & Hcres & Hcdata).
    pose proof (Registered_accept _ _ _ _ _ Hreg ltac:(lia) Hschema Hharmless
                  Hcprov Hcmeta Hcres Hcdata) as Hreg'.
    destruct (IH (done ++ [server]) _ Hreg') as (factory' & Hloop & Hfinal).
    { rewrite length_app. simpl. lia. }
    { by rewrite <- app_assoc. }
    exists factory'. split; [|by rewrite <- app_assoc in Hfinal].
    cbn [NewSchemaServerFactory_servers].
    rewrite (NewSchemaServerFactory_server_ok _ _ resp); try done.
    2:{ rewrite (reg_servers _ _ _ Hreg), length_app, length_fmap, length_replicate. lia. }
    unfold andThen, bind.
    rewrite length_app in Hloop. simpl in Hloop.
    replace (S (length done)) with (length done + 1)%nat by lia.
    by rewrite Hloop.
Qed.

Lemma NewSchemaServerFactory_servers_inv l done n (factory : Factory) t factory' :
  Registered done n factory ->
  NewSchemaServerFactory_servers (length done) l factory =
    (t, Returned (factory', None)) ->
  t = schemaCalls l /\ Registered (done ++ l) n factory'.
Proof.
  revert done factory t.
  induction l as [|server l IH]; intros done factory t Hreg.
  - simpl. intros [= <- <-]. by rewrite app_nil_r.
  - cbn [NewSchemaServerFactory_servers]. intros Hloop.
    apply andThen_None_inv in Hloop as (t1 & factory1 & t2 & Hstep & Hloop & ->).
    apply NewSchemaServerFactory_server_inv in Hstep
      as (resp & Hpos & Hschema & Hharmless & Hcprov & Hcmeta & Hcres & Hcdata & -> & ->).
    assert (length done < n)%nat as Hlt.
    { rewrite (reg_servers _ _ _ Hreg), length_app, length_fmap, length_replicate in Hpos.
      pose proof (reg_bound _ _ _ Hreg). lia. }
    pose proof (Registered_accept _ _ _ _ _ Hreg Hlt Hschema Hharmless
                  Hcprov Hcmeta Hcres Hcdata) as Hreg'.
    replace (S (length done)) with (length (done ++ [server])) in Hloop
      by (rewrite length_app; simpl; lia).
    apply (IH _ _ _ Hreg') in Hloop as [-> Hfinal].
    by rewrite <- app_assoc in Hfinal.
Qed.

Lemma Registered_initial n :
  Registered [] n
    {| SchemaServerFactory.resources := ∅;
       SchemaServerFactory.dataSources := ∅;
       SchemaServerFactory.servers := replicate n None;
       SchemaServerFactory.resourceSchemas := ∅;
       SchemaServerFactory.dataSourceSchemas := ∅;
       SchemaServerFactory.providerSchema := None;
       SchemaServerFactory.providerMetaSchema := None;
       SchemaServerFactory.diagnostics := [];
       SchemaServerFactory.providerSchemaFrom := -1;
       SchemaServerFactory.providerMetaSchemaFrom := -1 |}.
Proof.
  split; simpl.
  - apply compatible_nil.
  - lia.
  - by rewrite Nat.sub_0_r.
  - done.
  - apply routesRecorded_nil.
  - apply routesRecorded_nil.
  - apply ownerRecorded_nil.
  - apply ownerRecorded_nil.
Qed.

Lemma NewSchemaServerFactory_compatible servers :
  compatible servers ->
  exists factory,
    NewSchemaServerFactory servers = (schemaCalls servers, Returned (factory, None)) /\
    Registered servers (length servers) factory.
Proof.
  intros Hcompat. unfold NewSchemaServerFactory.
  apply (NewSchemaServerFactory_servers_ok servers [] (length servers));
    [apply Registered_initial|simpl; lia|done].
Qed.

Lemma NewSchemaServerFactory_Registered servers t factory :
  NewSchemaServerFactory servers = (t, Returned (factory, None)) ->
  t = schemaCalls servers /\ Registered servers (length servers) factory.
Proof.
  unfold NewSchemaServerFactory. intros Hbuild.
  by apply (NewSchemaServerFactory_servers_inv servers [] (length servers))
    in Hbuild; [|apply Registered_initial].
Qed.

(** ** Turns of the loop that end the build *)
Lemma NewSchemaServerFactory_server_diagnostic pos server resp (factory : Factory)
    pre diag post :
  (pos < length (SchemaServerFactory.servers factory))%nat ->
  schemaOf server = (Some resp, None) ->
  tfprotov5.GetProviderSchemaResponse_Diagnostics resp = pre ++ Some diag :: post ->
  Forall harmless pre ->
  tfprotov5.Severity diag = tfprotov5.DiagnosticSeverityError ->
  NewSchemaServerFactory_server pos server factory =
    (schemaCalls [server],
     Returned
       (SchemaServerFactory.set_diagnostics
          (SchemaServerFactory.diagnostics factory ++ filter is_Some pre)
          (acceptServer pos server factory),
        Some (ErrSchemaDiagnostic (server tt) (tfprotov5.Attribute diag)
                (tfprotov5.Summary diag) (tfprotov5.Detail diag)))).
Proof.
  intros Hpos Hschema Hdiags Hpre Hsev.
  unfold NewSchemaServerFactory_server. rewrite bind_call.
  unfold schemaOf in Hschema. rewrite Hschema.
  destruct (decide _) as [Hle|_]; [lia|].
  cbn [deref]. rewrite bind_ret_l.
  unfold NewSchemaServerFactory_diagnostics. rewrite Hdiags.
  by rewrite (NewSchemaServerFactory_diags_error _ _ _ _ Hpre Hsev).
Qed.

Lemma bind_deref_Some {A B} (a : A) (k : A -> M B) : bind (deref (Some a)) k = k a.
Proof. apply bind_ret_l. Qed.



Lemma NewSchemaServerFactory_register_first_taken
    (m : gmap string (option Schema)) pos owners
    (schemas : gmap string (option Schema)) name0 :
  is_Some (m !! name0) -> is_Some (owners !! name0) ->
  exists earlier name schema later v owners' schemas',
    map_range m = earlier ++ (name, schema) :: later /\
    (forall n, n ∈ earlier.*1 -> owners !! n = None) /\
    owners !! name = Some v /\
    NewSchemaServerFactory_register (map_range m) pos owners schemas =
      (owners', schemas', Some (name, v)).
Proof.
  intros Hm [v0 Hv0].
  destruct (first_taken (map_range m) owners)
    as [Hfresh|(earlier & name & schema & later & v & Hsplit & Hfresh & Hname)].
  { rewrite Hfresh in Hv0; [done|]. by apply elem_of_map_range_keys. }
  pose proof (map_range_NoDup m) as Hnodup. rewrite Hsplit in Hnodup.
  destruct (NewSchemaServerFactory_register_taken earlier name schema later v pos
              owners schemas Hnodup Hfresh Hname) as (owners' & schemas' & Hreg).
  exists earlier, name, schema, later, v, owners', schemas'.
  rewrite Hsplit. done.
Qed.

Lemma accept_upto_providerMeta pos server resp (factory : Factory) :
  let factory' :=
    acceptProviderMeta pos resp
      (acceptProvider pos resp
         (acceptDiagnostics resp (acceptServer pos server factory))) in
  SchemaServerFactory.resources factory' = SchemaServerFactory.resources factory /\
  SchemaServerFactory.resourceSchemas factory' =
    SchemaServerFactory.resourceSchemas factory /\
  SchemaServerFactory.dataSources factory' = SchemaServerFactory.dataSources factory /\
  SchemaServerFactory.dataSourceSchemas factory' =
    SchemaServerFactory.dataSourceSchemas factory /\
  SchemaServerFactory.servers factory' =
    <[pos := Some server]> (SchemaServerFactory.servers factory).
Proof.
  unfold acceptProviderMeta, acceptProvider.
  by destruct (tfprotov5.ProviderMeta resp), (tfprotov5.Provider resp).
Qed.

Lemma NewSchemaServerFactory_server_first_resource pos server resp
    (factory : Factory) name0 :
  (pos < length (SchemaServerFactory.servers factory))%nat ->
  schemaOf server = (Some resp, None) ->
  Forall harmless (tfprotov5.GetProviderSchemaResponse_Diagnostics resp) ->
  (tfprotov5.Provider resp = None \/
   SchemaServerFactory.providerSchema factory = None) ->
  (tfprotov5.ProviderMeta resp = None \/
   SchemaServerFactory.providerMetaSchema factory = None) ->
  is_Some (tfprotov5.ResourceSchemas resp !! name0) ->
  is_Some (SchemaServerFactory.resources factory !! name0) ->
  exists earlier name schema later v,
    map_range (tfprotov5.ResourceSchemas resp) = earlier ++ (name, schema) :: later /\
    (forall n, n ∈ earlier.*1 -> SchemaServerFactory.resources factory !! n = None) /\
    SchemaServerFactory.resources factory !! name = Some v /\
    forall first,
      index (<[pos := Some server]> (SchemaServerFactory.servers factory)) v =
        Some first ->
      exists factory',
        NewSchemaServerFactory_server pos server factory =
          (schemaCalls [server],
           Returned (factory', Some (ErrResourceMultiple name first (server tt)))).
Proof.
  intros Hpos Hschema Hdiags Hcprov Hcmeta Hname0 Htaken0.
  destruct (NewSchemaServerFactory_register_first_taken
              (tfprotov5.ResourceSchemas resp) pos
              (SchemaServerFactory.resources factory)
              (SchemaServerFactory.resourceSchemas factory) name0 Hname0 Htaken0)
    as (earlier & name & schema & later & v & owners' & schemas' &
        Hsplit & Hfresh & Hv & Hreg).
  exists earlier, name, schema, later, v.
  split; [done|]. split; [done|]. split; [done|]. intros first Hfirst.
  unfold NewSchemaServerFactory_server. rewrite bind_call.
  unfold schemaOf in Hschema. rewrite Hschema.
  destruct (decide _) as [Hle|_]; [lia|].
  cbn [deref]. rewrite bind_ret_l.
  rewrite NewSchemaServerFactory_diagnostics_ok, andThen_continue by done.
  rewrite NewSchemaServerFactory_provider_ok, andThen_continue by done.
  rewrite NewSchemaServerFactory_providerMeta_ok, andThen_continue
    by by rewrite (proj1 (acceptProvider_other _ _ _)).
  pose proof (accept_upto_providerMeta pos server resp factory) as Hfields.
  cbv zeta in Hfields. destruct Hfields as (Er & Ers & _ & _ & Es).
  set (factory4 := acceptProviderMeta pos resp _) in *. clearbody factory4.
  unfold NewSchemaServerFactory_resources. rewrite Er, Ers, Hreg.
  cbn [SchemaServerFactory.servers SchemaServerFactory.set_resourceSchemas
       SchemaServerFactory.set_resources].
  rewrite Es, Hfirst, bind_deref_Some. eexists. reflexivity.
Qed.

Lemma NewSchemaServerFactory_server_first_dataSource pos server resp
    (factory : Factory) name0 :
  (pos < length (SchemaServerFactory.servers factory))%nat ->
  schemaOf server = (Some resp, None) ->
  Forall harmless (tfprotov5.GetProviderSchemaResponse_Diagnostics resp) ->
  (tfprotov5.Provider resp = None \/
   SchemaServerFactory.providerSchema factory = None) ->
  (tfprotov5.ProviderMeta resp = None \/
   SchemaServerFactory.providerMetaSchema factory = None) ->
  (forall name, is_Some (tfprotov5.ResourceSchemas resp !! name) ->
                SchemaServerFactory.resources factory !! name = None) ->
  is_Some (tfprotov5.DataSourceSchemas resp !! name0) ->
  is_Some (SchemaServerFactory.dataSources factory !! name0) ->
  exists earlier name schema later v,
    map_range (tfprotov5.DataSourceSchemas resp) =
      earlier ++ (name, schema) :: later /\
    (forall n, n ∈ earlier.*1 ->
               SchemaServerFactory.dataSources factory !! n = None) /\
    SchemaServerFactory.dataSources factory !! name = Some v /\
    forall first,
      index (<[pos := Some server]> (SchemaServerFactory.servers factory)) v =
        Some first ->
      exists factory',
        NewSchemaServerFactory_server pos server factory =
          (schemaCalls [server],
           Returned (factory', Some (ErrDataSourceMultiple name first (server tt)))).
Proof.
  intros Hpos Hschema Hdiags Hcprov Hcmeta Hcres Hname0 Htaken0.
  destruct (NewSchemaServerFactory_register_first_taken
              (tfprotov5.DataSourceSchemas resp) pos
              (SchemaServerFactory.dataSources factory)
              (SchemaServerFactory.dataSourceSchemas factory) name0 Hname0 Htaken0)
    as (earlier & name & schema & later & v & owners' & schemas' &
        Hsplit & Hfresh & Hv & Hreg).
  exists earlier, name, schema, later, v.
  split; [done|]. split; [done|]. split; [done|]. intros first Hfirst.
  unfold NewSchemaServerFactory_server. rewrite bind_call.
  unfold schemaOf in Hschema. rewrite Hschema.
  destruct (decide _) as [Hle|_]; [lia|].
  cbn [deref]. rewrite bind_ret_l.
  rewrite NewSchemaServerFactory_diagnostics_ok, andThen_continue by done.
  rewrite NewSchemaServerFactory_provider_ok, andThen_continue by done.
  rewrite NewSchemaServerFactory_providerMeta_ok, andThen_continue
    by by rewrite (proj1 (acceptProvider_other _ _ _)).
  pose proof (accept_upto_providerMeta pos server resp factory) as Hfields.
  cbv zeta in Hfields. destruct Hfields as (Er & _ & Ed & Eds & Es).
  set (factory4 := acceptProviderMeta pos resp _) in *. clearbody factory4.
  rewrite NewSchemaServerFactory_resources_ok, andThen_continue
    by by rewrite Er.
  unfold NewSchemaServerFactory_dataSources.
  cbn [acceptResources SchemaServerFactory.dataSources
       SchemaServerFactory.dataSourceSchemas
       SchemaServerFactory.set_resourceSchemas SchemaServerFactory.set_resources].
  rewrite Ed, Eds, Hreg.
  cbn [acceptResources SchemaServerFactory.servers
       SchemaServerFactory.set_dataSourceSchemas SchemaServerFactory.set_dataSources
       SchemaServerFactory.set_resourceSchemas SchemaServerFactory.set_resources].
  rewrite Es, Hfirst, bind_deref_Some. eexists. reflexivity.
Qed.

(** ** The loop over a list that continues a list *)
Lemma NewSchemaServerFactory_servers_app pos l1 l2 (factory : Factory) :
  NewSchemaServerFactory_servers pos (l1 ++ l2) factory =
    andThen (NewSchemaServerFactory_servers pos l1 factory)
      (NewSchemaServerFactory_servers (pos + length l1) l2).
Proof.
  revert pos factory. induction l1 as [|server l1 IH]; intros pos factory.
  - cbn [app NewSchemaServerFactory_servers length].
    by rewrite andThen_continue, Nat.add_0_r.
  - cbn [app NewSchemaServerFactory_servers length].
    destruct (NewSchemaServerFactory_server pos server factory)
      as [t [[factory1 [e|]]|]]; [by cbn; rewrite !app_nil_r| |done].
    unfold andThen at 1 3. cbn [bind]. rewrite IH.
    replace (S pos + length l1)%nat with (pos + S (length l1))%nat by lia.
    destruct (NewSchemaServerFactory_servers (S pos) l1 factory1)
      as [t1 [[factory2 [e|]]|]]; cbn; [by rewrite !app_nil_r| |done].
    destruct (NewSchemaServerFactory_servers _ l2 factory2) as [t2 r2].
    by rewrite app_assoc.
Qed.

(** The build of a list whose first backends are compatible goes through
    these and carries on with the rest from a factory that has them
    registered. *)
Lemma NewSchemaServerFactory_from before rest :
  compatible before ->
  exists factory : Factory,
    Registered before (length (before ++ rest)) factory /\
    NewSchemaServerFactory (before ++ rest) =
      let '(t, r) :=
        NewSchemaServerFactory_servers (length before) rest factory in
      (schemaCalls before ++ t, r).
Proof.
  intros Hcompat. unfold NewSchemaServerFactory.
  destruct (NewSchemaServerFactory_servers_ok before [] (length (before ++ rest))
              _ (Registered_initial _)) as (factory & Hloop & Hreg);
    [rewrite length_app; simpl; lia|done|].
  exists factory. split; [done|].
  rewrite NewSchemaServerFactory_servers_app. simpl in Hloop. rewrite Hloop.
  unfold andThen. cbn [bind]. simpl.
  by destruct (NewSchemaServerFactory_servers _ rest factory).
Qed.

Lemma NewSchemaServerFactory_stops before server after (factory factory' : Factory) e :
  NewSchemaServerFactory_server (length before) server factory =
    (schemaCalls [server], Returned (factory', Some e)) ->
  (let '(t, r) :=
     NewSchemaServerFactory_servers (length before) (server :: after) factory in
   (schemaCalls before ++ t, r)) =
  (schemaCalls (before ++ [server]), Returned (factory', Some e)).
Proof.
  intros Hstep. cbn [NewSchemaServerFactory_servers]. rewrite Hstep.
  cbn. unfold schemaCalls. by rewrite fmap_app.
Qed.

Lemma Registered_index done n (factory : Factory) server (i : nat) si :
  Registered done n factory ->
  done !! i = Some si ->
  index (<[length done := Some server]> (SchemaServerFactory.servers factory))
        (Z.of_nat i) = Some (Some si).
Proof.
  intros Hreg Hi. apply lookup_lt_Some in Hi as Hlt.
  unfold index. destruct (Z.of_nat i <? 0) eqn:Hneg; [lia|].
  rewrite Nat2Z.id, list_lookup_insert_ne by lia.
  rewrite (reg_servers _ _ _ Hreg), lookup_app_l by (rewrite length_fmap; lia).
  by rewrite list_lookup_fmap, Hi.
Qed.

Lemma Registered_length done n (factory : Factory) :
  Registered done n factory -> length (SchemaServerFactory.servers factory) = n.
Proof.
  intros Hreg. pose proof (reg_bound _ _ _ Hreg).
  rewrite (reg_servers _ _ _ Hreg), length_app, length_fmap, length_replicate. lia.
Qed.

(** ** The server of a factory *)
Lemma Server_servers_filled (l : list ServerFactory) :
  SchemaServerFactory.Server_servers (Some <$> l) =
    ret ((fun server : ServerFactory => server tt) <$> l).
Proof.
  induction l as [|server l IH]; [done|].
  cbn [fmap list_fmap SchemaServerFactory.Server_servers].
  change (list_fmap _ _ Some l) with (Some <$> l).
  by rewrite bind_deref_Some, IH, bind_ret_l.
Qed.

Lemma Server_routes_ok entries (resServers : list ProviderServer) acc :
  NoDup entries.*1 ->
  (forall name pos, (name, pos) ∈ entries -> is_Some (index resServers pos)) ->
  exists table,
    SchemaServerFactory.Server_routes entries resServers acc = ret table /\
    forall name,
      table !! name =
        match (list_to_map entries : gmap string Z) !! name with
        | Some pos => index resServers pos
        | None => acc !! name
        end.
Proof.
  revert acc. induction entries as [|[r pos] entries IH]; intros acc Hnodup Hvalid.
  - exists acc. split; [done|]. intros name. by rewrite list_to_map_nil, lookup_empty.
  - apply NoDup_cons in Hnodup as [Hr Hnodup].
    destruct (Hvalid r pos) as [h Hh]; [left|].
    destruct (IH (<[r := h]> acc) Hnodup) as (table & Hroutes & Htable).
    { intros name p Hin. apply (Hvalid name p). by right. }
    exists table. split.
    + cbn [SchemaServerFactory.Server_routes]. by rewrite Hh, bind_deref_Some.
    + intros name. rewrite Htable, list_to_map_cons.
      destruct (decide (name = r)) as [->|Hne].
      * rewrite lookup_insert_eq, (not_elem_of_list_to_map_1 _ _ Hr).
        by rewrite lookup_insert_eq.
      * by rewrite !lookup_insert_ne.
Qed.

Lemma index_fmap {A B} (f : A -> B) (l : list A) (i : nat) :
  index (f <$> l) (Z.of_nat i) = f <$> l !! i.
Proof.
  unfold index. destruct (Z.ltb_spec (Z.of_nat i) 0) as [Hneg|_]; [lia|].
  by rewrite Nat2Z.id, list_lookup_fmap.
Qed.

Lemma Server_routes_recorded what servers owners schemas :
  routesRecorded what servers owners schemas ->
  exists table,
    SchemaServerFactory.Server_routes (map_range owners)
      ((fun server : ServerFactory => server tt) <$> servers) ∅ = ret table /\
    forall name h,
      table !! name = Some h <->
      exists (i : nat) si,
        servers !! i = Some si /\ is_Some (what si !! name) /\ h = si tt.
Proof.
  intros [Howners _].
  destruct (Server_routes_ok (map_range owners)
              ((fun server : ServerFactory => server tt) <$> servers) ∅)
    as (table & Hroutes & Htable); [apply map_range_NoDup| |].
  { intros name pos Hin. rewrite map_range_perm in Hin.
    apply elem_of_map_to_list, Howners in Hin as (i & si & -> & Hi & _).
    rewrite index_fmap, Hi. by eexists. }
  exists table. split; [done|]. intros name h.
  rewrite Htable, list_to_map_range. split.
  - destruct (owners !! name) as [v|] eqn:Hv; [|by rewrite lookup_empty].
    apply Howners in Hv as (i & si & -> & Hi & Hsi).
    rewrite index_fmap, Hi. intros [= <-]. eauto.
  - intros (i & si & Hi & Hsi & ->).
    assert (owners !! name = Some (Z.of_nat i)) as -> by (apply Howners; eauto).
    by rewrite index_fmap, Hi.
Qed.

Lemma Server_Registered servers (factory : Factory) :
  Registered servers (length servers) factory ->
  exists s,
    SchemaServerFactory.Server factory = ([], Returned s) /\
    SchemaServer.servers s = (fun server : ServerFactory => server tt) <$> servers /\
    SchemaServer.prepareProviderConfigServer s =
      SchemaServerFactory.providerSchemaFrom factory /\
    SchemaServer.getSchemaHandler s = SchemaServerFactory.getSchemaHandler factory /\
    (forall name h,
        SchemaServer.resources s !! name = Some h <->
        exists (i : nat) si,
          servers !! i = Some si /\ declaresResource si name /\ h = si tt) /\
    (forall name h,
        SchemaServer.dataSources s !! name = Some h <->
        exists (i : nat) si,
          servers !! i = Some si /\ declaresDataSource si name /\ h = si tt).
Proof.
  intros Hreg.
  destruct (Server_routes_recorded _ _ _ _ (reg_resources _ _ _ Hreg))
    as (resResources & Hr & Hresources).
  destruct (Server_routes_recorded _ _ _ _ (reg_dataSources _ _ _ Hreg))
    as (resDataSources & Hd & HdataSources).
  exists {| SchemaServer.resources := resResources;
            SchemaServer.dataSources := resDataSources;
            SchemaServer.servers :=
              (fun server : ServerFactory => server tt) <$> servers;
            SchemaServer.getSchemaHandler :=
              SchemaServerFactory.getSchemaHandler factory;
            SchemaServer.prepareProviderConfigServer :=
              SchemaServerFactory.providerSchemaFrom factory |}.
  split; [|by repeat (split; [done|])].
  unfold SchemaServerFactory.Server.
  rewrite (reg_servers _ _ _ Hreg), Nat.sub_diag, app_nil_r.
  rewrite Server_servers_filled, bind_ret_l, Hr, bind_ret_l, Hd, bind_ret_l.
  reflexivity.
Qed.

Lemma NewSchemaServerFactory_returns_compatible servers t (factory : Factory) :
  NewSchemaServerFactory servers = (t, Returned (factory, None)) ->
  compatible servers.
Proof.
  intros Hbuild. apply NewSchemaServerFactory_Registered in Hbuild as [_ Hreg].
  apply (reg_compatible _ _ _ Hreg).
Qed.

Lemma Forall_harmless_join (servers : list ServerFactory) :
  Forall answersCleanly servers ->
  Forall harmless (mjoin (schemaDiagnosticsOf <$> servers)).
Proof.
  induction 1 as [|server l [_ Hserver] _ IH]; [done|].
  rewrite fmap_cons. simpl. by apply Forall_app.
Qed.

(** C8. The walk of the build over the diagnostics of a schema response.
    A nil entry is skipped: the walk goes on with the rest and the same
    accumulator. Where the backends before some backend are compatible
    and that backend answers the schema request with a response whose
    diagnostics have a first entry of error severity, the build ends at
    that backend, asking no later backend for its schema, with the error
    that carries the attribute, the summary and the detail of that
    diagnostic; the accumulator then holds the diagnostics of the earlier
    backends and those before the failing one, in that order, nil entries
    left out. When the build returns without error, no diagnostic of any
    backend is of error severity, and the accumulator holds the
    diagnostics of all backends, backend by backend in the order of the
    list and within a backend in the order of its response, nil entries
    left out. *)
Theorem NewSchemaServerFactory_walks_diagnostics :
  (forall l acc : list (option Diagnostic),
      NewSchemaServerFactory_diags (None :: l) acc =
      NewSchemaServerFactory_diags l acc) /\
  (forall before server after resp pre diag post,
      compatible before ->
      schemaOf server = (Some resp, None) ->
      tfprotov5.GetProviderSchemaResponse_Diagnostics resp =
        pre ++ Some diag :: post ->
      Forall harmless pre ->
      tfprotov5.Severity diag = tfprotov5.DiagnosticSeverityError ->
      exists factory',
        NewSchemaServerFactory (before ++ server :: after) =
          (schemaCalls (before ++ [server]),
           Returned
             (factory',
              Some (ErrSchemaDiagnostic (server tt) (tfprotov5.Attribute diag)
                      (tfprotov5.Summary diag) (tfprotov5.Detail diag)))) /\
        SchemaServerFactory.diagnostics factory' =
          filter is_Some (mjoin (schemaDiagnosticsOf <$> before))
          ++ filter is_Some pre) /\
  (forall servers t factory,
      NewSchemaServerFactory servers = (t, Returned (factory, None)) ->
      SchemaServerFactory.diagnostics factory =
        filter is_Some (mjoin (schemaDiagnosticsOf <$> servers)) /\
      Forall harmless (mjoin (schemaDiagnosticsOf <$> servers))).
Proof.
  split; [reflexivity|]. split.
  - intros before server after resp pre diag post Hcompat Hschema Hdiags Hpre Hsev.
    destruct (NewSchemaServerFactory_from before (server :: after) Hcompat)
      as (factory0 & Hreg & ->).
    eexists. split.
    + apply NewSchemaServerFactory_stops.
      apply (NewSchemaServerFactory_server_diagnostic _ _ resp _ pre diag post);
        try done.
      rewrite (Registered_length _ _ _ Hreg), length_app. simpl. lia.
    + simpl. by rewrite (reg_diagnostics _ _ _ Hreg).
  - intros servers t factory Hbuild.
    apply NewSchemaServerFactory_Registered in Hbuild as [_ Hreg].
    split; [apply (reg_diagnostics _ _ _ Hreg)|].
    apply Forall_harmless_join, (reg_compatible _ _ _ Hreg).
Qed.
Lemma ownerRecorded_owner what done schema from (i : nat) si :
  singleOwner (fun server (_ : unit) => is_Some (what server)) done ->
  ownerRecorded what done schema from ->
  done !! i = Some si -> is_Some (what si) ->
  schema = what si /\ from = Z.of_nat i.
Proof.
  intros Hsingle [(_ & _ & Hnone)|(j & sj & sch & Hj & Hsj & -> & ->)] Hi Hsi.
  - rewrite (Hnone i si Hi) in Hsi. by destruct Hsi.
  - assert (i = j) as <-.
    { apply (Hsingle i j si sj ()); first [done|by eexists]. }
    rewrite Hi in Hj. injection Hj as <-. by rewrite Hsj.
Qed.

Lemma no_owner_before what (before : list ServerFactory) server schema from :
  ownerRecorded what before schema from ->
  what server = None \/ Forall (fun s => what s = None) before ->
  what server = None \/ schema = None.
Proof.
  intros Hrec [?|Hnone]; [by left|right].
  destruct Hrec as [(-> & _)|(i & si & sch & Hi & Hsi & _)]; [done|].
  rewrite Forall_lookup in Hnone. rewrite (Hnone i si Hi) in Hsi. done.
Qed.

Lemma no_route_before what (before : list ServerFactory) server owners schemas :
  routesRecorded what before owners schemas ->
  (forall name, is_Some (what server !! name) ->
                Forall (fun s => ~ is_Some (what s !! name)) before) ->
  forall name, is_Some (what server !! name) -> owners !! name = None.
Proof.
  intros Hrec Hnone. apply (routesRecorded_fresh _ _ _ _ _ Hrec).
  intros i si name Hi Hsi Hserver. specialize (Hnone name Hserver).
  rewrite Forall_lookup in Hnone. by apply (Hnone i si Hi).
Qed.

(** The names an [owners] map leaves free are the names no backend taken
    in so far declares. *)
Lemma routesRecorded_free what (before : list ServerFactory) owners schemas
    {A} (entries : list (string * A)) :
  routesRecorded what before owners schemas ->
  (forall n, n ∈ entries.*1 -> owners !! n = None) ->
  Forall (fun entry => Forall (fun s => ~ is_Some (what s !! entry.1)) before)
         entries.
Proof.
  intros [Howners _] Hfree. apply Forall_forall. intros [n a] Hin.
  apply Forall_lookup. intros i si Hi Hsi. simpl in Hsi.
  assert (Hn : owners !! n = None).
  { apply Hfree. apply list_elem_of_fmap. by exists (n, a). }
  assert (Hsome : owners !! n = Some (Z.of_nat i)).
  { apply Howners. by exists i, si. }
  by rewrite Hn in Hsome.
Qed.

(** C5. A type name has one owner. Where two backends of the list
    declare the same resource type name, or the same data-source type
    name, the build does not return without error: it returns an error or
    panics. The error is the one for a type declared twice where the
    collision is the first thing to end the build. Where the backends
    before some backend are compatible, and that backend answers cleanly,
    collides with none of them on the provider or provider-meta schema,
    and declares a resource type name that one of them declares, the
    build ends at that backend, asking no later backend for its schema,
    with the error for a resource declared twice. The error carries the
    first name, in the order [range] goes over the resource schemas of
    that backend, that an earlier backend declares; the factory function
    of the one earlier backend that declares it; and the later backend.
    The same holds for data-source type names where no resource type name
    collides. When the build returns without error, no two backends
    declare the same resource type name or the same data-source type
    name, each declared name is registered to the position of the backend
    that declares it with the schema declared, nothing else is
    registered, and the server of the factory routes each name to the
    backend at that position. The build of compatible backends returns
    without error. *)
Theorem NewSchemaServerFactory_type_names_have_one_owner :
  (forall servers (i j : nat) si sj name,
      i ≠ j -> servers !! i = Some si -> servers !! j = Some sj ->
      (declaresResource si name /\ declaresResource sj name) \/
      (declaresDataSource si name /\ declaresDataSource sj name) ->
      exists t,
        NewSchemaServerFactory servers = (t, Panicked) \/
        exists factory e,
          NewSchemaServerFactory servers = (t, Returned (factory, Some e))) /\
  (forall before server after (i0 : nat) s0 name0,
      compatible before -> answersCleanly server ->
      providerOf server = None \/ Forall (fun s => providerOf s = None) before ->
      providerMetaOf server = None \/
        Forall (fun s => providerMetaOf s = None) before ->
      before !! i0 = Some s0 ->
      declaresResource s0 name0 -> declaresResource server name0 ->
      exists earlier name schema later (i : nat) si factory',
        map_range (resourcesOf server) = earlier ++ (name, schema) :: later /\
        Forall (fun entry => Forall (fun s => ~ declaresResource s entry.1) before)
               earlier /\
        before !! i = Some si /\ declaresResource si name /\
        (forall (j : nat) sj,
            before !! j = Some sj -> declaresResource sj name -> j = i) /\
        NewSchemaServerFactory (before ++ server :: after) =
          (schemaCalls (before ++ [server]),
           Returned (factory',
                     Some (ErrResourceMultiple name (Some si) (server tt))))) /\
  (forall before server after (i0 : nat) s0 name0,
      compatible before -> answersCleanly server ->
      providerOf server = None \/ Forall (fun s => providerOf s = None) before ->
      providerMetaOf server = None \/
        Forall (fun s => providerMetaOf s = None) before ->
      (forall name, declaresResource server name ->
                    Forall (fun s => ~ declaresResource s name) before) ->
      before !! i0 = Some s0 ->
      declaresDataSource s0 name0 -> declaresDataSource server name0 ->
      exists earlier name schema later (i : nat) si factory',
        map_range (dataSourcesOf server) = earlier ++ (name, schema) :: later /\
        Forall (fun entry => Forall (fun s => ~ declaresDataSource s entry.1) before)
               earlier /\
        before !! i = Some si /\ declaresDataSource si name /\
        (forall (j : nat) sj,
            before !! j = Some sj -> declaresDataSource sj name -> j = i) /\
        NewSchemaServerFactory (before ++ server :: after) =
          (schemaCalls (before ++ [server]),
           Returned (factory',
                     Some (ErrDataSourceMultiple name (Some si) (server tt))))) /\
  (forall servers t factory,
      NewSchemaServerFactory servers = (t, Returned (factory, None)) ->
      singleOwner declaresResource servers /\
      singleOwner declaresDataSource servers /\
      (forall (i : nat) si name schema,
          servers !! i = Some si -> resourcesOf si !! name = Some schema ->
          SchemaServerFactory.resources factory !! name = Some (Z.of_nat i) /\
          SchemaServerFactory.resourceSchemas factory !! name = Some schema) /\
      (forall (i : nat) si name schema,
          servers !! i = Some si -> dataSourcesOf si !! name = Some schema ->
          SchemaServerFactory.dataSources factory !! name = Some (Z.of_nat i) /\
          SchemaServerFactory.dataSourceSchemas factory !! name = Some schema) /\
      (forall name v,
          SchemaServerFactory.resources factory !! name = Some v ->
          exists (i : nat) si,
            v = Z.of_nat i /\ servers !! i = Some si /\ declaresResource si name) /\
      (forall name v,
          SchemaServerFactory.dataSources factory !! name = Some v ->
          exists (i : nat) si,
            v = Z.of_nat i /\ servers !! i = Some si /\ declaresDataSource si name) /\
      exists s,
        SchemaServerFactory.Server factory = ([], Returned s) /\
        (forall name h,
            SchemaServer.resources s !! name = Some h <->
            exists (i : nat) si,
              servers !! i = Some si /\ declaresResource si name /\ h = si tt) /\
        (forall name h,
            SchemaServer.dataSources s !! name = Some h <->
            exists (i : nat) si,
              servers !! i = Some si /\ declaresDataSource si name /\ h = si tt)) /\
  (forall servers,
      compatible servers ->
      exists factory,
        NewSchemaServerFactory servers =
          (schemaCalls servers, Returned (factory, None))).
Proof.
  split; [|split; [|split; [|split]]].
  - intros servers i j si sj name Hij Hi Hj Hshared.
    destruct (NewSchemaServerFactory servers) as [t [[factory [e|]]|]] eqn:Hbuild;
      exists t; [right; by exists factory, e| |by left].
    apply NewSchemaServerFactory_Registered in Hbuild as [_ Hreg].
    destruct (reg_compatible _ _ _ Hreg) as (_ & _ & _ & Hsr & Hsd).
    destruct Hshared as [[Hsi Hsj]|[Hsi Hsj]].
    + destruct Hij. by apply (Hsr i j si sj name).
    + destruct Hij. by apply (Hsd i j si sj name).
  - intros before server after i0 s0 name0 Hcompat [[resp Hdeclared] Hharmless]
      Hnoprov Hnometa Hi0 Hs0 Hserver.
    destruct (NewSchemaServerFactory_from before (server :: after) Hcompat)
      as (factory0 & Hreg & ->).
    apply declared_inv in Hdeclared as Hschema.
    assert (Hlen : (length before <
                    length (SchemaServerFactory.servers factory0))%nat).
    { rewrite (Registered_length _ _ _ Hreg), length_app. simpl. lia. }
    apply (no_owner_before _ _ server _ _ (reg_provider _ _ _ Hreg)) in Hnoprov.
    apply (no_owner_before _ _ server _ _ (reg_providerMeta _ _ _ Hreg)) in Hnometa.
    unfold schemaDiagnosticsOf in Hharmless. unfold providerOf in Hnoprov.
    unfold providerMetaOf in Hnometa. unfold declaresResource, resourcesOf in Hserver.
    rewrite Hdeclared in Hharmless, Hnoprov, Hnometa, Hserver.
    simpl in Hharmless, Hnoprov, Hnometa, Hserver.
    pose proof (reg_resources _ _ _ Hreg) as Hrec.
    destruct Hrec as [Howners _].
    destruct (NewSchemaServerFactory_server_first_resource (length before) server
                resp factory0 name0 Hlen Hschema Hharmless Hnoprov Hnometa Hserver)
      as (earlier & name & schema & later & v & Hsplit & Hfree & Hv & Hstep).
    { exists (Z.of_nat i0). apply Howners. eauto. }
    apply Howners in Hv as (i & si & -> & Hi & Hsi).
    destruct (Hstep (Some si)) as (factory' & Hstep');
      [by apply (Registered_index _ _ _ _ _ _ Hreg)|].
    exists earlier, name, schema, later, i, si, factory'.
    split; [by unfold resourcesOf; rewrite Hdeclared|].
    split; [by apply (routesRecorded_free _ _ _ _ _ (reg_resources _ _ _ Hreg))|].
    split; [done|]. split; [done|]. split.
    + intros j sj Hj Hsj.
      destruct (reg_compatible _ _ _ Hreg) as (_ & _ & _ & Hsr & _).
      by apply (Hsr j i sj si name).
    + by apply NewSchemaServerFactory_stops.
  - intros before server after i0 s0 name0 Hcompat [[resp Hdeclared] Hharmless]
      Hnoprov Hnometa Hnores Hi0 Hs0 Hserver.
    destruct (NewSchemaServerFactory_from before (server :: after) Hcompat)
      as (factory0 & Hreg & ->).
    apply declared_inv in Hdeclared as Hschema.
    assert (Hlen : (length before <
                    length (SchemaServerFactory.servers factory0))%nat).
    { rewrite (Registered_length _ _ _ Hreg), length_app. simpl. lia. }
    apply (no_owner_before _ _ server _ _ (reg_provider _ _ _ Hreg)) in Hnoprov.
    apply (no_owner_before _ _ server _ _ (reg_providerMeta _ _ _ Hreg)) in Hnometa.
    pose proof (no_route_before _ _ server _ _ (reg_resources _ _ _ Hreg) Hnores)
      as Hfresh.
    unfold schemaDiagnosticsOf in Hharmless. unfold providerOf in Hnoprov.
    unfold providerMetaOf in Hnometa. unfold resourcesOf in Hfresh.
    unfold declaresDataSource, dataSourcesOf in Hserver.
    rewrite Hdeclared in Hharmless, Hnoprov, Hnometa, Hserver, Hfresh.
    simpl in Hharmless, Hnoprov, Hnometa, Hserver, Hfresh.
    pose proof (reg_dataSources _ _ _ Hreg) as Hrec.
    destruct Hrec as [Howners _].
    destruct (NewSchemaServerFactory_server_first_dataSource (length before) server
                resp factory0 name0 Hlen Hschema Hharmless Hnoprov Hnometa Hfresh
                Hserver)
      as (earlier & name & schema & later & v & Hsplit & Hfree & Hv & Hstep).
    { exists (Z.of_nat i0). apply Howners. eauto. }
    apply Howners in Hv as (i & si & -> & Hi & Hsi).
    destruct (Hstep (Some si)) as (factory' & Hstep');
      [by apply (Registered_index _ _ _ _ _ _ Hreg)|].
    exists earlier, name, schema, later, i, si, factory'.
    split; [by unfold dataSourcesOf; rewrite Hdeclared|].
    split; [by apply (routesRecorded_free _ _ _ _ _ (reg_dataSources _ _ _ Hreg))|].
    split; [done|]. split; [done|]. split.
    + intros j sj Hj Hsj.
      destruct (reg_compatible _ _ _ Hreg) as (_ & _ & _ & _ & Hsd).
      by apply (Hsd j i sj si name).
    + by apply NewSchemaServerFactory_stops.
  - intros servers t factory Hbuild.
    apply NewSchemaServerFactory_Registered in Hbuild as [_ Hreg].
    destruct (reg_compatible _ _ _ Hreg) as (_ & _ & _ & Hsr & Hsd).
    destruct (reg_resources _ _ _ Hreg) as [Hro Hrs].
    destruct (reg_dataSources _ _ _ Hreg) as [Hdo Hds].
    split; [done|]. split; [done|].
    split; [|split; [|split; [|split]]].
    + intros i si name schema Hi Hname. split; [|by eapply Hrs].
      apply Hro. exists i, si. rewrite Hname. eauto.
    + intros i si name schema Hi Hname. split; [|by eapply Hds].
      apply Hdo. exists i, si. rewrite Hname. eauto.
    + intros name v Hv. by apply Hro.
    + intros name v Hv. by apply Hdo.
    + destruct (Server_Registered _ _ Hreg) as (s & Hs & _ & _ & _ & Hr & Hd).
      by exists s.
  - intros servers Hcompat.
    destruct (NewSchemaServerFactory_compatible servers Hcompat) as (factory & Hb & _).
    by exists factory.
Qed.

Lemma PrepareProviderConfig_at (s : SchemaServer.t) req (i : nat) server :
  SchemaServer.prepareProviderConfigServer s = Z.of_nat i ->
  SchemaServer.servers s !! i = Some server ->
  SchemaServer.PrepareProviderConfig s req =
    ([Called server tfprotov5.PrepareProviderConfigRpc req],
     Returned (SchemaServer.forward (tfprotov5.PrepareProviderConfig server req))).
Proof.
  intros Hprep Hi. apply lookup_lt_Some in Hi as Hlt.
  unfold SchemaServer.PrepareProviderConfig. rewrite Hprep.
  destruct (Z.ltb_spec (Z.of_nat i) 0) as [?|_]; [lia|].
  destruct (Z.leb_spec (Z.of_nat (length (SchemaServer.servers s))) (Z.of_nat i))
    as [?|_]; [lia|].
  cbn [orb]. unfold index.
  destruct (Z.ltb_spec (Z.of_nat i) 0) as [?|_]; [lia|].
  rewrite Nat2Z.id, Hi, bind_deref_Some, bind_call. reflexivity.
Qed.

(** C7. PrepareProviderConfig on the server of a factory built without
    error. The factory gives a server. The owner recorded for the
    provider schema is -1 exactly when no backend declares a provider
    schema, and otherwise the position of a backend that declares one.
    Where it is -1, PrepareProviderConfig returns no response and the
    error that no server provides the provider schema, and calls no
    backend. Where it is a position, PrepareProviderConfig calls the
    backend at that position once with the request it was given, calls
    nothing else, and returns that backend's response and error as they
    are. *)
Theorem PrepareProviderConfig_goes_to_provider_schema_owner servers t factory :
  NewSchemaServerFactory servers = (t, Returned (factory, None)) ->
  exists s,
    SchemaServerFactory.Server factory = ([], Returned s) /\
    (SchemaServerFactory.providerSchemaFrom factory = -1 <->
     Forall (fun server => providerOf server = None) servers) /\
    (SchemaServerFactory.providerSchemaFrom factory = -1 \/
     exists (i : nat) si,
       SchemaServerFactory.providerSchemaFrom factory = Z.of_nat i /\
       servers !! i = Some si /\ is_Some (providerOf si)) /\
    forall req,
      (SchemaServerFactory.providerSchemaFrom factory = -1 ->
       SchemaServer.PrepareProviderConfig s req =
         ([], Returned (None, Some ErrNoProviderSchemaServer))) /\
      (forall (i : nat) si,
          SchemaServerFactory.providerSchemaFrom factory = Z.of_nat i ->
          servers !! i = Some si ->
          SchemaServer.PrepareProviderConfig s req =
            ([Called (si tt) tfprotov5.PrepareProviderConfigRpc req],
             Returned
               (SchemaServer.forward (tfprotov5.PrepareProviderConfig (si tt) req)))).
Proof.
  intros Hbuild.
  apply NewSchemaServerFactory_Registered in Hbuild as [_ Hreg].
  destruct (Server_Registered _ _ Hreg) as (s & Hs & Hservers & Hprep & _).
  exists s. split; [done|].
  pose proof (reg_provider _ _ _ Hreg) as Hrec.
  split; [|split].
  - split.
    + intros Hfrom. destruct Hrec as [(_ & _ & Hnone)|(i & si & sch & _ & _ & _ & Hi)];
        [|rewrite Hfrom in Hi; lia]. apply Forall_lookup. intros i si. apply Hnone.
    + intros Hnone.
      destruct Hrec as [(_ & -> & _)|(i & si & sch & Hi & Hsi & _)]; [done|].
      rewrite Forall_lookup in Hnone. rewrite (Hnone i si Hi) in Hsi. done.
  - destruct Hrec as [(_ & -> & _)|(i & si & sch & Hi & Hsi & _ & ->)]; [by left|].
    right. exists i, si. split; [done|]. split; [done|]. by eexists.
  - intros req. split.
    + intros Hfrom. unfold SchemaServer.PrepareProviderConfig.
      by rewrite Hprep, Hfrom.
    + intros i si Hfrom Hi. apply (PrepareProviderConfig_at _ _ i).
      * by rewrite <- Hfrom.
      * rewrite Hservers. apply list_lookup_fmap_Some. by exists si.
Qed.
End BuildProperties.

(** ** Runs on the example backends *)
Section Runs.
Import Examples MoreExamples.

Lemma build_abc :
  NewSchemaServerFactory (factoryOf <$> [serverA; serverB; serverC]) =
    (schemaCalls (factoryOf <$> [serverA; serverB; serverC]),
     Returned (abcFactory, None)).
Proof. vm_compute. reflexivity. Qed.

Lemma server_abc : SchemaServerFactory.Server abcFactory = ([], Returned abc).
Proof. vm_compute. reflexivity. Qed.

Lemma build_ac :
  NewSchemaServerFactory (factoryOf <$> [serverA; serverC]) =
    (schemaCalls (factoryOf <$> [serverA; serverC]), Returned (acFactory, None)).
Proof. vm_compute. reflexivity. Qed.

Lemma server_ac : SchemaServerFactory.Server acFactory = ([], Returned ac).
Proof. vm_compute. reflexivity. Qed.

Lemma build_bc :
  NewSchemaServerFactory (factoryOf <$> [serverB; serverC]) =
    (schemaCalls (factoryOf <$> [serverB; serverC]), Returned (bcFactory, None)).
Proof. vm_compute. reflexivity. Qed.

Lemma server_bc : SchemaServerFactory.Server bcFactory = ([], Returned bc).
Proof. vm_compute. reflexivity. Qed.

Lemma compatible_a : compatible [factoryOf serverA].
Proof.
  by refine (NewSchemaServerFactory_returns_compatible _ _ _ (_ : _ = (_, Returned (_, None)))).
Qed.


Lemma compatible_ab : compatible [factoryOf serverA; factoryOf serverB].
Proof.
  apply (compatible_app_l _ [factoryOf serverC]).
  exact (NewSchemaServerFactory_returns_compatible _ _ _ build_abc).
Qed.

(** C1. StopProvider on the three example backends, of which the first
    and the third report an error string and the second reports none:
    the mux calls the first backend only and returns its response; the
    second and the third backend are never called, and the error string
    of the third is nowhere in the response. The claim has all three
    called and both strings joined. *)
Theorem StopProvider_returns_at_first_error_string :
  SchemaServerFactory.Server abcFactory = ([], Returned abc) /\
  SchemaServer.servers abc = [serverA; serverB; serverC] /\
  tfprotov5.StopProvider serverA "stop"%string =
    (Some {| tfprotov5.Error := "a failed"%string |}, None) /\
  tfprotov5.StopProvider serverB "stop"%string =
    (Some {| tfprotov5.Error := ""%string |}, None) /\
  tfprotov5.StopProvider serverC "stop"%string =
    (Some {| tfprotov5.Error := "c failed"%string |}, None) /\
  SchemaServer.StopProvider abc "stop"%string =
    ([Called serverA tfprotov5.StopProviderRpc "stop"%string],
     Returned (Some {| tfprotov5.Error := "a failed"%string |}, None)).
Proof. split; [exact server_abc|]. repeat split. Qed.

(** C2. The build over the three example backends collects three
    warnings in the factory, yet the schema response of the server made
    from that factory has no diagnostics; the schema handler of any
    factory answers with an empty diagnostics field. The claim has the
    collected diagnostics in the response. *)
Theorem GetProviderSchema_leaves_out_build_diagnostics :
  NewSchemaServerFactory (factoryOf <$> [serverA; serverB; serverC]) =
    (schemaCalls (factoryOf <$> [serverA; serverB; serverC]),
     Returned (abcFactory, None)) /\
  SchemaServerFactory.diagnostics abcFactory =
    [Some (warning "a1"); Some (warning "a2"); Some (warning "b1")] /\
  SchemaServerFactory.Server abcFactory = ([], Returned abc) /\
  (exists resp,
      SchemaServer.GetProviderSchema abc tfprotov5.GetProviderSchemaRequest_empty =
        ([], Returned (Some resp, None)) /\
      tfprotov5.GetProviderSchemaResponse_Diagnostics resp = []) /\
  (forall (factory : SchemaServerFactory.t) req, exists resp,
      SchemaServerFactory.getSchemaHandler factory req = (Some resp, None) /\
      tfprotov5.GetProviderSchemaResponse_Diagnostics resp = []).
Proof.
  split; [exact build_abc|]. split; [reflexivity|]. split; [exact server_abc|].
  split; [by eexists|]. intros factory req. by eexists.
Qed.

Lemma ConfigureProvider_fan_out_witness :
  SchemaServer.ConfigureProvider abc "req"%string =
    ([Called serverA tfprotov5.ConfigureProviderRpc "req"%string;
      Called serverB tfprotov5.ConfigureProviderRpc "req"%string],
     Returned
       (Some {| tfprotov5.ConfigureProviderResponse_Diagnostics :=
                  [Some (warning "a1"); Some (warning "b1"); Some (failure "b2")] |},
        None)) /\
  SchemaServer.ConfigureProvider ac "req"%string =
    ([Called serverA tfprotov5.ConfigureProviderRpc "req"%string;
      Called serverC tfprotov5.ConfigureProviderRpc "req"%string],
     Returned
       (Some {| tfprotov5.ConfigureProviderResponse_Diagnostics :=
                  [Some (warning "a1"); Some (warning "c1")] |},
        None)).
Proof.
  split.
  - apply (proj1 (proj2 (ConfigureProvider_fan_out abc "req"%string))
             [serverA] serverB [serverC]
             {| tfprotov5.ConfigureProviderResponse_Diagnostics :=
                  [Some (warning "b1"); None; Some (failure "b2");
                   Some (warning "b3")] |}
             [Some (warning "b1"); None] (failure "b2") [Some (warning "b3")]).
    + reflexivity.
    + constructor; [|constructor]. eexists. split; [reflexivity|]. compute_done.
    + reflexivity.
    + reflexivity.
    + compute_done.
    + reflexivity.
  - apply (proj2 (proj2 (ConfigureProvider_fan_out ac "req"%string))).
    repeat constructor; (eexists; split; [reflexivity|compute_done]).
Defined.
Lemma ConfigureProvider_skips_nil_diagnostics_witness :
  Forall is_Some [Some (warning "a1"); Some (warning "b1"); Some (failure "b2")].
Proof.
  apply (proj2 (proj2 ConfigureProvider_skips_nil_diagnostics) abc "req"%string
           {| tfprotov5.ConfigureProviderResponse_Diagnostics :=
                [Some (warning "a1"); Some (warning "b1"); Some (failure "b2")] |}).
  reflexivity.
Defined.

Lemma NewSchemaServerFactory_walks_diagnostics_witness :
  (exists factory',
      NewSchemaServerFactory
        ([factoryOf serverA] ++ factoryOf serverD :: [factoryOf serverC]) =
        (schemaCalls ([factoryOf serverA] ++ [factoryOf serverD]),
         Returned
           (factory',
            Some (ErrSchemaDiagnostic serverD (Some "attr"%string)
                    "d2"%string "detail"%string))) /\
      SchemaServerFactory.diagnostics factory' =
        [Some (warning "a1"); Some (warning "a2"); Some (warning "d1")]) /\
  SchemaServerFactory.diagnostics abcFactory =
    [Some (warning "a1"); Some (warning "a2"); Some (warning "b1")].
Proof.
  split.
  - apply (proj1 (proj2 NewSchemaServerFactory_walks_diagnostics)
             [factoryOf serverA] (factoryOf serverD) [factoryOf serverC]
             (schemaResponse None None ["d_thing"%string] []
                [Some (warning "d1"); None; Some (failure "d2");
                 Some (warning "d3")])
             [Some (warning "d1"); None] (failure "d2") [Some (warning "d3")]).
    + exact compatible_a.
    + reflexivity.
    + reflexivity.
    + compute_done.
    + reflexivity.
  - apply (proj2 (proj2 NewSchemaServerFactory_walks_diagnostics) _ _ _ build_abc).
Defined.

Lemma NewSchemaServerFactory_type_names_have_one_owner_witness :
  (exists t,
      NewSchemaServerFactory (factoryOf <$> [serverA; serverK; serverC]) =
        (t, Panicked) \/
      exists factory e,
        NewSchemaServerFactory (factoryOf <$> [serverA; serverK; serverC]) =
          (t, Returned (factory, Some e))) /\
  (exists earlier name schema later (i : nat) si factory',
      map_range (resourcesOf (factoryOf serverL)) =
        earlier ++ (name, schema) :: later /\
      Forall (fun entry =>
                Forall (fun s => ~ declaresResource s entry.1)
                       [factoryOf serverA; factoryOf serverB]) earlier /\
      [factoryOf serverA; factoryOf serverB] !! i = Some si /\
      declaresResource si name /\
      (forall (j : nat) sj,
          [factoryOf serverA; factoryOf serverB] !! j = Some sj ->
          declaresResource sj name -> j = i) /\
      NewSchemaServerFactory
        ([factoryOf serverA; factoryOf serverB] ++
         factoryOf serverL :: [factoryOf serverC]) =
        (schemaCalls ([factoryOf serverA; factoryOf serverB] ++ [factoryOf serverL]),
         Returned (factory', Some (ErrResourceMultiple name (Some si) serverL)))) /\
  (exists earlier name schema later (i : nat) si factory',
      map_range (dataSourcesOf (factoryOf serverH)) =
        earlier ++ (name, schema) :: later /\
      Forall (fun entry =>
                Forall (fun s => ~ declaresDataSource s entry.1)
                       [factoryOf serverA]) earlier /\
      [factoryOf serverA] !! i = Some si /\
      declaresDataSource si name /\
      (forall (j : nat) sj,
          [factoryOf serverA] !! j = Some sj ->
          declaresDataSource sj name -> j = i) /\
      NewSchemaServerFactory
        ([factoryOf serverA] ++ factoryOf serverH :: [factoryOf serverC]) =
        (schemaCalls ([factoryOf serverA] ++ [factoryOf serverH]),
         Returned (factory', Some (ErrDataSourceMultiple name (Some si) serverH)))) /\
  (SchemaServerFactory.resources abcFactory !! "b_thing"%string = Some 1 /\
   SchemaServerFactory.resourceSchemas abcFactory !! "b_thing"%string =
     Some (Some "b_thing"%string)) /\
  (exists factory,
      NewSchemaServerFactory [factoryOf serverA] =
        (schemaCalls [factoryOf serverA], Returned (factory, None))).
Proof.
  split; [|split; [|split; [|split]]].
  - apply (proj1 NewSchemaServerFactory_type_names_have_one_owner
             (factoryOf <$> [serverA; serverK; serverC]) 0%nat 1%nat
             (factoryOf serverA) (factoryOf serverK) "a_thing"%string).
    + lia.
    + reflexivity.
    + reflexivity.
    + left. split; compute_done.
  - apply (proj1 (proj2 NewSchemaServerFactory_type_names_have_one_owner)
             [factoryOf serverA; factoryOf serverB] (factoryOf serverL)
             [factoryOf serverC] 1%nat (factoryOf serverB) "b_thing"%string
             compatible_ab).
    + split; compute_done.
    + left. reflexivity.
    + left. reflexivity.
    + reflexivity.
    + compute_done.
    + compute_done.
  - apply (proj1 (proj2 (proj2 NewSchemaServerFactory_type_names_have_one_owner))
             [factoryOf serverA] (factoryOf serverH) [factoryOf serverC]
             0%nat (factoryOf serverA) "a_data"%string compatible_a).
    + split; compute_done.
    + left. reflexivity.
    + left. reflexivity.
    + intros name [schema Hname]. vm_compute in Hname. discriminate.
    + reflexivity.
    + compute_done.
    + compute_done.
  - apply (proj1 (proj2 (proj2
             (proj1 (proj2 (proj2 (proj2
                NewSchemaServerFactory_type_names_have_one_owner)))
                _ _ _ build_abc))) 1%nat (factoryOf serverB)).
    + reflexivity.
    + reflexivity.
  - apply (proj2 (proj2 (proj2 (proj2
             NewSchemaServerFactory_type_names_have_one_owner)))
             [factoryOf serverA] compatible_a).
Defined.

(** C5, as the claim has it, fails where the second backend to declare a
    resource type name also carries a diagnostic of error severity:
    [serverA] and [serverK] both declare the resource type name
    a_thing, and the build ends at [serverK] with the error made from its
    diagnostic, not with an error for a type declared twice. *)
Lemma NewSchemaServerFactory_duplicate_type_behind_error_diagnostic :
  declaresResource (factoryOf serverA) "a_thing"%string /\
  declaresResource (factoryOf serverK) "a_thing"%string /\
  (exists factory,
      NewSchemaServerFactory (factoryOf <$> [serverA; serverK; serverC]) =
        (schemaCalls (factoryOf <$> [serverA; serverK]),
         Returned (factory,
                   Some (ErrSchemaDiagnostic serverK (Some "attr"%string)
                           "k1"%string "detail"%string)))) /\
  ~ (exists t factory name first s,
        NewSchemaServerFactory (factoryOf <$> [serverA; serverK; serverC]) =
          (t, Returned (factory, Some (ErrResourceMultiple name first s))) \/
        NewSchemaServerFactory (factoryOf <$> [serverA; serverK; serverC]) =
          (t, Returned (factory, Some (ErrDataSourceMultiple name first s)))).
Proof.
  split; [compute_done|]. split; [compute_done|]. split.
  - eexists. vm_compute. reflexivity.
  - intros (t & factory & name & first & s & [Hbuild|Hbuild]);
      vm_compute in Hbuild; discriminate.
Qed.

(** With two type names declared twice, the name the error carries is
    the first in the order of [range]: one order reports a_thing with
    [serverA], the reverse order reports b_thing with [serverB]. *)
Lemma NewSchemaServerFactory_reports_first_name_in_range_order :
  (exists factory,
      @NewSchemaServerFactory _ range_to_list
        (factoryOf <$> [serverA; serverB; serverL]) =
        (schemaCalls (factoryOf <$> [serverA; serverB; serverL]),
         Returned (factory,
                   Some (ErrResourceMultiple "a_thing"%string
                           (Some (factoryOf serverA)) serverL)))) /\
  (exists factory,
      @NewSchemaServerFactory _ range_reversed
        (factoryOf <$> [serverA; serverB; serverL]) =
        (schemaCalls (factoryOf <$> [serverA; serverB; serverL]),
         Returned (factory,
                   Some (ErrResourceMultiple "b_thing"%string
                           (Some (factoryOf serverB)) serverL)))).
Proof.
  split; eexists; vm_compute; reflexivity.
Qed.

Lemma PrepareProviderConfig_goes_to_provider_schema_owner_witness :
  (exists s,
      SchemaServerFactory.Server abcFactory = ([], Returned s) /\
      SchemaServer.PrepareProviderConfig s "config"%string =
        ([Called serverA tfprotov5.PrepareProviderConfigRpc "config"%string],
         Returned (Some "A:config"%string, None))) /\
  (exists s,
      SchemaServerFactory.Server bcFactory = ([], Returned s) /\
      SchemaServer.PrepareProviderConfig s "config"%string =
        ([], Returned (None, Some ErrNoProviderSchemaServer))).
Proof.
  split.
  - destruct (PrepareProviderConfig_goes_to_provider_schema_owner _ _ _ build_abc)
      as (s & Hs & _ & _ & Hreq).
    exists s. split; [exact Hs|].
    apply (proj2 (Hreq "config"%string) 0%nat (factoryOf serverA)); reflexivity.
  - destruct (PrepareProviderConfig_goes_to_provider_schema_owner _ _ _ build_bc)
      as (s & Hs & _ & _ & Hreq).
    exists s. split; [exact Hs|].
    apply (proj1 (Hreq "config"%string)). reflexivity.
Defined.
End Runs.

(** ** Further properties of the schema server *)
Section ServerProperties.
Context {P : tfprotov5.Protocol}.

#[local] Abbreviation ProviderServer := (@tfprotov5.ProviderServer P).
#[local] Abbreviation Diagnostic := (@tfprotov5.Diagnostic P).

(** *** StopProvider *)

Lemma StopProvider_servers_quiet req (l : list ProviderServer) :
  Forall (stopsQuietly req) l ->
  SchemaServer.StopProvider_servers l req =
    ((fun server => Called server _ req) <$> l,
     Returned (Some {| tfprotov5.Error := ""%string |}, None)).
Proof.
  induction 1 as [|server l (resp & Hcall & Herr) _ IH]; [done|].
  cbn [SchemaServer.StopProvider_servers]. rewrite Hcall. cbn.
  destruct (decide _) as [Hne|_]; [done|]. by rewrite IH.
Qed.

Lemma StopProvider_servers_app req (before rest : list ProviderServer) :
  Forall (stopsQuietly req) before ->
  SchemaServer.StopProvider_servers (before ++ rest) req =
    let '(t, r) := SchemaServer.StopProvider_servers rest req in
    (((fun server => Called server _ req) <$> before) ++ t, r).
Proof.
  induction 1 as [|server l (resp & Hcall & Herr) _ IH].
  - cbn [app]. by destruct (SchemaServer.StopProvider_servers rest req).
  - cbn [app SchemaServer.StopProvider_servers]. rewrite Hcall. cbn.
    destruct (decide _) as [Hne|_]; [done|]. rewrite IH.
    by destruct (SchemaServer.StopProvider_servers rest req).
Qed.

(** X1. StopProvider where every backend stops quietly: each backend
    answers the stop request with a response, no error and an empty error
    string. The mux then calls every backend once, in the order of the
    server list, and returns a fresh response with an empty error string
    and no error. *)
Theorem StopProvider_calls_every_quiet_backend (s : SchemaServer.t)
    (req : tfprotov5.Request tfprotov5.StopProviderRpc) :
  Forall (stopsQuietly req) (SchemaServer.servers s) ->
  SchemaServer.StopProvider s req =
    ((fun server => Called server _ req) <$> SchemaServer.servers s,
     Returned (Some {| tfprotov5.Error := ""%string |}, None)).
Proof. apply StopProvider_servers_quiet. Qed.

(** X2. StopProvider ends at the first backend that reports something.
    Where the backends before some backend stop quietly, the calls are
    those to the backends up to and including that backend, and no later
    backend is called. If that backend's call returns an error, the mux
    returns the response that came with it, nil or not, and the stopping
    error that carries that backend and its error. If the call returns a
    response with a non-empty error string and no error, the mux returns
    that response as it is, and no error. *)
Theorem StopProvider_ends_at_first_report (s : SchemaServer.t)
    (req : tfprotov5.Request tfprotov5.StopProviderRpc) before server after :
  SchemaServer.servers s = before ++ server :: after ->
  Forall (stopsQuietly req) before ->
  (forall resp e,
      tfprotov5.StopProvider server req = (resp, Some e) ->
      SchemaServer.StopProvider s req =
        ((fun server => Called server _ req) <$> (before ++ [server]),
         Returned (resp, Some (ErrStopping server e)))) /\
  (forall resp,
      tfprotov5.StopProvider server req = (Some resp, None) ->
      tfprotov5.Error resp ≠ ""%string ->
      SchemaServer.StopProvider s req =
        ((fun server => Called server _ req) <$> (before ++ [server]),
         Returned (Some resp, None))).
Proof.
  intros Hs Hbefore. unfold SchemaServer.StopProvider. rewrite Hs.
  rewrite StopProvider_servers_app by done. split.
  - intros resp e Hcall. cbn [SchemaServer.StopProvider_servers].
    rewrite Hcall. cbn. by rewrite fmap_app.
  - intros resp Hcall Herr. cbn [SchemaServer.StopProvider_servers].
    rewrite Hcall. cbn. destruct (decide _) as [_|Hn]; [|done].
    cbn. by rewrite fmap_app.
Qed.

(** *** ConfigureProvider *)

(** X3. ConfigureProvider where a backend's call returns an error. Where
    the backends before some backend configure cleanly and that backend's
    call returns an error, the calls are those to the backends up to and
    including it, and the mux returns the response that came with the
    error, as the backend gave it (its diagnostics are not walked and the
    diagnostics collected so far are not put in), together with the
    configuring error that carries that backend and its error. *)
Theorem ConfigureProvider_hands_on_failed_call (s : SchemaServer.t)
    (req : tfprotov5.Request tfprotov5.ConfigureProviderRpc)
    before server after resp e :
  SchemaServer.servers s = before ++ server :: after ->
  Forall (configuresCleanly req) before ->
  tfprotov5.ConfigureProvider server req = (resp, Some e) ->
  SchemaServer.ConfigureProvider s req =
    ((fun server => Called server _ req) <$> (before ++ [server]),
     Returned (resp, Some (ErrConfiguring server e))).
Proof.
  intros Hs Hbefore Hcall. unfold SchemaServer.ConfigureProvider. rewrite Hs.
  rewrite ConfigureProvider_servers_app by done.
  cbn [SchemaServer.ConfigureProvider_servers]. rewrite Hcall. cbn.
  by rewrite fmap_app.
Qed.

Lemma ConfigureProvider_diags_kept (l acc : list (option Diagnostic)) :
  Forall kept acc ->
  match SchemaServer.ConfigureProvider_diags l acc with
  | (diags, false) => Forall kept diags
  | (diags, true) =>
      exists pre diag,
        diags = pre ++ [Some diag] /\ Forall kept pre /\
        tfprotov5.Severity diag = tfprotov5.DiagnosticSeverityError
  end.
Proof.
  revert acc. induction l as [|[diag|] l IH]; intros acc Hacc; simpl; [done| |by apply IH].
  destruct (decide _) as [Hsev|Hsev].
  - apply IH. apply Forall_app. split; [done|]. apply Forall_singleton.
    split; [by eexists|]. by intros ? [= <-].
  - exists acc, diag. split; [done|]. split; [done|].
    by destruct (decide (tfprotov5.Severity diag = tfprotov5.DiagnosticSeverityError)).
Qed.

Lemma ConfigureProvider_servers_kept req (l : list ProviderServer) acc resp :
  Forall kept acc ->
  outcome (SchemaServer.ConfigureProvider_servers l req acc) =
    Returned (Some resp, None) ->
  exists pre,
    Forall kept pre /\
    (tfprotov5.ConfigureProviderResponse_Diagnostics resp = pre \/
     exists diag,
       tfprotov5.Severity diag = tfprotov5.DiagnosticSeverityError /\
       tfprotov5.ConfigureProviderResponse_Diagnostics resp = pre ++ [Some diag]).
Proof.
  revert acc. induction l as [|server l IH]; intros acc Hacc; simpl.
  - intros [= <-]. exists acc. split; [done|]. by left.
  - destruct (tfprotov5.ConfigureProvider server req) as [r [e|]]; simpl; [done|].
    destruct r as [r|]; simpl; [|done].
    pose proof (ConfigureProvider_diags_kept
      (tfprotov5.ConfigureProviderResponse_Diagnostics r) acc Hacc) as Hwalk.
    destruct (SchemaServer.ConfigureProvider_diags _ acc) as [diags stop].
    destruct stop; simpl.
    + intros [= <-]. destruct Hwalk as (pre & diag & -> & Hpre & Hsev).
      exists pre. split; [done|]. right. by exists diag.
    + destruct (SchemaServer.ConfigureProvider_servers l req diags) as [t o] eqn:Hrest.
      simpl. intros ->. apply (IH diags); [done|]. by rewrite Hrest.
Qed.

(** X4. The diagnostics of a response ConfigureProvider returns without
    error hold no nil entry, and an entry of error severity only in the
    last place: they are entries that are neither nil nor of error
    severity, followed by at most one entry of error severity. *)
Theorem ConfigureProvider_returns_at_most_one_error_diagnostic
    (s : SchemaServer.t) (req : tfprotov5.Request tfprotov5.ConfigureProviderRpc) resp :
  outcome (SchemaServer.ConfigureProvider s req) = Returned (Some resp, None) ->
  exists pre,
    Forall kept pre /\
    (tfprotov5.ConfigureProviderResponse_Diagnostics resp = pre \/
     exists diag,
       tfprotov5.Severity diag = tfprotov5.DiagnosticSeverityError /\
       tfprotov5.ConfigureProviderResponse_Diagnostics resp = pre ++ [Some diag]).
Proof. by apply ConfigureProvider_servers_kept. Qed.

(** X5. A nil response with a nil error makes the fan-out operations
    panic. Where the backends before some backend configure cleanly (stop
    quietly) and that backend answers the configure (stop) request with
    neither a response nor an error, ConfigureProvider (StopProvider)
    panics after the calls to the backends up to and including it: the
    field of the nil response is read without a check. *)
Theorem fan_out_panics_on_nil_response (s : SchemaServer.t) before server after :
  SchemaServer.servers s = before ++ server :: after ->
  (forall req,
      Forall (configuresCleanly req) before ->
      tfprotov5.ConfigureProvider server req = (None, None) ->
      SchemaServer.ConfigureProvider s req =
        ((fun server => Called server _ req) <$> (before ++ [server]), Panicked)) /\
  (forall req,
      Forall (stopsQuietly req) before ->
      tfprotov5.StopProvider server req = (None, None) ->
      SchemaServer.StopProvider s req =
        ((fun server => Called server _ req) <$> (before ++ [server]), Panicked)).
Proof.
  intros Hs. split.
  - intros req Hbefore Hcall. unfold SchemaServer.ConfigureProvider. rewrite Hs.
    rewrite ConfigureProvider_servers_app by done.
    cbn [SchemaServer.ConfigureProvider_servers]. rewrite Hcall. cbn.
    by rewrite fmap_app.
  - intros req Hbefore Hcall. unfold SchemaServer.StopProvider. rewrite Hs.
    rewrite StopProvider_servers_app by done.
    cbn [SchemaServer.StopProvider_servers]. rewrite Hcall. cbn.
    by rewrite fmap_app.
Qed.

(** *** PrepareProviderConfig *)

(** X6. PrepareProviderConfig checks the recorded position against the
    server list. Where the position is negative, or not below the length
    of the list, the mux returns no response and the error that no server
    provides the provider schema, and calls no backend. Where it is in
    range, the mux calls the backend at that position once with the
    request and returns what it answers. *)
Theorem PrepareProviderConfig_checks_bounds (s : SchemaServer.t)
    (req : tfprotov5.Request tfprotov5.PrepareProviderConfigRpc) :
  (SchemaServer.prepareProviderConfigServer s < 0 \/
   Z.of_nat (length (SchemaServer.servers s)) <=
     SchemaServer.prepareProviderConfigServer s ->
   SchemaServer.PrepareProviderConfig s req =
     ([], Returned (None, Some ErrNoProviderSchemaServer))) /\
  (0 <= SchemaServer.prepareProviderConfigServer s <
     Z.of_nat (length (SchemaServer.servers s)) ->
   exists server,
     SchemaServer.servers s
       !! Z.to_nat (SchemaServer.prepareProviderConfigServer s) = Some server /\
     SchemaServer.PrepareProviderConfig s req =
       ([Called server tfprotov5.PrepareProviderConfigRpc req],
        Returned (SchemaServer.forward (tfprotov5.PrepareProviderConfig server req)))).
Proof.
  split.
  - intros Hout. unfold SchemaServer.PrepareProviderConfig.
    destruct (Z.ltb_spec (SchemaServer.prepareProviderConfigServer s) 0) as [?|?];
      [done|].
    destruct (Z.leb_spec (Z.of_nat (length (SchemaServer.servers s)))
                (SchemaServer.prepareProviderConfigServer s)) as [?|?]; [done|].
    lia.
  - intros Hin.
    destruct (lookup_lt_is_Some_2 (SchemaServer.servers s)
                (Z.to_nat (SchemaServer.prepareProviderConfigServer s)))
      as [server Hserver]; [lia|].
    exists server. split; [done|].
    apply (PrepareProviderConfig_at _ _
             (Z.to_nat (SchemaServer.prepareProviderConfigServer s))); [lia|done].
Qed.
End ServerProperties.
(** ** Further properties of the build *)
Section FurtherBuildProperties.
Context {P : tfprotov5.Protocol} {R : MapRange}.

#[local] Abbreviation ProviderServer := (@tfprotov5.ProviderServer P).
#[local] Abbreviation Diagnostic := (@tfprotov5.Diagnostic P).
#[local] Abbreviation Schema := (@tfprotov5.Schema P).
#[local] Abbreviation Factory := (@SchemaServerFactory.t P).

(** *** Whatever the backends answer *)

Lemma andThen_silent (m : M (Factory * option error)) k (Φ Ψ : Factory -> Prop) :
  (exists r, m = ([], r) /\ forall factory e, r = Returned (factory, e) -> Φ factory) ->
  (forall factory, Φ factory ->
     exists r, k factory = ([], r) /\
               forall factory' e, r = Returned (factory', e) -> Ψ factory') ->
  (forall factory, Φ factory -> Ψ factory) ->
  exists r, andThen m k = ([], r) /\
            forall factory e, r = Returned (factory, e) -> Ψ factory.
Proof.
  intros (r & -> & Hr) Hk Himp. unfold andThen, bind.
  destruct r as [[factory [e|]]|].
  - eexists. split; [reflexivity|]. intros ? ? [= <- <-]. eauto.
  - destruct (Hk factory) as (r' & -> & Hr'); [eauto|]. by exists r'.
  - eexists. split; [reflexivity|]. done.
Qed.

Lemma NewSchemaServerFactory_diags_kept (l acc : list (option Diagnostic)) :
  exists extra,
    (NewSchemaServerFactory_diags l acc).1 = acc ++ extra /\ Forall kept extra.
Proof.
  revert acc. induction l as [|[diag|] l IH]; intros acc; simpl.
  - exists []. by rewrite app_nil_r.
  - destruct (decide _) as [Hsev|Hsev]; simpl.
    + destruct (IH (acc ++ [Some diag])) as (extra & -> & Hextra).
      exists (Some diag :: extra). rewrite <- app_assoc. split; [done|].
      constructor; [|done]. split; [by eexists|]. by intros ? [= <-].
    + exists []. by rewrite app_nil_r.
  - apply IH.
Qed.

Lemma NewSchemaServerFactory_diagnostics_silent s resp (factory : Factory) :
  exists r,
    NewSchemaServerFactory_diagnostics s resp factory = ([], r) /\
    forall factory' e, r = Returned (factory', e) ->
      exists extra,
        SchemaServerFactory.diagnostics factory' =
          SchemaServerFactory.diagnostics factory ++ extra /\ Forall kept extra.
Proof.
  unfold NewSchemaServerFactory_diagnostics.
  destruct (NewSchemaServerFactory_diags_kept
              (tfprotov5.GetProviderSchemaResponse_Diagnostics resp)
              (SchemaServerFactory.diagnostics factory)) as (extra & Hwalk & Hextra).
  destruct (NewSchemaServerFactory_diags _ _) as [diags [diag|]]; simpl in Hwalk;
    (eexists; split; [reflexivity|]); intros ? ? [= <- <-]; by exists extra.
Qed.

Lemma deref_then_silent {A} (p : option A) (k : A -> Factory * option error)
    (Φ : Factory -> Prop) :
  (forall a, Φ (k a).1) ->
  exists r, (let* a := deref p in ret (k a)) = ([], r) /\
            forall factory e, r = Returned (factory, e) -> Φ factory.
Proof.
  intros Hk. destruct p as [a|]; cbn.
  - eexists. split; [reflexivity|]. intros ? ? [= Heq]. specialize (Hk a).
    rewrite Heq in Hk. done.
  - eexists. split; [reflexivity|]. done.
Qed.

Lemma NewSchemaServerFactory_provider_silent pos s resp (factory : Factory) :
  exists r,
    NewSchemaServerFactory_provider pos s resp factory = ([], r) /\
    forall factory' e, r = Returned (factory', e) ->
      SchemaServerFactory.diagnostics factory' =
        SchemaServerFactory.diagnostics factory.
Proof.
  unfold NewSchemaServerFactory_provider.
  destruct (tfprotov5.Provider resp), (SchemaServerFactory.providerSchema factory);
    try (eexists; split; [reflexivity|]; by intros ? ? [= <- <-]).
  by apply (deref_then_silent _ (fun first => (factory, Some _))).
Qed.

Lemma NewSchemaServerFactory_providerMeta_silent pos s resp (factory : Factory) :
  exists r,
    NewSchemaServerFactory_providerMeta pos s resp factory = ([], r) /\
    forall factory' e, r = Returned (factory', e) ->
      SchemaServerFactory.diagnostics factory' =
        SchemaServerFactory.diagnostics factory.
Proof.
  unfold NewSchemaServerFactory_providerMeta.
  destruct (tfprotov5.ProviderMeta resp),
    (SchemaServerFactory.providerMetaSchema factory);
    try (eexists; split; [reflexivity|]; by intros ? ? [= <- <-]).
  by apply (deref_then_silent _ (fun first => (factory, Some _))).
Qed.

Lemma NewSchemaServerFactory_resources_silent pos s resp (factory : Factory) :
  exists r,
    NewSchemaServerFactory_resources pos s resp factory = ([], r) /\
    forall factory' e, r = Returned (factory', e) ->
      SchemaServerFactory.diagnostics factory' =
        SchemaServerFactory.diagnostics factory.
Proof.
  unfold NewSchemaServerFactory_resources.
  destruct (NewSchemaServerFactory_register _ _ _ _) as [[owners schemas] [[n v]|]].
  - by apply (deref_then_silent _ (fun first => (_, Some _))).
  - eexists. split; [reflexivity|]. by intros ? ? [= <- <-].
Qed.

Lemma NewSchemaServerFactory_dataSources_silent pos s resp (factory : Factory) :
  exists r,
    NewSchemaServerFactory_dataSources pos s resp factory = ([], r) /\
    forall factory' e, r = Returned (factory', e) ->
      SchemaServerFactory.diagnostics factory' =
        SchemaServerFactory.diagnostics factory.
Proof.
  unfold NewSchemaServerFactory_dataSources.
  destruct (NewSchemaServerFactory_register _ _ _ _) as [[owners schemas] [[n v]|]].
  - by apply (deref_then_silent _ (fun first => (_, Some _))).
  - eexists. split; [reflexivity|]. by intros ? ? [= <- <-].
Qed.

Lemma NewSchemaServerFactory_server_any pos server (factory : Factory) :
  exists r,
    NewSchemaServerFactory_server pos server factory = (schemaCalls [server], r) /\
    forall factory' e, r = Returned (factory', e) ->
      exists extra,
        SchemaServerFactory.diagnostics factory' =
          SchemaServerFactory.diagnostics factory ++ extra /\ Forall kept extra.
Proof.
  set (Φ := fun factory' : Factory =>
              exists extra,
                SchemaServerFactory.diagnostics factory' =
                  SchemaServerFactory.diagnostics factory ++ extra /\
                Forall kept extra).
  assert (Φ factory) as Hstart by (exists []; by rewrite app_nil_r).
  unfold NewSchemaServerFactory_server. rewrite bind_call.
  destruct (tfprotov5.GetProviderSchema _ _) as [resp [e|]].
  { eexists. split; [reflexivity|]. by intros ? ? [= <- <-]. }
  destruct (decide _) as [|Hpos]; [by eexists|].
  destruct resp as [resp|]; [|by eexists].
  cbn [deref]. rewrite bind_ret_l.
  set (s := server tt).
  set (factory1 := SchemaServerFactory.set_servers _ factory).
  assert (exists r,
    andThen (NewSchemaServerFactory_diagnostics s resp factory1) (fun factory =>
    andThen (NewSchemaServerFactory_provider pos s resp factory) (fun factory =>
    andThen (NewSchemaServerFactory_providerMeta pos s resp factory) (fun factory =>
    andThen (NewSchemaServerFactory_resources pos s resp factory) (fun factory =>
    NewSchemaServerFactory_dataSources pos s resp factory)))) = ([], r) /\
    forall factory' e, r = Returned (factory', e) -> Φ factory') as (r & -> & Hr).
  { apply (andThen_silent _ _ Φ Φ); [apply NewSchemaServerFactory_diagnostics_silent| |done].
    intros f2 Hf2. apply (andThen_silent _ _ Φ Φ); [| |done].
    { destruct (NewSchemaServerFactory_provider_silent pos s resp f2) as (r & -> & Hr).
      exists r. split; [done|]. intros f' e Heq. unfold Φ. by rewrite (Hr f' e Heq). }
    intros f3 Hf3. apply (andThen_silent _ _ Φ Φ); [| |done].
    { destruct (NewSchemaServerFactory_providerMeta_silent pos s resp f3) as (r & -> & Hr).
      exists r. split; [done|]. intros f' e Heq. unfold Φ. by rewrite (Hr f' e Heq). }
    intros f4 Hf4. apply (andThen_silent _ _ Φ Φ); [| |done].
    { destruct (NewSchemaServerFactory_resources_silent pos s resp f4) as (r & -> & Hr).
      exists r. split; [done|]. intros f' e Heq. unfold Φ. by rewrite (Hr f' e Heq). }
    intros f5 Hf5.
    destruct (NewSchemaServerFactory_dataSources_silent pos s resp f5) as (r & -> & Hr).
    exists r. split; [done|]. intros f' e Heq. unfold Φ. by rewrite (Hr f' e Heq). }
  exists r. split; [done|]. exact Hr.
Qed.

Lemma NewSchemaServerFactory_servers_any l pos (factory : Factory) :
  exists n r,
    NewSchemaServerFactory_servers pos l factory = (schemaCalls (take n l), r) /\
    forall factory' e, r = Returned (factory', e) ->
      exists extra,
        SchemaServerFactory.diagnostics factory' =
          SchemaServerFactory.diagnostics factory ++ extra /\ Forall kept extra.
Proof.
  revert pos factory. induction l as [|server l IH]; intros pos factory.
  - exists 0%nat. eexists. split; [reflexivity|]. intros ? ? [= <- <-].
    exists []. by rewrite app_nil_r.
  - cbn [NewSchemaServerFactory_servers].
    destruct (NewSchemaServerFactory_server_any pos server factory) as (r & -> & Hr).
    unfold andThen. cbn [bind]. destruct r as [[factory1 [e|]]|].
    + exists 1%nat. eexists. split; [reflexivity|]. intros ? ? [= <- <-]. eauto.
    + destruct (Hr factory1 None eq_refl) as (extra1 & Hd1 & Hk1).
      destruct (IH (S pos) factory1) as (n & r & -> & Hr').
      exists (S n), r. split; [done|]. intros f' e Heq.
      destruct (Hr' f' e Heq) as (extra2 & Hd2 & Hk2).
      exists (extra1 ++ extra2). rewrite Hd2, Hd1, <- app_assoc. split; [done|].
      by apply Forall_app.
    + exists 1%nat. by eexists.
Qed.

(** X7. Whatever the backends answer, the calls the build makes are the
    schema requests to the backends of an initial part of the list it is
    given, one each and in the order of the list; it calls nothing
    else. *)
Theorem NewSchemaServerFactory_asks_an_initial_part servers :
  exists n,
    calls (NewSchemaServerFactory servers) = schemaCalls (take n servers).
Proof.
  unfold NewSchemaServerFactory.
  destruct (NewSchemaServerFactory_servers_any servers 0 
              {| SchemaServerFactory.resources := ∅;
                 SchemaServerFactory.dataSources := ∅;
                 SchemaServerFactory.servers := replicate (length servers) None;
                 SchemaServerFactory.resourceSchemas := ∅;
                 SchemaServerFactory.dataSourceSchemas := ∅;
                 SchemaServerFactory.providerSchema := None;
                 SchemaServerFactory.providerMetaSchema := None;
                 SchemaServerFactory.diagnostics := [];
                 SchemaServerFactory.providerSchemaFrom := -1;
                 SchemaServerFactory.providerMetaSchemaFrom := -1 |})
    as (n & r & -> & _).
  by exists n.
Qed.

(** X8. Whenever the build returns, with an error or without, the
    diagnostics of the factory it returns hold no nil entry and no entry of
    error severity. *)
Theorem NewSchemaServerFactory_keeps_no_nil_or_error_diagnostic servers t factory e :
  NewSchemaServerFactory servers = (t, Returned (factory, e)) ->
  Forall kept (SchemaServerFactory.diagnostics factory).
Proof.
  unfold NewSchemaServerFactory.
  destruct (NewSchemaServerFactory_servers_any servers 0 
              {| SchemaServerFactory.resources := ∅;
                 SchemaServerFactory.dataSources := ∅;
                 SchemaServerFactory.servers := replicate (length servers) None;
                 SchemaServerFactory.resourceSchemas := ∅;
                 SchemaServerFactory.dataSourceSchemas := ∅;
                 SchemaServerFactory.providerSchema := None;
                 SchemaServerFactory.providerMetaSchema := None;
                 SchemaServerFactory.diagnostics := [];
                 SchemaServerFactory.providerSchemaFrom := -1;
                 SchemaServerFactory.providerMetaSchemaFrom := -1 |})
    as (n & r & -> & Hr).
  intros [= _ ->]. destruct (Hr factory e eq_refl) as (extra & -> & Hextra). done.
Qed.
(** *** A schema call that fails *)

Lemma Server_servers_nil_slot (filled : list ServerFactory) rest :
  SchemaServerFactory.Server_servers ((Some <$> filled) ++ None :: rest) =
    ([], Panicked).
Proof.
  induction filled as [|server filled IH]; [done|].
  cbn [fmap list_fmap app SchemaServerFactory.Server_servers].
  change (list_fmap _ _ Some filled) with (Some <$> filled).
  by rewrite bind_deref_Some, IH.
Qed.

(** X9. The build where a schema request fails. Where the backends before
    some backend are compatible and that backend's schema call returns an
    error, the build asks no later backend and returns the retrieving
    error that carries that backend and its error. The factory that comes
    with it has the earlier factory functions in their places and nil in
    the place of the failing backend and of every later one, and the
    diagnostics collected from the earlier backends; Server on it panics,
    calling a nil function, before any backend is called. *)
Theorem NewSchemaServerFactory_ends_at_failed_schema_call
    before server after resp e :
  compatible before ->
  schemaOf server = (resp, Some e) ->
  exists factory',
    NewSchemaServerFactory (before ++ server :: after) =
      (schemaCalls (before ++ [server]),
       Returned (factory', Some (ErrRetrievingSchema (server tt) e))) /\
    SchemaServerFactory.servers factory' =
      (Some <$> before) ++ replicate (S (length after)) None /\
    SchemaServerFactory.diagnostics factory' =
      filter is_Some (mjoin (schemaDiagnosticsOf <$> before)) /\
    SchemaServerFactory.Server factory' = ([], Panicked).
Proof.
  intros Hcompat Hschema.
  destruct (NewSchemaServerFactory_from before (server :: after) Hcompat)
    as (factory0 & Hreg & ->).
  exists factory0.
  assert (SchemaServerFactory.servers factory0 =
          (Some <$> before) ++ replicate (S (length after)) None) as Hservers.
  { rewrite (reg_servers _ _ _ Hreg), length_app. cbn [length].
    by replace (length before + S (length after) - length before)%nat
      with (S (length after)) by lia. }
  split; [|split; [done|split; [apply (reg_diagnostics _ _ _ Hreg)|]]].
  - apply NewSchemaServerFactory_stops.
    unfold NewSchemaServerFactory_server. rewrite bind_call.
    unfold schemaOf in Hschema. by rewrite Hschema.
  - unfold SchemaServerFactory.Server. rewrite Hservers. simpl replicate.
    by rewrite Server_servers_nil_slot.
Qed.

(** X10. The build where a backend answers the schema request with
    neither a response nor an error. Where the backends before it are
    compatible, the build panics after the schema requests to the backends
    up to and including that backend. *)
Theorem NewSchemaServerFactory_panics_on_nil_response before server after :
  compatible before ->
  schemaOf server = (None, None) ->
  NewSchemaServerFactory (before ++ server :: after) =
    (schemaCalls (before ++ [server]), Panicked).
Proof.
  intros Hcompat Hschema.
  destruct (NewSchemaServerFactory_from before (server :: after) Hcompat)
    as (factory0 & Hreg & ->).
  cbn [NewSchemaServerFactory_servers].
  unfold NewSchemaServerFactory_server. rewrite bind_call.
  unfold schemaOf in Hschema. rewrite Hschema.
  destruct (decide _) as [Hle|_].
  { rewrite (Registered_length _ _ _ Hreg), length_app in Hle. simpl in Hle. lia. }
  cbn. unfold schemaCalls. by rewrite fmap_app.
Qed.

(** *** When the build returns without error *)

(** X11. The build returns with no error exactly when the backends are
    compatible: each answers the schema request with a response, no error
    and no diagnostic of error severity, and no provider schema,
    provider-meta schema, resource type name or data-source type name is
    declared by two of them. *)
Theorem NewSchemaServerFactory_returns_without_error_iff_compatible servers :
  (exists t factory,
      NewSchemaServerFactory servers = (t, Returned (factory, None))) <->
  compatible servers.
Proof.
  split.
  - intros (t & factory & Hbuild).
    by apply (NewSchemaServerFactory_returns_compatible _ _ _ Hbuild).
  - intros Hcompat.
    destruct (NewSchemaServerFactory_compatible servers Hcompat) as (factory & Hb & _).
    eauto.
Qed.

Lemma accept_schemas_declared what (done : list ServerFactory) server
    (new old : gmap string (option Schema)) :
  what server = new ->
  (forall name schema,
      old !! name = Some schema ->
      exists (i : nat) si, done !! i = Some si /\ what si !! name = Some schema) ->
  forall name schema,
    (new ∪ old) !! name = Some schema ->
    exists (i : nat) si,
      (done ++ [server]) !! i = Some si /\ what si !! name = Some schema.
Proof.
  intros Hnew Hold name schema [Hn|[_ Ho]]%lookup_union_Some_raw.
  - exists (length done), server. rewrite lookup_snoc_Some, Hnew. split; [by right|done].
  - destruct (Hold name schema Ho) as (i & si & Hi & Hsi).
    exists i, si. rewrite lookup_snoc_Some. apply lookup_lt_Some in Hi as Hlt.
    split; [by left|done].
Qed.

Lemma NewSchemaServerFactory_servers_schemas l done n (factory : Factory) t factory' :
  Registered done n factory ->
  (forall name schema,
      SchemaServerFactory.resourceSchemas factory !! name = Some schema ->
      exists (i : nat) si,
        done !! i = Some si /\ resourcesOf si !! name = Some schema) ->
  (forall name schema,
      SchemaServerFactory.dataSourceSchemas factory !! name = Some schema ->
      exists (i : nat) si,
        done !! i = Some si /\ dataSourcesOf si !! name = Some schema) ->
  NewSchemaServerFactory_servers (length done) l factory =
    (t, Returned (factory', None)) ->
  (forall name schema,
      SchemaServerFactory.resourceSchemas factory' !! name = Some schema ->
      exists (i : nat) si,
        (done ++ l) !! i = Some si /\ resourcesOf si !! name = Some schema) /\
  (forall name schema,
      SchemaServerFactory.dataSourceSchemas factory' !! name = Some schema ->
      exists (i : nat) si,
        (done ++ l) !! i = Some si /\ dataSourcesOf si !! name = Some schema).
Proof.
  revert done factory t.
  induction l as [|server l IH]; intros done factory t Hreg Hres Hdata.
  - simpl. intros [= <- <-]. by rewrite app_nil_r.
  - cbn [NewSchemaServerFactory_servers]. intros Hloop.
    apply andThen_None_inv in Hloop as (t1 & factory1 & t2 & Hstep & Hloop & ->).
    apply NewSchemaServerFactory_server_inv in Hstep
      as (resp & Hpos & Hschema & Hharmless & Hcprov & Hcmeta & Hcres & Hcdata & -> & ->).
    assert (length done < n)%nat as Hlt.
    { rewrite (Registered_length _ _ _ Hreg) in Hpos. done. }
    pose proof (Registered_accept _ _ _ _ _ Hreg Hlt Hschema Hharmless
                  Hcprov Hcmeta Hcres Hcdata) as Hreg'.
    apply declared_schemaOf in Hschema as Hdeclared.
    pose proof (accept_fields (length done) server resp factory) as Hfields.
    cbv zeta in Hfields. destruct Hfields as (_ & _ & _ & F4 & F5 & _).
    replace (S (length done)) with (length (done ++ [server])) in Hloop
      by (rewrite length_app; simpl; lia).
    rewrite (app_assoc done [server] l : done ++ server :: l = (done ++ [server]) ++ l).
    apply (IH _ _ t2 Hreg'); [| |done].
    + rewrite F4. apply accept_schemas_declared; [|done].
      unfold resourcesOf. by rewrite Hdeclared.
    + rewrite F5. apply accept_schemas_declared; [|done].
      unfold dataSourcesOf. by rewrite Hdeclared.
Qed.

(** X12. GetProviderSchema on the server of a factory built without
    error calls no backend and returns, for every request, a response and
    no error. The resource schemas of the response are those the backends
    declared: a name has a schema in it exactly when some backend declared
    that schema under that name. The same holds for the data-source
    schemas, the provider schema and the provider-meta schema. *)
Theorem GetProviderSchema_returns_what_the_backends_declare servers t factory :
  NewSchemaServerFactory servers = (t, Returned (factory, None)) ->
  exists s,
    SchemaServerFactory.Server factory = ([], Returned s) /\
    forall req, exists resp,
      SchemaServer.GetProviderSchema s req = ([], Returned (Some resp, None)) /\
      (forall name schema,
          tfprotov5.ResourceSchemas resp !! name = Some schema <->
          exists (i : nat) si,
            servers !! i = Some si /\ resourcesOf si !! name = Some schema) /\
      (forall name schema,
          tfprotov5.DataSourceSchemas resp !! name = Some schema <->
          exists (i : nat) si,
            servers !! i = Some si /\ dataSourcesOf si !! name = Some schema) /\
      (forall schema,
          tfprotov5.Provider resp = Some schema <->
          exists (i : nat) si, servers !! i = Some si /\ providerOf si = Some schema) /\
      (forall schema,
          tfprotov5.ProviderMeta resp = Some schema <->
          exists (i : nat) si,
            servers !! i = Some si /\ providerMetaOf si = Some schema).
Proof.
  intros Hbuild.
  pose proof Hbuild as Hloop. unfold NewSchemaServerFactory in Hloop.
  apply (NewSchemaServerFactory_servers_schemas servers [] (length servers)) in Hloop
    as [Hres Hdata]; [|apply Registered_initial|intros ? ?; cbn; by rewrite lookup_empty..].
  apply NewSchemaServerFactory_Registered in Hbuild as [_ Hreg].
  destruct (Server_Registered _ _ Hreg) as (s & Hs & _ & _ & Hhandler & _).
  exists s. split; [done|]. intros req.
  unfold SchemaServer.GetProviderSchema. rewrite Hhandler.
  eexists. split; [reflexivity|]. cbn.
  destruct (reg_compatible _ _ _ Hreg) as (_ & Hsp & Hsm & _).
  split; [|split; [|split]].
  - intros name schema. split; [apply Hres|].
    intros (i & si & Hi & Hsi). by apply (proj2 (reg_resources _ _ _ Hreg) i si).
  - intros name schema. split; [apply Hdata|].
    intros (i & si & Hi & Hsi). by apply (proj2 (reg_dataSources _ _ _ Hreg) i si).
  - intros schema. split.
    + intros Hp. destruct (reg_provider _ _ _ Hreg)
        as [(Hnone & _)|(i & si & sch & Hi & Hsi & Heq & _)]; [congruence|].
      exists i, si. split; [done|]. congruence.
    + intros (i & si & Hi & Hsi).
      destruct (ownerRecorded_owner _ _ _ _ i si Hsp (reg_provider _ _ _ Hreg) Hi)
        as [-> _]; [by eexists|done].
  - intros schema. split.
    + intros Hp. destruct (reg_providerMeta _ _ _ Hreg)
        as [(Hnone & _)|(i & si & sch & Hi & Hsi & Heq & _)]; [congruence|].
      exists i, si. split; [done|]. congruence.
    + intros (i & si & Hi & Hsi).
      destruct (ownerRecorded_owner _ _ _ _ i si Hsm (reg_providerMeta _ _ _ Hreg) Hi)
        as [-> _]; [by eexists|done].
Qed.
(** *** The server of a factory and its routes *)

Lemma Server_servers_calls (l : list (option ServerFactory)) :
  calls (SchemaServerFactory.Server_servers l) = [].
Proof.
  induction l as [|[server|] l IH]; [done| |done].
  cbn [SchemaServerFactory.Server_servers]. rewrite bind_deref_Some.
  destruct (SchemaServerFactory.Server_servers l) as [t [tl|]]; simpl in *; by subst.
Qed.

Lemma Server_routes_calls entries (resServers : list ProviderServer) acc :
  calls (SchemaServerFactory.Server_routes entries resServers acc) = [].
Proof.
  revert acc. induction entries as [|[r pos] entries IH]; intros acc; [done|].
  cbn [SchemaServerFactory.Server_routes].
  destruct (index resServers pos) as [h|]; [|done].
  rewrite bind_deref_Some. apply IH.
Qed.

(** X13. Server calls no method of a backend, whatever the factory. On a
    factory built without error it returns a server whose backends are
    those the factory functions make, in the order the build was given
    them, and whose position for PrepareProviderConfig is the position the
    factory recorded as the origin of the provider schema. *)
Theorem Server_makes_the_backends_and_calls_none :
  (forall factory : Factory, calls (SchemaServerFactory.Server factory) = []) /\
  (forall servers t (factory : Factory),
      NewSchemaServerFactory servers = (t, Returned (factory, None)) ->
      exists s,
        SchemaServerFactory.Server factory = ([], Returned s) /\
        SchemaServer.servers s =
          (fun server : ServerFactory => server tt) <$> servers /\
        SchemaServer.prepareProviderConfigServer s =
          SchemaServerFactory.providerSchemaFrom factory).
Proof.
  split.
  - intros factory. unfold SchemaServerFactory.Server.
    pose proof (Server_servers_calls (SchemaServerFactory.servers factory)) as H1.
    destruct (SchemaServerFactory.Server_servers _) as [t1 [resServers|]];
      simpl in H1; subst t1; [|done].
    cbn [bind].
    pose proof (Server_routes_calls
                  (map_range (SchemaServerFactory.resources factory)) resServers ∅) as H2.
    destruct (SchemaServerFactory.Server_routes _ resServers ∅) as [t2 [res|]];
      simpl in H2; subst t2; [|done].
    cbn [bind].
    pose proof (Server_routes_calls
                  (map_range (SchemaServerFactory.dataSources factory)) resServers ∅)
      as H3.
    destruct (SchemaServerFactory.Server_routes _ resServers ∅) as [t3 [data|]];
      simpl in H3; subst t3; done.
  - intros servers t factory Hbuild.
    apply NewSchemaServerFactory_Registered in Hbuild as [_ Hreg].
    destruct (Server_Registered _ _ Hreg) as (s & Hs & Hservers & Hprep & _).
    by exists s.
Qed.

Ltac routed Htable :=
  let req := fresh "req" in
  intros req; cbv beta delta
    [SchemaServer.ValidateResourceTypeConfig
     SchemaServer.ValidateDataSourceConfig
     SchemaServer.UpgradeResourceState SchemaServer.ReadResource
     SchemaServer.PlanResourceChange SchemaServer.ApplyResourceChange
     SchemaServer.ImportResourceState SchemaServer.ReadDataSource];
  split;
  [ let i := fresh "i" in
    let si := fresh "si" in
    let Hi := fresh "Hi" in
    let Hsi := fresh "Hsi" in
    intros i si Hi Hsi;
    rewrite (proj2 (Htable _ (si tt)) (ex_intro _ i (ex_intro _ si
               (conj Hi (conj Hsi eq_refl)))));
    reflexivity
  | let Hnone := fresh "Hnone" in
    let Hk := fresh "Hk" in
    let Hin := fresh "Hin" in
    let Hdecl := fresh "Hdecl" in
    intros Hnone;
    match goal with
    | |- context [?table !! ?k] =>
        destruct (table !! k) as [h|] eqn:Hk; [|reflexivity]
    end;
    apply Htable in Hk as (? & ? & Hin & Hdecl & _);
    rewrite Forall_lookup in Hnone; destruct (Hnone _ _ Hin Hdecl) ].

(** X14. On the server of a factory built without error, each of the
    eight type-keyed operations reaches the backend that declared the type
    name of the request: the six resource operations the backend that
    declared it as a resource, the two data-source operations the backend
    that declared it as a data source. The operation calls that backend's
    method once with the request and returns the backend's response, with
    the backend's error wrapped if there is one. Where no backend declared
    the name, it calls no backend and returns the not-supported error for
    the name. *)
Theorem type_keyed_operations_reach_the_declaring_backend servers t factory :
  NewSchemaServerFactory servers = (t, Returned (factory, None)) ->
  exists s,
    SchemaServerFactory.Server factory = ([], Returned s) /\
    routesDeclared declaresResource
      tfprotov5.ValidateResourceTypeConfig SchemaServer.ValidateResourceTypeConfig
      servers s /\
    routesDeclared declaresResource
      tfprotov5.UpgradeResourceState SchemaServer.UpgradeResourceState servers s /\
    routesDeclared declaresResource
      tfprotov5.ReadResource SchemaServer.ReadResource servers s /\
    routesDeclared declaresResource
      tfprotov5.PlanResourceChange SchemaServer.PlanResourceChange servers s /\
    routesDeclared declaresResource
      tfprotov5.ApplyResourceChange SchemaServer.ApplyResourceChange servers s /\
    routesDeclared declaresResource
      tfprotov5.ImportResourceState SchemaServer.ImportResourceState servers s /\
    routesDeclared declaresDataSource
      tfprotov5.ValidateDataSourceConfig SchemaServer.ValidateDataSourceConfig
      servers s /\
    routesDeclared declaresDataSource
      tfprotov5.ReadDataSource SchemaServer.ReadDataSource servers s.
Proof.
  intros Hbuild.
  apply NewSchemaServerFactory_Registered in Hbuild as [_ Hreg].
  destruct (Server_Registered _ _ Hreg) as (s & Hs & _ & _ & _ & Hres & Hdata).
  exists s. split; [done|].
  split; [routed Hres|]. split; [routed Hres|]. split; [routed Hres|].
  split; [routed Hres|]. split; [routed Hres|]. split; [routed Hres|].
  split; [routed Hdata|routed Hdata].
Qed.
End FurtherBuildProperties.

(** ** The order of [range] does not show in what the build returns *)
Section RangeOrder.
Context {P : tfprotov5.Protocol} (R1 R2 : MapRange).

#[local] Abbreviation Factory := (@SchemaServerFactory.t P).

Lemma NewSchemaServerFactory_servers_same l pos (factory : Factory) t1 t2 f1 f2 :
  @NewSchemaServerFactory_servers P R1 pos l factory = (t1, Returned (f1, None)) ->
  @NewSchemaServerFactory_servers P R2 pos l factory = (t2, Returned (f2, None)) ->
  t1 = t2 /\ f1 = f2.
Proof.
  revert pos factory t1 t2.
  induction l as [|server l IH]; intros pos factory t1 t2.
  - simpl. by intros [= <- <-] [= <- <-].
  - cbn [NewSchemaServerFactory_servers]. intros H1 H2.
    apply andThen_None_inv in H1 as (u1 & g1 & v1 & Hs1 & Hl1 & ->).
    apply andThen_None_inv in H2 as (u2 & g2 & v2 & Hs2 & Hl2 & ->).
    apply (NewSchemaServerFactory_server_inv (R:=R1)) in Hs1
      as (resp1 & _ & Hschema1 & _ & _ & _ & _ & _ & -> & ->).
    apply (NewSchemaServerFactory_server_inv (R:=R2)) in Hs2
      as (resp2 & _ & Hschema2 & _ & _ & _ & _ & _ & -> & ->).
    assert (resp1 = resp2) as <- by congruence.
    destruct (IH _ _ _ _ Hl1 Hl2) as [-> ->]. done.
Qed.

(** X15. The order in which [range] goes over a map does not show in
    what the build returns. Where the build returns without error under
    one order, it makes the same calls and returns the same factory under
    any other order, and Server gives the same server under both. *)
Theorem NewSchemaServerFactory_result_is_independent_of_range_order
    servers t (factory : Factory) :
  @NewSchemaServerFactory P R1 servers = (t, Returned (factory, None)) ->
  @NewSchemaServerFactory P R2 servers = (t, Returned (factory, None)) /\
  forall s,
    @SchemaServerFactory.Server P R1 factory = ([], Returned s) ->
    @SchemaServerFactory.Server P R2 factory = ([], Returned s).
Proof.
  intros Hbuild.
  pose proof (NewSchemaServerFactory_returns_compatible (R:=R1) _ _ _ Hbuild) as Hcompat.
  destruct (NewSchemaServerFactory_compatible (R:=R2) servers Hcompat)
    as (factory2 & Hbuild2 & _).
  destruct (NewSchemaServerFactory_servers_same _ _ _ _ _ _ _ Hbuild Hbuild2) as [-> <-].
  split; [done|]. intros s Hs.
  apply (NewSchemaServerFactory_Registered (R:=R1)) in Hbuild as [_ Hreg].
  destruct (Server_Registered (R:=R1) _ _ Hreg)
    as (s1 & Hs1 & Hservers1 & Hprep1 & Hh1 & Hres1 & Hdata1).
  destruct (Server_Registered (R:=R2) _ _ Hreg)
    as (s2 & Hs2 & Hservers2 & Hprep2 & Hh2 & Hres2 & Hdata2).
  rewrite Hs in Hs1. injection Hs1 as <-. rewrite Hs2. do 2 f_equal.
  destruct s as [res1 data1 srv1 h1 p1], s2 as [res2 data2 srv2 h2 p2].
  simpl in *. subst. f_equal.
  - apply map_eq. intros name. apply option_eq. intros h.
    by rewrite Hres1, Hres2.
  - apply map_eq. intros name. apply option_eq. intros h.
    by rewrite Hdata1, Hdata2.
Qed.
End RangeOrder.

(** ** Runs of the further properties *)
Section FurtherRuns.
Import Examples MoreExamples.

Lemma build_ij :
  NewSchemaServerFactory (factoryOf <$> [serverI; serverJ]) =
    (schemaCalls (factoryOf <$> [serverI; serverJ]), Returned (ijFactory, None)).
Proof. vm_compute. reflexivity. Qed.

Lemma StopProvider_calls_every_quiet_backend_witness :
  SchemaServer.StopProvider (served [serverB; serverG]) "stop"%string =
    ([Called serverB tfprotov5.StopProviderRpc "stop"%string;
      Called serverG tfprotov5.StopProviderRpc "stop"%string],
     Returned (Some {| tfprotov5.Error := ""%string |}, None)).
Proof.
  apply (StopProvider_calls_every_quiet_backend (served [serverB; serverG])
           "stop"%string).
  repeat constructor; (eexists; split; reflexivity).
Defined.

Lemma StopProvider_ends_at_first_report_witness :
  SchemaServer.StopProvider (served [serverB; serverU; serverC]) "stop"%string =
    ([Called serverB tfprotov5.StopProviderRpc "stop"%string;
      Called serverU tfprotov5.StopProviderRpc "stop"%string],
     Returned (None, Some (ErrStopping serverU "stop down"%string))) /\
  SchemaServer.StopProvider (served [serverB; serverA; serverC]) "stop"%string =
    ([Called serverB tfprotov5.StopProviderRpc "stop"%string;
      Called serverA tfprotov5.StopProviderRpc "stop"%string],
     Returned (Some {| tfprotov5.Error := "a failed"%string |}, None)).
Proof.
  split.
  - apply (proj1 (StopProvider_ends_at_first_report
                    (served [serverB; serverU; serverC]) "stop"%string
                    [serverB] serverU [serverC] eq_refl
                    ltac:(repeat constructor; (eexists; split; reflexivity)))).
    reflexivity.
  - apply (proj2 (StopProvider_ends_at_first_report
                    (served [serverB; serverA; serverC]) "stop"%string
                    [serverB] serverA [serverC] eq_refl
                    ltac:(repeat constructor; (eexists; split; reflexivity)))).
    + reflexivity.
    + discriminate.
Defined.
Lemma ConfigureProvider_hands_on_failed_call_witness :
  SchemaServer.ConfigureProvider (served [serverA; serverU; serverC]) "req"%string =
    ([Called serverA tfprotov5.ConfigureProviderRpc "req"%string;
      Called serverU tfprotov5.ConfigureProviderRpc "req"%string],
     Returned
       (Some {| tfprotov5.ConfigureProviderResponse_Diagnostics :=
                  [Some (failure "u1"); None; Some (warning "u2")] |},
        Some (ErrConfiguring serverU "configure down"%string))).
Proof.
  apply (ConfigureProvider_hands_on_failed_call
           (served [serverA; serverU; serverC]) "req"%string
           [serverA] serverU [serverC]).
  - reflexivity.
  - repeat constructor. eexists. split; [reflexivity|compute_done].
  - reflexivity.
Defined.

Lemma ConfigureProvider_returns_at_most_one_error_diagnostic_witness :
  exists pre,
    Forall kept pre /\
    ([Some (warning "a1"); Some (warning "b1"); Some (failure "b2")] = pre \/
     exists diag,
       tfprotov5.Severity diag = tfprotov5.DiagnosticSeverityError /\
       [Some (warning "a1"); Some (warning "b1"); Some (failure "b2")] =
         pre ++ [Some diag]).
Proof.
  apply (ConfigureProvider_returns_at_most_one_error_diagnostic abc "req"%string
           {| tfprotov5.ConfigureProviderResponse_Diagnostics :=
                [Some (warning "a1"); Some (warning "b1"); Some (failure "b2")] |}).
  reflexivity.
Defined.

Lemma fan_out_panics_on_nil_response_witness :
  SchemaServer.ConfigureProvider (served [serverA; serverV; serverC]) "req"%string =
    ([Called serverA tfprotov5.ConfigureProviderRpc "req"%string;
      Called serverV tfprotov5.ConfigureProviderRpc "req"%string], Panicked) /\
  SchemaServer.StopProvider (served [serverB; serverV; serverC]) "stop"%string =
    ([Called serverB tfprotov5.StopProviderRpc "stop"%string;
      Called serverV tfprotov5.StopProviderRpc "stop"%string], Panicked).
Proof.
  split.
  - apply (proj1 (fan_out_panics_on_nil_response
                    (served [serverA; serverV; serverC])
                    [serverA] serverV [serverC] eq_refl) "req"%string).
    + repeat constructor. eexists. split; [reflexivity|compute_done].
    + reflexivity.
  - apply (proj2 (fan_out_panics_on_nil_response
                    (served [serverB; serverV; serverC])
                    [serverB] serverV [serverC] eq_refl) "stop"%string).
    + repeat constructor. eexists. split; reflexivity.
    + reflexivity.
Defined.

Lemma PrepareProviderConfig_checks_bounds_witness :
  SchemaServer.PrepareProviderConfig bc "config"%string =
    ([], Returned (None, Some ErrNoProviderSchemaServer)) /\
  exists server,
    SchemaServer.servers abc !! 0%nat = Some server /\
    SchemaServer.PrepareProviderConfig abc "config"%string =
      ([Called server tfprotov5.PrepareProviderConfigRpc "config"%string],
       Returned (SchemaServer.forward
                   (tfprotov5.PrepareProviderConfig server "config"%string))).
Proof.
  split.
  - apply (proj1 (PrepareProviderConfig_checks_bounds bc "config"%string)).
    left. reflexivity.
  - apply (proj2 (PrepareProviderConfig_checks_bounds abc "config"%string)).
    split; reflexivity.
Defined.

Lemma NewSchemaServerFactory_ends_at_failed_schema_call_witness :
  exists factory',
    NewSchemaServerFactory
      ([factoryOf serverA] ++ factoryOf serverT :: [factoryOf serverC]) =
      (schemaCalls ([factoryOf serverA] ++ [factoryOf serverT]),
       Returned (factory', Some (ErrRetrievingSchema serverT "schema down"%string))) /\
    SchemaServerFactory.servers factory' = [Some (factoryOf serverA); None; None] /\
    SchemaServerFactory.diagnostics factory' =
      [Some (warning "a1"); Some (warning "a2")] /\
    SchemaServerFactory.Server factory' = ([], Panicked).
Proof.
  apply (NewSchemaServerFactory_ends_at_failed_schema_call
           [factoryOf serverA] (factoryOf serverT) [factoryOf serverC]
           (Some (schemaResponse None None ["t_thing"%string] []
                    [Some (warning "t0")])) "schema down"%string compatible_a).
  reflexivity.
Defined.

Lemma NewSchemaServerFactory_panics_on_nil_response_witness :
  NewSchemaServerFactory
    ([factoryOf serverA] ++ factoryOf serverN :: [factoryOf serverC]) =
    (schemaCalls ([factoryOf serverA] ++ [factoryOf serverN]), Panicked).
Proof.
  apply (NewSchemaServerFactory_panics_on_nil_response
           [factoryOf serverA] (factoryOf serverN) [factoryOf serverC] compatible_a).
  reflexivity.
Defined.

Lemma NewSchemaServerFactory_keeps_no_nil_or_error_diagnostic_witness :
  Forall kept [Some (warning "a1"); Some (warning "a2"); Some (warning "b1")].
Proof.
  apply (NewSchemaServerFactory_keeps_no_nil_or_error_diagnostic _ _ _ _ build_abc).
Defined.

Lemma GetProviderSchema_returns_what_the_backends_declare_witness :
  exists s,
    SchemaServerFactory.Server abcFactory = ([], Returned s) /\
    exists resp,
      SchemaServer.GetProviderSchema s ""%string = ([], Returned (Some resp, None)) /\
      tfprotov5.ResourceSchemas resp !! "b_thing"%string = Some (Some "b_thing"%string) /\
      tfprotov5.Provider resp = Some "provider"%string.
Proof.
  destruct (GetProviderSchema_returns_what_the_backends_declare _ _ _ build_abc)
    as (s & Hs & Hreq).
  exists s. split; [exact Hs|].
  destruct (Hreq ""%string) as (resp & Hresp & Hres & _ & Hprov & _).
  exists resp. split; [exact Hresp|]. split.
  - apply Hres. exists 1%nat, (factoryOf serverB). split; reflexivity.
  - apply Hprov. exists 0%nat, (factoryOf serverA). split; reflexivity.
Defined.

Lemma Server_makes_the_backends_and_calls_none_witness :
  exists s,
    SchemaServerFactory.Server abcFactory = ([], Returned s) /\
    SchemaServer.servers s = [serverA; serverB; serverC] /\
    SchemaServer.prepareProviderConfigServer s = 0.
Proof.
  apply (proj2 Server_makes_the_backends_and_calls_none _ _ _ build_abc).
Defined.

Lemma type_keyed_operations_reach_the_declaring_backend_witness :
  exists s,
    SchemaServerFactory.Server ijFactory = ([], Returned s) /\
    SchemaServer.ReadResource s "shared"%string =
      ([Called serverI tfprotov5.ReadResourceRpc "shared"%string],
       Returned (Some "I:shared"%string, None)) /\
    SchemaServer.ReadDataSource s "shared"%string =
      ([Called serverJ tfprotov5.ReadDataSourceRpc "shared"%string],
       Returned (Some "J:shared"%string, None)) /\
    SchemaServer.ReadResource s "other"%string =
      ([], Returned (None, Some (ErrNotSupported "other"%string))).
Proof.
  destruct (type_keyed_operations_reach_the_declaring_backend _ _ _ build_ij)
    as (s & Hs & _ & _ & Hread & _ & _ & _ & _ & Hdata).
  exists s. split; [exact Hs|]. split; [|split].
  - apply (proj1 (Hread "shared"%string) 0%nat (factoryOf serverI)); [reflexivity|].
    compute_done.
  - apply (proj1 (Hdata "shared"%string) 1%nat (factoryOf serverJ)); [reflexivity|].
    compute_done.
  - apply (proj2 (Hread "other"%string)).
    repeat constructor; intros [schema Hschema]; vm_compute in Hschema; discriminate.
Defined.

Lemma NewSchemaServerFactory_result_is_independent_of_range_order_witness :
  @NewSchemaServerFactory _ range_reversed (factoryOf <$> [serverA; serverB; serverC]) =
    (schemaCalls (factoryOf <$> [serverA; serverB; serverC]),
     Returned (abcFactory, None)) /\
  @SchemaServerFactory.Server _ range_reversed abcFactory = ([], Returned abc).
Proof.
  destruct (NewSchemaServerFactory_result_is_independent_of_range_order
              range_to_list range_reversed _ _ _ build_abc) as [Hbuild Hserver].
  split; [exact Hbuild|]. apply Hserver. exact server_abc.
Defined.
End FurtherRuns.

End tfmux.

(** ** Properties of dynamicValueEquals *)
Section DynamicValueEqualityProperties.
Context {DynamicValue Ty Value UnmarshalError : Type}.
Variable Unmarshal :
  DynamicValue -> option Ty -> Outcome (Value * option UnmarshalError).
Variable Equal : Value -> Value -> bool.

#[local] Abbreviation dynamicValueEquals :=
  (tf6muxserver.dynamicValueEquals Unmarshal Equal).

(** C9. dynamicValueEquals on nil inputs, whatever [Unmarshal] does: nil
    against nil is true with no error; nil against a value, either way
    round, is false with no error; and two values with a nil schema type
    give false with the missing-type error. In none of these cases is
    [Unmarshal] called, so none of them panics. *)
Theorem dynamicValueEquals_nil :
  (forall schemaType,
      dynamicValueEquals schemaType None None = ([], Returned (true, None))) /\
  (forall schemaType j,
      dynamicValueEquals schemaType None (Some j) = ([], Returned (false, None))) /\
  (forall schemaType i,
      dynamicValueEquals schemaType (Some i) None = ([], Returned (false, None))) /\
  (forall i j,
      dynamicValueEquals None (Some i) (Some j) =
        ([], Returned (false, Some tf6muxserver.ErrMissingType))).
Proof. repeat split. Qed.
End DynamicValueEqualityProperties.

(** ** Further properties of dynamicValueEquals *)
Section DynamicValueEqualityFurther.
Context {DynamicValue Ty Value UnmarshalError : Type}.
Variable Unmarshal :
  DynamicValue -> option Ty -> Outcome (Value * option UnmarshalError).
Variable Equal : Value -> Value -> bool.

#[local] Abbreviation dynamicValueEquals :=
  (tf6muxserver.dynamicValueEquals Unmarshal Equal).

(** X16. dynamicValueEquals answers true only for two nil values, or for
    two values that both unmarshal, with a type that is not nil, to values
    that [Equal] holds equal; true never comes with an error. And an error
    always comes with false. *)
Theorem dynamicValueEquals_true_only_for_equal_values schemaType i j :
  (forall e,
      (dynamicValueEquals schemaType i j).2 = Returned (true, e) ->
      e = None /\
      ((i = None /\ j = None) \/
       exists iv jv v w,
         i = Some iv /\ j = Some jv /\ is_Some schemaType /\
         Unmarshal iv schemaType = Returned (v, None) /\
         Unmarshal jv schemaType = Returned (w, None) /\
         Equal v w = true)) /\
  (forall b e,
      (dynamicValueEquals schemaType i j).2 = Returned (b, Some e) -> b = false).
Proof.
  unfold tf6muxserver.dynamicValueEquals. split.
  - intros e. destruct i as [iv|], j as [jv|]; simpl; try by intros [= <-]; eauto.
    destruct schemaType as [ty|]; [|done].
    destruct (Unmarshal iv (Some ty)) as [[v [err|]]|] eqn:Hi; [done| |done].
    destruct (Unmarshal jv (Some ty)) as [[w [err|]]|] eqn:Hj; [done| |done].
    simpl. intros [= Heq <-]. split; [done|]. right.
    exists iv, jv, v, w. by repeat split.
  - intros b e. destruct i as [iv|], j as [jv|]; simpl; try done.
    destruct schemaType as [ty|]; [|by intros [= <-]].
    destruct (Unmarshal iv (Some ty)) as [[v [err|]]|]; [by intros [= <-]| |done].
    destruct (Unmarshal jv (Some ty)) as [[w [err|]]|]; [by intros [= <-]|done|done].
Qed.

(** X17. Where [Equal] is symmetric, dynamicValueEquals is symmetric in
    its two values whenever it returns without error: the answer for
    [i] and [j] is the answer for [j] and [i]. *)
Theorem dynamicValueEquals_symmetric schemaType i j b :
  (forall v w, Equal v w = Equal w v) ->
  (dynamicValueEquals schemaType i j).2 = Returned (b, None) ->
  (dynamicValueEquals schemaType j i).2 = Returned (b, None).
Proof.
  intros Hsym. unfold tf6muxserver.dynamicValueEquals.
  destruct i as [iv|], j as [jv|]; simpl; try done.
  destruct schemaType as [ty|]; [|done].
  destruct (Unmarshal iv (Some ty)) as [[v [err|]]|]; [done| |done].
  destruct (Unmarshal jv (Some ty)) as [[w [err|]]|]; [done| |done].
  simpl. by rewrite (Hsym v w).
Qed.
End DynamicValueEqualityFurther.

Lemma dynamicValueEquals_true_only_for_equal_values_witness :
  @None (@tf6muxserver.error string) = None /\
  ((Some 4%nat = None /\ Some 5%nat = None) \/
   exists iv jv v w,
     Some 4%nat = Some iv /\ Some 5%nat = Some jv /\ is_Some (Some tt) /\
     tf6Examples.halve iv (Some tt) = Returned (v, None) /\
     tf6Examples.halve jv (Some tt) = Returned (w, None) /\
     Nat.eqb v w = true).
Proof.
  apply (proj1 (dynamicValueEquals_true_only_for_equal_values
                  tf6Examples.halve Nat.eqb (Some tt) (Some 4%nat) (Some 5%nat))).
  reflexivity.
Defined.

Lemma dynamicValueEquals_symmetric_witness :
  (tf6muxserver.dynamicValueEquals tf6Examples.halve Nat.eqb
     (Some tt) (Some 5%nat) (Some 4%nat)).2 = Returned (true, None).
Proof.
  apply (dynamicValueEquals_symmetric tf6Examples.halve Nat.eqb
           (Some tt) (Some 4%nat) (Some 5%nat) true).
  - intros v w. apply Nat.eqb_sym.
  - reflexivity.
Defined.
